(** * RouteController: policy-routing control plane of netd

    A shallow embedding of [server/RouteController.cpp].  Every function of
    the C++ file that talks to the outside (netlink socket, [if_nametoindex],
    forked helpers) becomes a state-passing function over a [World]: the world
    holds the one piece of program state ([interfaceToIndex]), the answers of
    the environment, and the trace of everything handed to the environment.

    32-bit unsigned values are integers in [0, 2^32) with the wrap-around
    written out ([u32]); [int] results are plain integers (0 is success, a
    negative value is [-errno]).  A nullable [const char*] is an
    [option string]. *)

From Stdlib Require Import ZArith Lia HexString.
From stdpp Require Import base gmap strings list pretty.

Open Scope Z_scope.

(** ** Machine integers *)

Definition u8 (z : Z) : Z := z mod 2 ^ 8.
Definition u16 (z : Z) : Z := z mod 2 ^ 16.
Definition u32 (z : Z) : Z := z mod 2 ^ 32.
Definition INT_MAX : Z := 2 ^ 31 - 1.

(** [~x] on a [uint32_t]. *)
Definition not32 (x : Z) : Z := u32 (Z.lnot x).

(** ** Constants of the kernel and libc headers *)

Definition ESRCH : Z := 3.
Definition EFAULT : Z := 14.
Definition EEXIST : Z := 17.
Definition ENODEV : Z := 19.
Definition EINVAL : Z := 22.
Definition ERANGE : Z := 34.
Definition ENAMETOOLONG : Z := 36.
Definition EBADMSG : Z := 74.
Definition EUSERS : Z := 87.
Definition ENOBUFS : Z := 105.
Definition EREMOTEIO : Z := 121.

Definition AF_INET : Z := 2.
Definition AF_INET6 : Z := 10.
Definition IFNAMSIZ : Z := 16.

Definition NLM_F_REQUEST : Z := 1.
Definition NLM_F_ACK : Z := 4.
Definition NLM_F_EXCL : Z := 512.
Definition NLM_F_CREATE : Z := 1024.

Definition RTM_NEWROUTE : Z := 24.
Definition RTM_DELROUTE : Z := 25.
Definition RTM_NEWRULE : Z := 32.
Definition RTM_DELRULE : Z := 33.

Definition FR_ACT_TO_TBL : Z := 1.
Definition FR_ACT_UNREACHABLE : Z := 7.
Definition FRA_PRIORITY : Z := 6.
Definition FRA_FWMARK : Z := 10.
Definition FRA_TABLE : Z := 15.
Definition FRA_FWMASK : Z := 16.
Definition FRA_OIFNAME : Z := 17.

Definition RT_TABLE_MAIN : Z := 254.
Definition RTPROT_STATIC : Z := 4.
Definition RTN_UNICAST : Z := 1.
Definition RTA_DST : Z := 1.
Definition RTA_OIF : Z := 4.
Definition RTA_GATEWAY : Z := 5.
Definition RTA_TABLE : Z := 15.

Definition sizeof_uint32 : Z := 4.
Definition sizeof_rtattr : Z := 4.
Definition sizeof_nlmsghdr : Z := 16.
Definition sizeof_nlmsgerr : Z := 20.
Definition sizeof_fib_rule_hdr : Z := 12.
Definition sizeof_rtmsg : Z := 12.
Definition sizeof_in6_addr : Z := 16.

(** [RTA_ALIGNTO], [RTA_ALIGN], [RTA_LENGTH] and [RTA_SPACE] of
    <linux/rtnetlink.h>. *)
Definition RTA_ALIGNTO : Z := 4.
Definition RTA_ALIGN (len : Z) : Z :=
  Z.land (len + RTA_ALIGNTO - 1) (Z.lnot (RTA_ALIGNTO - 1)).
Definition RTA_LENGTH (len : Z) : Z := RTA_ALIGN sizeof_rtattr + len.
Definition RTA_SPACE (len : Z) : Z := RTA_ALIGN (RTA_LENGTH len).

(** ** Constants of RouteController.cpp *)

Definition RULE_PRIORITY_PRIVILEGED_LEGACY : Z := 11000.
Definition RULE_PRIORITY_SECURE_VPN : Z := 12000.
Definition RULE_PRIORITY_PER_NETWORK_EXPLICIT : Z := 13000.
Definition RULE_PRIORITY_PER_NETWORK_INTERFACE : Z := 14000.
Definition RULE_PRIORITY_LEGACY : Z := 16000.
Definition RULE_PRIORITY_PER_NETWORK_NORMAL : Z := 17000.
Definition RULE_PRIORITY_DEFAULT_NETWORK : Z := 19000.
Definition RULE_PRIORITY_MAIN : Z := 20000.

Definition FRA_UID_START : Z := 18.
Definition FRA_UID_END : Z := 19.

(** [static_cast<uid_t>(-1)] *)
Definition INVALID_UID : Z := u32 (-1).

Definition NETLINK_REQUEST_FLAGS : Z := Z.lor NLM_F_REQUEST NLM_F_ACK.
Definition NETLINK_CREATE_REQUEST_FLAGS : Z :=
  Z.lor (Z.lor NETLINK_REQUEST_FLAGS NLM_F_CREATE) NLM_F_EXCL.

Definition AF_FAMILIES : list Z := [AF_INET; AF_INET6].
Definition IP_VERSIONS : list string := ["-4"; "-6"]%string.

Definition U16_RTA_LENGTH (x : Z) : Z := u16 (RTA_LENGTH (u16 x)).

(** ** Message segments

    An [iovec] points at an object and gives the number of its bytes that
    belong to the message.  The object is kept structured; an entry of
    length 0 contributes nothing to the datagram. *)

Inductive Payload :=
| PNull
| PNlmsghdr (nlmsg_len nlmsg_type nlmsg_flags : Z)
| PFibRuleHdr (family action : Z)
| PRtmsg (rtm_family rtm_dst_len rtm_protocol rtm_type : Z)
| PRtattr (rta_len rta_type : Z)
| PU32 (value : Z)
| PBuffer (bytes : list Z)
| PPadding.

Record iovec := Iovec { iov_base : Payload; iov_len : Z }.

#[global] Instance Payload_eq_dec : EqDecision Payload.
Proof. solve_decision. Defined.
#[global] Instance iovec_eq_dec : EqDecision iovec.
Proof. solve_decision. Defined.

(** The bytes of a C string, without the terminator. *)
Definition string_bytes (s : string) : list Z :=
  (fun a => Z.of_nat (Ascii.nat_of_ascii a)) <$> String.list_ascii_of_string s.

(** ** The world *)

(** What the four system calls of one netlink exchange return: the results
    of [socket], [connect], [writev] and [recv], the [errno] left by the one
    that failed, and [response.err.error] as received. *)
Record Syscalls := {
  sys_socket : Z;
  sys_connect : Z;
  sys_writev : Z;
  sys_recv : Z;
  sys_errno : Z;
  response_err_error : Z;
}.

(** What the program does to its surroundings, in the order it does it.
    [EvNetlink] is one call of [sendNetlinkRequest]: the datagram it put
    together and what it returned; whether the datagram got as far as
    [writev] is told by the system calls behind the result.  [EvIptables]
    and [EvExec] are one external command each, with its arguments and
    its result; [registry] is [interfaceToIndex] as the program holds it
    at the moment the command is started. *)
Inductive Event :=
| EvNetlink (iov : list iovec) (ret : Z)
| EvIptables (args : list string) (ret : Z)
| EvExec (argv : list string) (ret : Z) (registry : gmap string Z).

#[global] Instance Event_eq_dec : EqDecision Event.
Proof. solve_decision. Defined.

(** The environment answers as a function of everything it was handed so
    far, so a later request may be answered differently from an identical
    earlier one.  [if_nametoindex] is the interface table of the system at
    the time of the call; it may differ from one world to the next. *)
Record World := {
  if_nametoindex : string → Z;
  netlink : list Event → list iovec → Syscalls;
  execIptables : list Event → list string → Z;
  android_fork_execvp : list Event → list string → Z;
  interfaceToIndex : gmap string Z;
  trace : list Event;
}.

Definition set_interfaceToIndex (m : gmap string Z) (w : World) : World :=
  {| if_nametoindex := if_nametoindex w; netlink := netlink w;
     execIptables := execIptables w;
     android_fork_execvp := android_fork_execvp w;
     interfaceToIndex := m; trace := trace w |}.

Definition record (e : Event) (w : World) : World :=
  {| if_nametoindex := if_nametoindex w; netlink := netlink w;
     execIptables := execIptables w;
     android_fork_execvp := android_fork_execvp w;
     interfaceToIndex := interfaceToIndex w; trace := trace w ++ [e] |}.

(** Changes of the environment between two calls. *)
Definition set_if_nametoindex (f : string → Z) (w : World) : World :=
  {| if_nametoindex := f; netlink := netlink w;
     execIptables := execIptables w;
     android_fork_execvp := android_fork_execvp w;
     interfaceToIndex := interfaceToIndex w; trace := trace w |}.

Definition set_netlink (k : list Event → list iovec → Syscalls) (w : World) : World :=
  {| if_nametoindex := if_nametoindex w; netlink := k;
     execIptables := execIptables w;
     android_fork_execvp := android_fork_execvp w;
     interfaceToIndex := interfaceToIndex w; trace := trace w |}.

Definition set_android_fork_execvp (x : list Event → list string → Z) (w : World) : World :=
  {| if_nametoindex := if_nametoindex w; netlink := netlink w;
     execIptables := execIptables w;
     android_fork_execvp := x;
     interfaceToIndex := interfaceToIndex w; trace := trace w |}.

Definition set_execIptables (x : list Event → list string → Z) (w : World) : World :=
  {| if_nametoindex := if_nametoindex w; netlink := netlink w;
     execIptables := x;
     android_fork_execvp := android_fork_execvp w;
     interfaceToIndex := interfaceToIndex w; trace := trace w |}.

(** A computation that returns an [A] and leaves a new world. *)
Definition M (A : Type) : Type := World → A * World.

Definition ret {A} (a : A) : M A := fun w => (a, w).
Definition bind {A B} (m : M A) (k : A → M B) : M B :=
  fun w => let '(a, w1) := m w in k a w1.

(** [if (int ret = m) { return ret; }  k] *)
Definition orReturn (m : M Z) (k : M Z) : M Z :=
  fun w => let '(r, w1) := m w in if decide (r = 0) then k w1 else (r, w1).

Notation "'call' x ':=' m ';;' k" := (bind m (fun x => k))
  (at level 100, x name, m at next level, right associativity, only parsing).
Notation "'check' m ;; k" := (orReturn m k)
  (at level 100, m at next level, right associativity, only parsing).

(** ** Protocol transport *)

(** [nlmsg.nlmsg_len += iov[i].iov_len] for every entry, in a [uint32_t]. *)
Definition sum_iov_len (iov : list iovec) : Z :=
  fold_left (fun acc v => u32 (acc + iov_len v)) iov 0.

(** The caller leaves entry 0 empty; it is pointed at the header here,
    before the lengths are added up.  [iovlen] is the length of [iov]. *)
Definition datagram (action flags : Z) (iov : list iovec) : list iovec :=
  let iov0 := <[0%nat := Iovec PNull sizeof_nlmsghdr]> iov in
  let nlmsg := PNlmsghdr (sum_iov_len iov0) action flags in
  <[0%nat := Iovec nlmsg sizeof_nlmsghdr]> iov.

(** The value of [ret] once the socket has been used. *)
Definition netlinkResult (sys : Syscalls) : Z :=
  if decide (sys_socket sys ≠ -1 ∧ sys_connect sys ≠ -1 ∧
             sys_writev sys ≠ -1 ∧ sys_recv sys ≠ -1)
  then if decide (sys_recv sys = sizeof_nlmsghdr + sizeof_nlmsgerr)
       then response_err_error sys
       else - EBADMSG
  else - sys_errno sys.

Definition sendNetlinkRequest (action flags : Z) (iov : list iovec) : M Z :=
  fun w =>
    let msg := datagram action flags iov in
    let r := netlinkResult (netlink w (trace w) msg) in
    (r, record (EvNetlink msg r) w).

(** ** Rule encoder *)

(** The body of the loop over [AF_FAMILIES]: [send family] is one
    [sendNetlinkRequest] with [rule.family] set; the first non-zero result
    is returned at once. *)
Fixpoint forEachFamily (families : list Z) (send : Z → M Z) : M Z :=
  match families with
  | [] => ret 0
  | family :: rest => check send family ;; forEachFamily rest send
  end.

(** The [iovec] array of [modifyIpRule], for one value of [rule.family]. *)
Definition ruleIov (family priority table fwmark mask : Z)
    (interface : option string) (interfaceLength paddingLength : Z)
    (uidStart uidEnd : Z) : list iovec :=
  let isUidRule := bool_decide (uidStart ≠ INVALID_UID) in
  let isTable := bool_decide (table ≠ 0) in
  let isMask := bool_decide (mask ≠ 0) in
  let rule :=
    PFibRuleHdr family (u8 (if isTable then FR_ACT_TO_TBL else FR_ACT_UNREACHABLE)) in
  let FRATTR_PRIORITY := PRtattr (U16_RTA_LENGTH sizeof_uint32) FRA_PRIORITY in
  let FRATTR_TABLE := PRtattr (U16_RTA_LENGTH sizeof_uint32) FRA_TABLE in
  let FRATTR_FWMARK := PRtattr (U16_RTA_LENGTH sizeof_uint32) FRA_FWMARK in
  let FRATTR_FWMASK := PRtattr (U16_RTA_LENGTH sizeof_uint32) FRA_FWMASK in
  let FRATTR_UID_START := PRtattr (U16_RTA_LENGTH sizeof_uint32) FRA_UID_START in
  let FRATTR_UID_END := PRtattr (U16_RTA_LENGTH sizeof_uint32) FRA_UID_END in
  let fraOifname := PRtattr (U16_RTA_LENGTH interfaceLength) FRA_OIFNAME in
  let oifname :=
    PBuffer (from_option (fun name => string_bytes name ++ [0]) [] interface) in
  [ Iovec PNull 0;
    Iovec rule sizeof_fib_rule_hdr;
    Iovec FRATTR_PRIORITY sizeof_rtattr;
    Iovec (PU32 priority) sizeof_uint32;
    Iovec FRATTR_TABLE (if isTable then sizeof_rtattr else 0);
    Iovec (PU32 table) (if isTable then sizeof_uint32 else 0);
    Iovec FRATTR_FWMARK (if isMask then sizeof_rtattr else 0);
    Iovec (PU32 fwmark) (if isMask then sizeof_uint32 else 0);
    Iovec FRATTR_FWMASK (if isMask then sizeof_rtattr else 0);
    Iovec (PU32 mask) (if isMask then sizeof_uint32 else 0);
    Iovec FRATTR_UID_START (if isUidRule then sizeof_rtattr else 0);
    Iovec (PU32 uidStart) (if isUidRule then sizeof_uint32 else 0);
    Iovec FRATTR_UID_END (if isUidRule then sizeof_rtattr else 0);
    Iovec (PU32 uidEnd) (if isUidRule then sizeof_uint32 else 0);
    Iovec fraOifname (if interface is Some _ then sizeof_rtattr else 0);
    Iovec oifname interfaceLength;
    Iovec PPadding paddingLength ].

(** [strlcpy(oifname, interface, IFNAMSIZ) + 1] *)
Definition interfaceLengthOf (interface : option string) : Z :=
  match interface with
  | Some name => Z.of_nat (String.length name) + 1
  | None => 0
  end.

Definition paddingLengthOf (interface : option string) : Z :=
  match interface with
  | Some _ =>
      let len := interfaceLengthOf interface in
      u16 (RTA_SPACE len - RTA_LENGTH len)
  | None => 0
  end.

Definition ruleFlags (action : Z) : Z :=
  if decide (action = RTM_NEWRULE) then NETLINK_CREATE_REQUEST_FLAGS
  else NETLINK_REQUEST_FLAGS.

Definition modifyIpRule (action priority table fwmark mask : Z)
    (interface : option string) (uidStart uidEnd : Z) : M Z :=
  if decide (Z.land fwmark (not32 mask) ≠ 0) then ret (- ERANGE)
  else
    let interfaceLength := interfaceLengthOf interface in
    if decide (interfaceLength > IFNAMSIZ) then ret (- ENAMETOOLONG)
    else
      let paddingLength := paddingLengthOf interface in
      if decide (bool_decide (uidStart = INVALID_UID)
                 ≠ bool_decide (uidEnd = INVALID_UID))
      then ret (- EUSERS)
      else
        forEachFamily AF_FAMILIES (fun family =>
          sendNetlinkRequest action (ruleFlags action)
            (ruleIov family priority table fwmark mask interface
               interfaceLength paddingLength uidStart uidEnd)).

(** ** The packet mark *)

(** Modelled from the spec: Fwmark.h is not among the sources.  The mark is
    a 32-bit packed value with four named fields (network id, permission,
    "explicitly selected", "protected from VPN"); the code reads it as
    [intValue] and writes the fields one by one.  The fields are kept
    apart here and the packing, [intValue], is left to the layout. *)

Record Fwmark := {
  netId : Z;
  explicitlySelected : bool;
  protectedFromVpn : bool;
  permission : Z;
}.

(** Modelled from the spec: the constructor of Fwmark.h; a fresh mark or
    mask selects nothing, every field is zero. *)
Definition Fwmark_new : Fwmark :=
  {| netId := 0; explicitlySelected := false; protectedFromVpn := false;
     permission := 0 |}.

Definition set_netId (v : Z) (f : Fwmark) : Fwmark :=
  {| netId := v; explicitlySelected := explicitlySelected f;
     protectedFromVpn := protectedFromVpn f; permission := permission f |}.
Definition set_explicitlySelected (v : bool) (f : Fwmark) : Fwmark :=
  {| netId := netId f; explicitlySelected := v;
     protectedFromVpn := protectedFromVpn f; permission := permission f |}.
Definition set_protectedFromVpn (v : bool) (f : Fwmark) : Fwmark :=
  {| netId := netId f; explicitlySelected := explicitlySelected f;
     protectedFromVpn := v; permission := permission f |}.
Definition set_permission (v : Z) (f : Fwmark) : Fwmark :=
  {| netId := netId f; explicitlySelected := explicitlySelected f;
     protectedFromVpn := protectedFromVpn f; permission := v |}.

(** What [parsePrefix] leaves behind: its result and its out-parameters. *)
Record Prefix := {
  rawLength : Z;
  family : Z;
  rawAddress : list Z;
  prefixLength : Z;
}.

(** Modelled from the spec: the enumeration [RouteController::TableType] of
    RouteController.h, with the three kinds of table the spec names. *)
Inductive TableType := INTERFACE | LEGACY | PRIVILEGED_LEGACY.

#[global] Instance TableType_eq_dec : EqDecision TableType.
Proof. solve_decision. Defined.

Section RouteController.

(** Declared in headers that are not part of this file: the offset of
    RouteController.h, the mark layout of Fwmark.h, the permission of
    Permission.h, and the helpers and paths of NetdConstants.h. *)
Variable ROUTE_TABLE_OFFSET_FROM_INDEX : Z.
Variable FWMARK_NET_ID_MASK : Z.
Variable PERMISSION_CONNECTIVITY_INTERNAL : Z.
Variable PERMISSION_NONE : Z.
Variable intValue : Fwmark → Z.
Variable parsePrefix : string → Prefix.
Variable inet_pton : Z → string → Z * list Z.
Variable IP_PATH : string.

(** Both are [const int], converted to [uint32_t] where they are used as a
    table. *)
Definition ROUTE_TABLE_PRIVILEGED_LEGACY : Z := ROUTE_TABLE_OFFSET_FROM_INDEX - 901.
Definition ROUTE_TABLE_LEGACY : Z := ROUTE_TABLE_OFFSET_FROM_INDEX - 902.

(** *** Interface table registry *)

Definition getRouteTableForInterface (interface : string) : M Z :=
  fun w =>
    let index := u32 (if_nametoindex w interface) in
    let '(index, w) :=
      if decide (index ≠ 0)
      then (index, set_interfaceToIndex (<[interface := index]> (interfaceToIndex w)) w)
      else match interfaceToIndex w !! interface with
           | Some cached => (cached, w)
           | None => (index, w)
           end in
    (if decide (index ≠ 0) then u32 (index + ROUTE_TABLE_OFFSET_FROM_INDEX) else 0, w).

(** *** Route encoder *)

Definition routeFlags (action : Z) : Z :=
  if decide (action = RTM_NEWROUTE) then NETLINK_CREATE_REQUEST_FLAGS
  else NETLINK_REQUEST_FLAGS.

Definition routeIov (p : Prefix) (table : Z) (interface : option string)
    (ifindex : Z) (nexthop : option string) (rawNexthop : list Z) : list iovec :=
  let route :=
    PRtmsg (family p) (prefixLength p) RTPROT_STATIC RTN_UNICAST in
  let RTATTR_TABLE := PRtattr (U16_RTA_LENGTH sizeof_uint32) RTA_TABLE in
  let RTATTR_OIF := PRtattr (U16_RTA_LENGTH sizeof_uint32) RTA_OIF in
  let rtaDst := PRtattr (U16_RTA_LENGTH (rawLength p)) RTA_DST in
  let rtaGateway := PRtattr (U16_RTA_LENGTH (rawLength p)) RTA_GATEWAY in
  [ Iovec PNull 0;
    Iovec route sizeof_rtmsg;
    Iovec RTATTR_TABLE sizeof_rtattr;
    Iovec (PU32 table) sizeof_uint32;
    Iovec rtaDst sizeof_rtattr;
    Iovec (PBuffer (rawAddress p)) (rawLength p);
    Iovec RTATTR_OIF (if interface is Some _ then sizeof_rtattr else 0);
    Iovec (PU32 ifindex) (if interface is Some _ then sizeof_uint32 else 0);
    Iovec rtaGateway (if nexthop is Some _ then sizeof_rtattr else 0);
    Iovec (PBuffer rawNexthop) (if nexthop is Some _ then rawLength p else 0) ].

Definition modifyIpRoute (action table : Z) (interface : option string)
    (destination nexthop : option string) : M Z :=
  fun w =>
    match destination with
    | None => (- EFAULT, w)
    | Some destination =>
        let p := parsePrefix destination in
        if decide (rawLength p < 0) then (rawLength p, w)
        else if decide (rawLength p > sizeof_in6_addr) then (- ENOBUFS, w)
        else
          let ifindex :=
            if interface is Some name then u32 (if_nametoindex w name) else 0 in
          if decide (is_Some interface ∧ ifindex = 0) then (- ENODEV, w)
          else
            let pton :=
              if nexthop is Some addr then inet_pton (family p) addr else (1, []) in
            if decide (is_Some nexthop ∧ pton.1 ≤ 0) then (- EINVAL, w)
            else
              sendNetlinkRequest action (routeFlags action)
                (routeIov p table interface ifindex nexthop pton.2) w
    end.

(** *** Policy orchestrator *)

Definition modifyPerNetworkRules (netId : Z) (interface : string)
    (permission : Z) (add modifyIptables : bool) : M Z :=
  call table := getRouteTableForInterface interface ;;
  if decide (table = 0) then ret (- ESRCH)
  else
    let action := if add then RTM_NEWRULE else RTM_DELRULE in
    let fwmark := Fwmark_new in
    let mask := Fwmark_new in
    let fwmark := set_permission permission fwmark in
    let mask := set_permission permission mask in
    check modifyIpRule action RULE_PRIORITY_PER_NETWORK_INTERFACE table
            (intValue fwmark) (intValue mask) (Some interface)
            INVALID_UID INVALID_UID ;;
    let fwmark := set_netId netId fwmark in
    let mask := set_netId FWMARK_NET_ID_MASK mask in
    check modifyIpRule action RULE_PRIORITY_PER_NETWORK_NORMAL table
            (intValue fwmark) (intValue mask) None INVALID_UID INVALID_UID ;;
    let fwmark := set_explicitlySelected true fwmark in
    let mask := set_explicitlySelected true mask in
    check modifyIpRule action RULE_PRIORITY_PER_NETWORK_EXPLICIT table
            (intValue fwmark) (intValue mask) None INVALID_UID INVALID_UID ;;
    if modifyIptables
    then
      fun w =>
        let markString := HexString.of_N (Z.to_N (u32 netId)) in
        let args :=
          ["-t"; "mangle"; if add then "-A" else "-D"; "INPUT"; "-i";
           interface; "-j"; "MARK"; "--set-mark"; markString]%string in
        let r := execIptables w (trace w) args in
        (if decide (r ≠ 0) then - EREMOTEIO else 0,
         record (EvIptables args r) w)
    else ret 0.

Definition modifyVpnRules (netId : Z) (interface : string) (action : Z) : M Z :=
  call table := getRouteTableForInterface interface ;;
  if decide (table = 0) then ret (- ESRCH)
  else
    let fwmark := Fwmark_new in
    let mask := Fwmark_new in
    let fwmark := set_protectedFromVpn false fwmark in
    let mask := set_protectedFromVpn true mask in
    check modifyIpRule action RULE_PRIORITY_SECURE_VPN table
            (intValue fwmark) (intValue mask) None INVALID_UID INVALID_UID ;;
    let fwmark := set_protectedFromVpn false fwmark in
    let mask := set_protectedFromVpn false mask in
    let fwmark := set_netId netId fwmark in
    let mask := set_netId FWMARK_NET_ID_MASK mask in
    let fwmark := set_permission PERMISSION_CONNECTIVITY_INTERNAL fwmark in
    let mask := set_permission PERMISSION_CONNECTIVITY_INTERNAL mask in
    modifyIpRule action RULE_PRIORITY_SECURE_VPN table
      (intValue fwmark) (intValue mask) None INVALID_UID INVALID_UID.

Definition modifyDefaultNetworkRules (interface : string) (permission : Z)
    (action : Z) : M Z :=
  call table := getRouteTableForInterface interface ;;
  if decide (table = 0) then ret (- ESRCH)
  else
    let fwmark := Fwmark_new in
    let mask := Fwmark_new in
    let fwmark := set_netId 0 fwmark in
    let mask := set_netId FWMARK_NET_ID_MASK mask in
    let fwmark := set_permission permission fwmark in
    let mask := set_permission permission mask in
    modifyIpRule action RULE_PRIORITY_DEFAULT_NETWORK table
      (intValue fwmark) (intValue mask) None INVALID_UID INVALID_UID.

Definition modifyRoute (interface : string) (destination nexthop : option string)
    (action : Z) (tableType : TableType) (uid : Z) : M Z :=
  call table :=
    match tableType with
    | INTERFACE => getRouteTableForInterface interface
    | LEGACY => ret (u32 ROUTE_TABLE_LEGACY)
    | PRIVILEGED_LEGACY => ret (u32 ROUTE_TABLE_PRIVILEGED_LEGACY)
    end ;;
  if decide (table = 0) then ret (- ESRCH)
  else
    call r := modifyIpRoute action table (Some interface) destination nexthop ;;
    if decide (r ≠ 0 ∧
               ¬ (action = RTM_NEWROUTE ∧ r = - EEXIST ∧
                  (tableType = LEGACY ∨ tableType = PRIVILEGED_LEGACY)))
    then ret r
    else
      match nexthop with
      | None =>
          call r := modifyIpRoute action RT_TABLE_MAIN (Some interface)
                      destination None ;;
          if decide (r ≠ 0 ∧ ¬ (action = RTM_NEWROUTE ∧ r = - EEXIST))
          then ret r
          else ret 0
      | Some _ => ret 0
      end.

(** The arguments of one flush.  The source writes ["route" "flush"] with
    no comma in between, which the compiler joins into one string. *)
Definition flushArgv (version tableString : string) : list string :=
  [IP_PATH; version; "routeflush"; "table"; tableString]%string.

(** The loop over [IP_VERSIONS].  The event of a command carries the
    registry as it is when the command is started, so that what was done
    to the registry before a command and what after it can be told apart
    in the trace. *)
Fixpoint flushEachVersion (versions : list string) (tableString : string) : M Z :=
  match versions with
  | [] => ret 0
  | version :: rest =>
      fun w =>
        let argv := flushArgv version tableString in
        let r := android_fork_execvp w (trace w) argv in
        let w := record (EvExec argv r (interfaceToIndex w)) w in
        if decide (r ≠ 0) then (- EREMOTEIO, w)
        else flushEachVersion rest tableString w
  end.

Definition flushRoutes (interface : string) : M Z :=
  call table := getRouteTableForInterface interface ;;
  if decide (table = 0) then ret (- ESRCH)
  else
    fun w =>
      let w := set_interfaceToIndex (delete interface (interfaceToIndex w)) w in
      let tableString := pretty (Z.to_N table) in
      flushEachVersion IP_VERSIONS tableString w.

(** *** Public control surface *)

Definition Init : M Z :=
  let fwmark := Fwmark_new in
  let mask := Fwmark_new in
  let fwmark := set_netId 0 fwmark in
  let mask := set_netId FWMARK_NET_ID_MASK mask in
  check modifyIpRule RTM_NEWRULE RULE_PRIORITY_MAIN RT_TABLE_MAIN
          (intValue fwmark) (intValue mask) None INVALID_UID INVALID_UID ;;
  let fwmark := set_netId 0 fwmark in
  let mask := set_netId 0 mask in
  let fwmark := set_explicitlySelected false fwmark in
  let mask := set_explicitlySelected true mask in
  check modifyIpRule RTM_NEWRULE RULE_PRIORITY_LEGACY (u32 ROUTE_TABLE_LEGACY)
          (intValue fwmark) (intValue mask) None INVALID_UID INVALID_UID ;;
  let fwmark := set_permission PERMISSION_CONNECTIVITY_INTERNAL fwmark in
  let mask := set_permission PERMISSION_CONNECTIVITY_INTERNAL mask in
  check modifyIpRule RTM_NEWRULE RULE_PRIORITY_PRIVILEGED_LEGACY
          (u32 ROUTE_TABLE_PRIVILEGED_LEGACY)
          (intValue fwmark) (intValue mask) None INVALID_UID INVALID_UID ;;
  ret 0.

Definition addInterfaceToNetwork (netId : Z) (interface : string)
    (permission : Z) : M Z :=
  modifyPerNetworkRules netId interface permission true true.

Definition removeInterfaceFromNetwork (netId : Z) (interface : string)
    (permission : Z) : M Z :=
  check modifyPerNetworkRules netId interface permission false true ;;
  flushRoutes interface.

Definition addInterfaceToVpn (netId : Z) (interface : string) : M Z :=
  check modifyPerNetworkRules netId interface PERMISSION_NONE true true ;;
  modifyVpnRules netId interface RTM_NEWRULE.

Definition removeInterfaceFromVpn (netId : Z) (interface : string) : M Z :=
  check modifyPerNetworkRules netId interface PERMISSION_NONE false true ;;
  check modifyVpnRules netId interface RTM_DELRULE ;;
  flushRoutes interface.

Definition modifyNetworkPermission (netId : Z) (interface : string)
    (oldPermission newPermission : Z) : M Z :=
  check modifyPerNetworkRules netId interface newPermission true false ;;
  modifyPerNetworkRules netId interface oldPermission false false.

Definition addToDefaultNetwork (interface : string) (permission : Z) : M Z :=
  modifyDefaultNetworkRules interface permission RTM_NEWRULE.

Definition removeFromDefaultNetwork (interface : string) (permission : Z) : M Z :=
  modifyDefaultNetworkRules interface permission RTM_DELRULE.

Definition addRoute (interface : string) (destination nexthop : option string)
    (tableType : TableType) (uid : Z) : M Z :=
  modifyRoute interface destination nexthop RTM_NEWROUTE tableType uid.

Definition removeRoute (interface : string) (destination nexthop : option string)
    (tableType : TableType) (uid : Z) : M Z :=
  modifyRoute interface destination nexthop RTM_DELROUTE tableType uid.

End RouteController.

(** ** Reference behaviour of a sequence of requests

    A request is what one call of [sendNetlinkRequest] is given.  [sendAll]
    sends the requests of a list one after the other and stops at the first
    one that does not return 0. *)

Record Request := { req_action : Z; req_flags : Z; req_iov : list iovec }.

Definition send (q : Request) : M Z :=
  sendNetlinkRequest (req_action q) (req_flags q) (req_iov q).

Fixpoint sendAll (script : list Request) : M Z :=
  match script with
  | [] => ret 0
  | q :: rest => check send q ;; sendAll rest
  end.

(** The event left in the trace by a request answered with [r]. *)
Definition sent (q : Request) (r : Z) : Event :=
  EvNetlink (datagram (req_action q) (req_flags q) (req_iov q)) r.

(** The two requests of one rule, IPv4 first. *)
Definition ruleRequest (action family priority table fwmark mask : Z)
    (interface : option string) (uidStart uidEnd : Z) : Request :=
  {| req_action := action; req_flags := ruleFlags action;
     req_iov := ruleIov family priority table fwmark mask interface
                  (interfaceLengthOf interface) (paddingLengthOf interface)
                  uidStart uidEnd |}.

Definition ruleRequests (action priority table fwmark mask : Z)
    (interface : option string) (uidStart uidEnd : Z) : list Request :=
  [ ruleRequest action AF_INET priority table fwmark mask interface uidStart uidEnd;
    ruleRequest action AF_INET6 priority table fwmark mask interface uidStart uidEnd ].

(** What [modifyIpRule] checks before it builds a message. *)
Definition validRule (fwmark mask : Z) (interface : option string)
    (uidStart uidEnd : Z) : Prop :=
  Z.land fwmark (not32 mask) = 0 ∧
  interfaceLengthOf interface ≤ IFNAMSIZ ∧
  (uidStart = INVALID_UID ↔ uidEnd = INVALID_UID).

(** The sum of the segment lengths as the caller hands them over. *)
Definition total_len (iov : list iovec) : Z :=
  foldr (fun v acc => iov_len v + acc) 0 iov.

(** The length field of the header of a datagram. *)
Definition nlmsg_len_of (msg : list iovec) : option Z :=
  match msg with
  | Iovec (PNlmsghdr len _ _) _ :: _ => Some len
  | _ => None
  end.

(** The type of request an event carries, if it is a netlink exchange. *)
Definition nlmsg_type_of (e : Event) : option Z :=
  match e with
  | EvNetlink (Iovec (PNlmsghdr _ type _) _ :: _) _ => Some type
  | _ => None
  end.

(** ** Baseline rules and mark layout *)

(** Every bit set in [a] is set in [b]. *)
Definition bsub (a b : Z) : Prop :=
  ∀ n, 0 ≤ n → Z.testbit a n = true → Z.testbit b n = true.

(** Field by field, every bit set in [f] is set in [m]. *)
Definition coveredBy (f m : Fwmark) : Prop :=
  Z.land (netId f) (Z.lnot (netId m)) = 0 ∧
  (explicitlySelected f → explicitlySelected m) ∧
  (protectedFromVpn f → protectedFromVpn m) ∧
  Z.land (permission f) (Z.lnot (permission m)) = 0.

(** What is asked of the layout of the union: fields do not spill into
    one another, so a mark covered field by field is covered bit by bit. *)
Definition layoutSound (intValue : Fwmark → Z) : Prop :=
  ∀ f m, coveredBy f m → Z.land (intValue f) (not32 (intValue m)) = 0.

(** The six requests of the three rules of the spec for [initialize()]. *)
Definition baselineRequests (offset netIdMask connectivityInternal : Z)
    (intValue : Fwmark → Z) : list Request :=
  ruleRequests 32 20000 254
    (intValue {| netId := 0; explicitlySelected := false;
                 protectedFromVpn := false; permission := 0 |})
    (intValue {| netId := netIdMask; explicitlySelected := false;
                 protectedFromVpn := false; permission := 0 |})
    None INVALID_UID INVALID_UID
  ++ ruleRequests 32 16000 (u32 (offset - 902))
    (intValue {| netId := 0; explicitlySelected := false;
                 protectedFromVpn := false; permission := 0 |})
    (intValue {| netId := 0; explicitlySelected := true;
                 protectedFromVpn := false; permission := 0 |})
    None INVALID_UID INVALID_UID
  ++ ruleRequests 32 11000 (u32 (offset - 901))
    (intValue {| netId := 0; explicitlySelected := false;
                 protectedFromVpn := false;
                 permission := connectivityInternal |})
    (intValue {| netId := 0; explicitlySelected := true;
                 protectedFromVpn := false;
                 permission := connectivityInternal |})
    None INVALID_UID INVALID_UID.

(** ** Later uses of the registry *)

(** Kernel interface indices are positive [int]s: what the resolver returns
    is 0 or such an index, and so is everything remembered from it. *)
Definition validIndices (w : World) : Prop :=
  (∀ name, 0 ≤ if_nametoindex w name ≤ INT_MAX) ∧
  (∀ name index, interfaceToIndex w !! name = Some index → 1 ≤ index ≤ INT_MAX).

(** ** Routes *)

(** The table a route goes to, as the [switch] of [modifyRoute] finds it. *)
Definition routeTable (offset : Z) (tableType : TableType) (interface : string) : M Z :=
  match tableType with
  | INTERFACE => getRouteTableForInterface offset interface
  | LEGACY => ret (u32 (ROUTE_TABLE_LEGACY offset))
  | PRIVILEGED_LEGACY => ret (u32 (ROUTE_TABLE_PRIVILEGED_LEGACY offset))
  end.

(** What [modifyIpRoute] checks before it builds a message, for a
    destination and an interface that are given. *)
Definition routeChecksPass (parsePrefix : string → Prefix)
    (inet_pton : Z → string → Z * list Z) (w : World)
    (interface destination : string) (nexthop : option string) : Prop :=
  0 ≤ rawLength (parsePrefix destination) ≤ sizeof_in6_addr ∧
  u32 (if_nametoindex w interface) ≠ 0 ∧
  match nexthop with
  | Some address => 0 < (inet_pton (family (parsePrefix destination)) address).1
  | None => True
  end.

(** The request [modifyIpRoute] sends once the checks have passed. *)
Definition routeRequest (parsePrefix : string → Prefix)
    (inet_pton : Z → string → Z * list Z) (w : World) (action table : Z)
    (interface destination : string) (nexthop : option string) : Request :=
  let p := parsePrefix destination in
  {| req_action := action; req_flags := routeFlags action;
     req_iov :=
       routeIov p table (Some interface) (u32 (if_nametoindex w interface)) nexthop
         match nexthop with
         | Some address => (inet_pton (family p) address).2
         | None => []
         end |}.

(** The failure that [modifyRoute] lets pass after the first install. *)
Definition toleratedPrimary (action : Z) (tableType : TableType) (r : Z) : Prop :=
  action = RTM_NEWROUTE ∧ r = - EEXIST ∧
  (tableType = LEGACY ∨ tableType = PRIVILEGED_LEGACY).

(** ** Per-network rules *)

(** The six requests of the three per-network rules of the spec: by
    outgoing interface (14000), by network id (17000), by explicitly
    selected network id (13000), each with the permission in the mark. *)
Definition perNetworkRequests (netIdMask : Z) (intValue : Fwmark → Z)
    (action table netId : Z) (interface : string) (permission : Z) : list Request :=
  ruleRequests action 14000 table
    (intValue {| netId := 0; explicitlySelected := false;
                 protectedFromVpn := false; permission := permission |})
    (intValue {| netId := 0; explicitlySelected := false;
                 protectedFromVpn := false; permission := permission |})
    (Some interface) INVALID_UID INVALID_UID
  ++ ruleRequests action 17000 table
    (intValue {| netId := netId; explicitlySelected := false;
                 protectedFromVpn := false; permission := permission |})
    (intValue {| netId := netIdMask; explicitlySelected := false;
                 protectedFromVpn := false; permission := permission |})
    None INVALID_UID INVALID_UID
  ++ ruleRequests action 13000 table
    (intValue {| netId := netId; explicitlySelected := true;
                 protectedFromVpn := false; permission := permission |})
    (intValue {| netId := netIdMask; explicitlySelected := true;
                 protectedFromVpn := false; permission := permission |})
    None INVALID_UID INVALID_UID.

(** ** The rules a kernel holds

    Read off a trace: an acknowledged [RTM_NEWRULE] adds the rule its
    message describes, an acknowledged [RTM_DELRULE] takes it away.  A rule
    is described by the segments that follow the header on the wire. *)

Definition body (msg : list iovec) : list iovec :=
  filter (fun v => iov_len v ≠ 0) (tail msg).

Definition applyRuleEvent (rules : list (list iovec)) (e : Event) : list (list iovec) :=
  match e with
  | EvNetlink msg r =>
      if decide (r = 0)
      then if decide (nlmsg_type_of e = Some RTM_NEWRULE) then body msg :: rules
           else if decide (nlmsg_type_of e = Some RTM_DELRULE)
                then filter (fun rule => rule ≠ body msg) rules
                else rules
      else rules
  | _ => rules
  end.

Definition installedRules (tr : list Event) : list (list iovec) :=
  foldl applyRuleEvent [] tr.

(** An event keeps a rule when the rule is still held after it. *)
Definition keepsRule (rule : list iovec) (e : Event) : Prop :=
  ∀ rules, rule ∈ rules → rule ∈ applyRuleEvent rules e.

(** The types of the attributes a message carries on the wire, in order. *)
Definition attributeTypes (msg : list iovec) : list Z :=
  omap (fun v => match iov_base v with PRtattr _ type => Some type | _ => None end)
       (body msg).

(** The action of the rule header a message carries on the wire. *)
Definition ruleActions (msg : list iovec) : list Z :=
  omap (fun v => match iov_base v with PFibRuleHdr _ action => Some action | _ => None end)
       (body msg).

(** ** Messages as a receiver reads them

    What the receiving end finds in a datagram: the netlink header, the
    fixed part of the message, and the attributes that follow it, each
    with its type and its value.  Segments of length 0 are not on the
    wire.  Nothing here refers to the encoders. *)

Inductive AttrValue :=
| Word (value : Z)
| Bytes (bytes : list Z).

#[global] Instance AttrValue_eq_dec : EqDecision AttrValue.
Proof. solve_decision. Defined.

(** One attribute after the other: a header of four bytes whose length
    field counts the header and the value, then the value, a 32-bit word
    or a run of bytes, then padding up to the next multiple of four. *)
Fixpoint readAttrs (segments : list iovec) : option (list (Z * AttrValue)) :=
  match segments with
  | [] => Some []
  | Iovec (PRtattr len type) hlen :: rest =>
      if decide (hlen = sizeof_rtattr)
      then
        match rest with
        | Iovec (PU32 v) vlen :: rest' =>
            if decide (vlen = sizeof_uint32 ∧ len = sizeof_rtattr + vlen)
            then cons (type, Word v) <$> readAttrs rest'
            else None
        | Iovec (PBuffer bs) vlen :: rest' =>
            if decide (0 < vlen ∧ len = sizeof_rtattr + vlen)
            then
              match rest' with
              | Iovec PPadding plen :: rest'' =>
                  if decide (0 < plen < RTA_ALIGNTO ∧ (vlen + plen) mod RTA_ALIGNTO = 0)
                  then cons (type, Bytes (take (Z.to_nat vlen) bs)) <$> readAttrs rest''
                  else None
              | _ => cons (type, Bytes (take (Z.to_nat vlen) bs)) <$> readAttrs rest'
              end
            else None
        | _ =>
            if decide (len = sizeof_rtattr)
            then cons (type, Bytes []) <$> readAttrs rest
            else None
        end
      else None
  | _ => None
  end.

Record RuleMessage := {
  rule_type : Z;
  rule_flags : Z;
  rule_family : Z;
  rule_action : Z;
  rule_attrs : list (Z * AttrValue);
}.

Definition readRule (msg : list iovec) : option RuleMessage :=
  match filter (fun v => iov_len v ≠ 0) msg with
  | Iovec (PNlmsghdr _ type flags) hlen :: Iovec (PFibRuleHdr family action) rlen
    :: attrs =>
      if decide (hlen = sizeof_nlmsghdr ∧ rlen = sizeof_fib_rule_hdr)
      then
        (fun read =>
           {| rule_type := type; rule_flags := flags; rule_family := family;
              rule_action := action; rule_attrs := read |}) <$> readAttrs attrs
      else None
  | _ => None
  end.

Record RouteMessage := {
  route_type : Z;
  route_flags : Z;
  route_family : Z;
  route_dst_len : Z;
  route_protocol : Z;
  route_kind : Z;
  route_attrs : list (Z * AttrValue);
}.

Definition readRoute (msg : list iovec) : option RouteMessage :=
  match filter (fun v => iov_len v ≠ 0) msg with
  | Iovec (PNlmsghdr _ type flags) hlen :: Iovec (PRtmsg family dst_len protocol kind) rlen
    :: attrs =>
      if decide (hlen = sizeof_nlmsghdr ∧ rlen = sizeof_rtmsg)
      then
        (fun read =>
           {| route_type := type; route_flags := flags; route_family := family;
              route_dst_len := dst_len; route_protocol := protocol;
              route_kind := kind; route_attrs := read |}) <$> readAttrs attrs
      else None
  | _ => None
  end.

(** The datagram a request puts on the wire. *)
Definition wire (q : Request) : list iovec :=
  datagram (req_action q) (req_flags q) (req_iov q).

(** ** Messages as the spec describes them *)

(** The rule message of the spec: the action is "to table" if the table
    is not 0 and "unreachable" otherwise; the attributes are the priority
    (always), the table (only if not 0), the mark and its mask (only if the
    mask is not 0), the UID range (only if one is given), the name of the
    outgoing interface with its terminator (only if one is given). *)
Definition ruleMessage (type flags family priority table fwmark mask : Z)
    (interface : option string) (uidStart uidEnd : Z) : RuleMessage :=
  {| rule_type := type; rule_flags := flags; rule_family := family;
     rule_action :=
       if bool_decide (table ≠ 0) then FR_ACT_TO_TBL else FR_ACT_UNREACHABLE;
     rule_attrs :=
       [(FRA_PRIORITY, Word priority)]
       ++ (if bool_decide (table ≠ 0) then [(FRA_TABLE, Word table)] else [])
       ++ (if bool_decide (mask ≠ 0)
           then [(FRA_FWMARK, Word fwmark); (FRA_FWMASK, Word mask)] else [])
       ++ (if bool_decide (uidStart ≠ INVALID_UID)
           then [(FRA_UID_START, Word uidStart); (FRA_UID_END, Word uidEnd)]
           else [])
       ++ (if interface is Some name
           then [(FRA_OIFNAME, Bytes (string_bytes name ++ [0]))] else []) |}.

(** The route message of the spec: protocol static, type unicast, the
    family and the prefix length of the destination; the attributes are
    the table and the bytes of the destination prefix (always), the index
    of the outgoing interface (only if given), the bytes of the gateway
    (only if given). *)
Definition routeMessage (type flags : Z) (p : Prefix) (table : Z)
    (ifindex : option Z) (gateway : option (list Z)) : RouteMessage :=
  {| route_type := type; route_flags := flags; route_family := family p;
     route_dst_len := prefixLength p; route_protocol := RTPROT_STATIC;
     route_kind := RTN_UNICAST;
     route_attrs :=
       [(RTA_TABLE, Word table);
        (RTA_DST, Bytes (take (Z.to_nat (rawLength p)) (rawAddress p)))]
       ++ (if ifindex is Some index then [(RTA_OIF, Word index)] else [])
       ++ (if gateway is Some address
           then [(RTA_GATEWAY, Bytes (take (Z.to_nat (rawLength p)) address))]
           else []) |}.

(** The three rules of the spec for [initialize()], each for IPv4 and
    IPv6, as new rules that must not exist yet: priority 20000 to the main
    table for network id 0; priority 16000 to the legacy table for "not
    explicitly selected"; priority 11000 to the privileged legacy table
    for "not explicitly selected" with the internal-connectivity
    permission. *)
Definition baselineRules (offset netIdMask connectivityInternal : Z)
    (intValue : Fwmark → Z) : list RuleMessage :=
  let rule family priority table fwmark mask :=
    ruleMessage RTM_NEWRULE
      (Z.lor (Z.lor (Z.lor NLM_F_REQUEST NLM_F_ACK) NLM_F_CREATE) NLM_F_EXCL)
      family priority table (intValue fwmark) (intValue mask) None
      INVALID_UID INVALID_UID in
  let both priority table fwmark mask :=
    [rule AF_INET priority table fwmark mask;
     rule AF_INET6 priority table fwmark mask] in
  both 20000 RT_TABLE_MAIN
    {| netId := 0; explicitlySelected := false; protectedFromVpn := false;
       permission := 0 |}
    {| netId := netIdMask; explicitlySelected := false; protectedFromVpn := false;
       permission := 0 |}
  ++ both 16000 (u32 (offset - 902))
    {| netId := 0; explicitlySelected := false; protectedFromVpn := false;
       permission := 0 |}
    {| netId := 0; explicitlySelected := true; protectedFromVpn := false;
       permission := 0 |}
  ++ both 11000 (u32 (offset - 901))
    {| netId := 0; explicitlySelected := false; protectedFromVpn := false;
       permission := connectivityInternal |}
    {| netId := 0; explicitlySelected := true; protectedFromVpn := false;
       permission := connectivityInternal |}.

(** ** More of the policy orchestrator *)

(** The call of [execIptables] at the end of [modifyPerNetworkRules]. *)
Definition markIncoming (netId : Z) (interface : string) (add : bool) : M Z :=
  fun w =>
    let args :=
      ["-t"; "mangle"; if add then "-A" else "-D"; "INPUT"; "-i"; interface;
       "-j"; "MARK"; "--set-mark"; HexString.of_N (Z.to_N (u32 netId))]%string in
    let r := execIptables w (trace w) args in
    (if decide (r ≠ 0) then - EREMOTEIO else 0, record (EvIptables args r) w).

(** The four requests of the two VPN rules, both at priority 12000: one for
    every mark that is not protected from the VPN, one for the marks of
    this network that carry the internal-connectivity permission. *)
Definition vpnRequests (netIdMask connectivityInternal : Z) (intValue : Fwmark → Z)
    (action table netId : Z) : list Request :=
  ruleRequests action 12000 table
    (intValue {| netId := 0; explicitlySelected := false;
                 protectedFromVpn := false; permission := 0 |})
    (intValue {| netId := 0; explicitlySelected := false;
                 protectedFromVpn := true; permission := 0 |})
    None INVALID_UID INVALID_UID
  ++ ruleRequests action 12000 table
    (intValue {| netId := netId; explicitlySelected := false;
                 protectedFromVpn := false; permission := connectivityInternal |})
    (intValue {| netId := netIdMask; explicitlySelected := false;
                 protectedFromVpn := false; permission := connectivityInternal |})
    None INVALID_UID INVALID_UID.

(** The two requests of the default-network rule, at priority 19000. *)
Definition defaultNetworkRequests (netIdMask : Z) (intValue : Fwmark → Z)
    (action table permission : Z) : list Request :=
  ruleRequests action 19000 table
    (intValue {| netId := 0; explicitlySelected := false;
                 protectedFromVpn := false; permission := permission |})
    (intValue {| netId := netIdMask; explicitlySelected := false;
                 protectedFromVpn := false; permission := permission |})
    None INVALID_UID INVALID_UID.

(** The interface is unknown: it does not resolve and was never seen. *)
Definition unknownInterface (w : World) (name : string) : Prop :=
  u32 (if_nametoindex w name) = 0 ∧ interfaceToIndex w !! name = None.

(** A failing system call leaves a non-zero [errno]. *)
Definition errnoSet (sys : Syscalls) : Prop :=
  sys_socket sys = -1 ∨ sys_connect sys = -1 ∨ sys_writev sys = -1 ∨
  sys_recv sys = -1 → sys_errno sys ≠ 0.

(** An event never adds a rule when every rule held after it was held
    before. *)
Definition neverAdds (e : Event) : Prop :=
  ∀ rules rule, rule ∈ applyRuleEvent rules e → rule ∈ rules.


(** Two worlds with the same interfaces and the same registry. *)
Definition sameRegistry (w w' : World) : Prop :=
  if_nametoindex w' = if_nametoindex w ∧
  interfaceToIndex w' = interfaceToIndex w.

(** ** The public control surface as a whole *)

(** One call of the public control surface, or a change of the interfaces
    of the system between two calls. *)
Inductive Operation :=
| OpInit
| OpAddInterfaceToNetwork (netId : Z) (interface : string) (permission : Z)
| OpRemoveInterfaceFromNetwork (netId : Z) (interface : string) (permission : Z)
| OpAddInterfaceToVpn (netId : Z) (interface : string)
| OpRemoveInterfaceFromVpn (netId : Z) (interface : string)
| OpModifyNetworkPermission (netId : Z) (interface : string)
    (oldPermission newPermission : Z)
| OpAddToDefaultNetwork (interface : string) (permission : Z)
| OpRemoveFromDefaultNetwork (interface : string) (permission : Z)
| OpAddRoute (interface : string) (destination nexthop : option string)
    (tableType : TableType) (uid : Z)
| OpRemoveRoute (interface : string) (destination nexthop : option string)
    (tableType : TableType) (uid : Z)
| InterfacesChange (interfaces : string → Z).

(** What the headers and helpers outside the file supply. *)
Record Settings := {
  routeTableOffset : Z;
  fwmarkNetIdMask : Z;
  permissionConnectivityInternal : Z;
  permissionNone : Z;
  fwmarkIntValue : Fwmark → Z;
  prefixParser : string → Prefix;
  addressParser : Z → string → Z * list Z;
  ipPath : string;
}.

Definition runOperation (s : Settings) (op : Operation) (w : World) : World :=
  let offset := routeTableOffset s in
  let mask := fwmarkNetIdMask s in
  let ci := permissionConnectivityInternal s in
  let none := permissionNone s in
  let intValue := fwmarkIntValue s in
  match op with
  | OpInit => (Init offset mask ci intValue w).2
  | OpAddInterfaceToNetwork netId interface permission =>
      (addInterfaceToNetwork offset mask intValue netId interface permission w).2
  | OpRemoveInterfaceFromNetwork netId interface permission =>
      (removeInterfaceFromNetwork offset mask intValue (ipPath s) netId interface
         permission w).2
  | OpAddInterfaceToVpn netId interface =>
      (addInterfaceToVpn offset mask ci none intValue netId interface w).2
  | OpRemoveInterfaceFromVpn netId interface =>
      (removeInterfaceFromVpn offset mask ci none intValue (ipPath s) netId
         interface w).2
  | OpModifyNetworkPermission netId interface oldPermission newPermission =>
      (modifyNetworkPermission offset mask intValue netId interface oldPermission
         newPermission w).2
  | OpAddToDefaultNetwork interface permission =>
      (addToDefaultNetwork offset mask intValue interface permission w).2
  | OpRemoveFromDefaultNetwork interface permission =>
      (removeFromDefaultNetwork offset mask intValue interface permission w).2
  | OpAddRoute interface destination nexthop tableType uid =>
      (addRoute offset (prefixParser s) (addressParser s) interface destination
         nexthop tableType uid w).2
  | OpRemoveRoute interface destination nexthop tableType uid =>
      (removeRoute offset (prefixParser s) (addressParser s) interface destination
         nexthop tableType uid w).2
  | InterfacesChange interfaces => set_if_nametoindex interfaces w
  end.

Definition runOperations (s : Settings) (ops : list Operation) (w : World) : World :=
  foldl (fun w op => runOperation s op w) w ops.

(** Every index the registry remembers is a non-zero 32-bit value. *)
Definition registryNonzero (w : World) : Prop :=
  ∀ name index, interfaceToIndex w !! name = Some index → 0 < index < 2 ^ 32.

(** A computation keeps that. *)
Definition keepsNonzero (m : M Z) : Prop :=
  ∀ w, registryNonzero w → registryNonzero (m w).2.

(** The interface an operation is given. *)
Definition interfaceOf (op : Operation) : option string :=
  match op with
  | OpInit | InterfacesChange _ => None
  | OpAddInterfaceToNetwork _ interface _
  | OpRemoveInterfaceFromNetwork _ interface _
  | OpAddInterfaceToVpn _ interface
  | OpRemoveInterfaceFromVpn _ interface
  | OpModifyNetworkPermission _ interface _ _
  | OpAddToDefaultNetwork interface _
  | OpRemoveFromDefaultNetwork interface _
  | OpAddRoute interface _ _ _ _
  | OpRemoveRoute interface _ _ _ _ => Some interface
  end.

(** A computation changes the registry at most at [name]. *)
Definition touchesOnly (name : option string) (m : M Z) : Prop :=
  ∀ w other, name ≠ Some other →
    interfaceToIndex (m w).2 !! other = interfaceToIndex w !! other.

(** The registry holds [entry] for [name], and the system resolves [name]
    to nothing else: to no index at all, or to the one in [entry]. *)
Definition entryKept (name : string) (entry : option Z) (w : World) : Prop :=
  interfaceToIndex w !! name = entry ∧
  (u32 (if_nametoindex w name) = 0 ∨ Some (u32 (if_nametoindex w name)) = entry).

(** An operation that lets the entry of [name] be: a detach of [name],
    which flushes its routes, only if there is no entry to lose, and a
    change of the interfaces of the system only if it gives [name] no
    other index. *)
Definition leavesEntry (name : string) (entry : option Z) (op : Operation) : Prop :=
  match op with
  | OpRemoveInterfaceFromNetwork _ interface _
  | OpRemoveInterfaceFromVpn _ interface => interface = name → entry = None
  | InterfacesChange interfaces =>
      u32 (interfaces name) = 0 ∨ Some (u32 (interfaces name)) = entry
  | _ => True
  end.

(** A computation keeps what holds of the world before it. *)
Definition preserves (P : World → Prop) (m : M Z) : Prop :=
  ∀ w, P w → P (m w).2.

Definition sample_settings : Settings :=
  {| routeTableOffset := 1000; fwmarkNetIdMask := 65535;
     permissionConnectivityInternal := 3; permissionNone := 0;
     fwmarkIntValue := fun f =>
       Z.lor (Z.lor (Z.lor (Z.land (netId f) 65535)
                           (Z.shiftl (Z.b2z (explicitlySelected f)) 16))
                    (Z.shiftl (Z.b2z (protectedFromVpn f)) 17))
             (Z.shiftl (Z.land (permission f) 3) 18);
     prefixParser := fun _ =>
       {| rawLength := 4; family := AF_INET; rawAddress := [10; 0; 0; 0];
          prefixLength := 24 |};
     addressParser := fun _ _ => (1, [10; 0; 0; 1]);
     ipPath := "/system/bin/ip" |}.

(** ** Sample environments

    Concrete values for what the headers and the system supply, used to run
    the definitions. *)

(** A mark layout: the network id in bits 0-15, the two flags in bits 16
    and 17, the permission in bits 18-19. *)
Definition sample_intValue (f : Fwmark) : Z :=
  Z.lor (Z.lor (Z.lor (Z.land (netId f) 65535)
                      (Z.shiftl (Z.b2z (explicitlySelected f)) 16))
               (Z.shiftl (Z.b2z (protectedFromVpn f)) 17))
        (Z.shiftl (Z.land (permission f) 3) 18).

Definition sample_parsePrefix (destination : string) : Prefix :=
  if decide (destination = "192.0.2.0/24"%string)
  then {| rawLength := 4; family := AF_INET; rawAddress := [192; 0; 2; 0];
          prefixLength := 24 |}
  else if decide (destination = "10.0.0.0/24"%string)
  then {| rawLength := 4; family := AF_INET; rawAddress := [10; 0; 0; 0];
          prefixLength := 24 |}
  else {| rawLength := - EINVAL; family := 0; rawAddress := [];
          prefixLength := 0 |}.

Definition sample_inet_pton (family : Z) (address : string) : Z * list Z :=
  if decide (family = AF_INET ∧ address = "192.0.2.1"%string)
  then (1, [192; 0; 2; 1])
  else (0, []).

(** Every system call succeeds and the acknowledgment carries [error]. *)
Definition acked (error : Z) : Syscalls :=
  {| sys_socket := 3; sys_connect := 0; sys_writev := 0;
     sys_recv := sizeof_nlmsghdr + sizeof_nlmsgerr; sys_errno := 0;
     response_err_error := error |}.

(** A kernel that accepts every request. *)
Definition accepting_kernel (_ : list Event) (_ : list iovec) : Syscalls :=
  acked 0.

(** A kernel that refuses a request it has already accepted. *)
Definition remembering_kernel (tr : list Event) (msg : list iovec) : Syscalls :=
  if decide (EvNetlink msg 0 ∈ tr) then acked (- EEXIST) else acked 0.

(** A kernel that refuses every request to delete a rule. *)
Definition keeping_kernel (_ : list Event) (msg : list iovec) : Syscalls :=
  if decide (nlmsg_type_of (EvNetlink msg 0) = Some RTM_DELRULE)
  then acked (- EINVAL) else acked 0.

(** A kernel that accepts every request but the one made when [n] events
    have already happened. *)
Definition refusing_at (n : nat) (tr : list Event) (_ : list iovec) : Syscalls :=
  if decide (length tr = n) then acked (- EINVAL) else acked 0.

Definition sample_interfaces (name : string) : Z :=
  if decide (name = "wlan0"%string) then 5 else 0.

Definition no_interfaces (_ : string) : Z := 0.

Definition two_interfaces (name : string) : Z :=
  if decide (name = "wlan0"%string) then 5
  else if decide (name = "rmnet0"%string) then 7 else 0.

Definition sample_world : World :=
  {| if_nametoindex := sample_interfaces;
     netlink := accepting_kernel;
     execIptables := fun _ _ => 0;
     android_fork_execvp := fun _ _ => 0;
     interfaceToIndex := ∅;
     trace := [] |}.

(** * Properties *)

(** [Forall] over a list that is written out, element by element. *)
Ltac each_of_list tac :=
  repeat (apply Forall_cons; split; [tac|]); apply Forall_nil_2.

(** ** Machine arithmetic *)

Lemma u32_idemp_add a b : u32 (u32 a + b) = u32 (a + b).
Proof. unfold u32. apply Zplus_mod_idemp_l. Qed.

Lemma u32_small z : 0 ≤ z < 2 ^ 32 → u32 z = z.
Proof. intros H. unfold u32. apply Z.mod_small. exact H. Qed.

(** ** Protocol transport *)

Lemma fold_iov_len iov : ∀ acc,
  fold_left (fun acc v => u32 (acc + iov_len v)) iov (u32 acc)
  = u32 (acc + total_len iov).
Proof.
  induction iov as [|v iov IH]; intros acc; simpl.
  - f_equal. lia.
  - rewrite u32_idemp_add, IH. f_equal. lia.
Qed.

Lemma sum_iov_len_total iov : sum_iov_len iov = u32 (total_len iov).
Proof.
  unfold sum_iov_len. change 0 with (u32 0) at 1.
  rewrite fold_iov_len. reflexivity.
Qed.

Lemma datagram_cons action flags slot0 segments :
  datagram action flags (slot0 :: segments)
  = Iovec (PNlmsghdr (u32 (sizeof_nlmsghdr + total_len segments)) action flags)
          sizeof_nlmsghdr :: segments.
Proof.
  unfold datagram. simpl. rewrite sum_iov_len_total. reflexivity.
Qed.

(** C9, as the code has it: the length field of the header that
    [sendNetlinkRequest] builds is the size of the header itself plus the
    sum of the lengths of the caller's segments (in 32 bits), that is the
    length of the whole datagram; the header takes the place of the empty
    entry 0 and the segments follow unmodified. *)
Theorem sendNetlinkRequest_length_field action flags slot0 segments w :
  ∃ r,
    sendNetlinkRequest action flags (slot0 :: segments) w
    = (r, record (EvNetlink
                    (Iovec (PNlmsghdr (u32 (sizeof_nlmsghdr + total_len segments))
                                      action flags)
                           sizeof_nlmsghdr :: segments) r) w).
Proof.
  unfold sendNetlinkRequest. rewrite datagram_cons. eauto.
Qed.

(** C9, as stated, fails: for the main-table rule of [Init] the caller's
    segments add up to 28 bytes, and the header sent says 44. *)
Lemma sendNetlinkRequest_length_field_counterexample :
  let iov := ruleIov AF_INET RULE_PRIORITY_MAIN RT_TABLE_MAIN 0 0 None 0 0
               INVALID_UID INVALID_UID in
  ∃ msg r,
    trace (sendNetlinkRequest RTM_NEWRULE NETLINK_CREATE_REQUEST_FLAGS iov
             sample_world).2 = [EvNetlink msg r] ∧
    total_len iov = 28 ∧
    nlmsg_len_of msg = Some 44 ∧
    nlmsg_len_of msg ≠ Some (total_len iov).
Proof.
  eexists _, _. split; [reflexivity|].
  split; [reflexivity|]. split; [reflexivity|]. vm_compute. discriminate.
Qed.

(** ** Rule encoder *)

Lemma send_eq q w :
  send q w = (netlinkResult (netlink w (trace w)
                               (datagram (req_action q) (req_flags q) (req_iov q))),
              record (sent q (netlinkResult (netlink w (trace w)
                               (datagram (req_action q) (req_flags q) (req_iov q))))) w).
Proof. reflexivity. Qed.

Lemma modifyIpRule_valid action priority table fwmark mask interface uidStart uidEnd w :
  validRule fwmark mask interface uidStart uidEnd →
  modifyIpRule action priority table fwmark mask interface uidStart uidEnd w
  = sendAll (ruleRequests action priority table fwmark mask interface uidStart uidEnd) w.
Proof.
  intros (Hmark & Hlen & Huid). unfold modifyIpRule.
  destruct (decide (Z.land fwmark (not32 mask) ≠ 0)) as [Hn|_]; [contradiction|].
  destruct (decide (interfaceLengthOf interface > IFNAMSIZ)) as [Hn|_]; [lia|].
  destruct (decide (bool_decide (uidStart = INVALID_UID)
                    ≠ bool_decide (uidEnd = INVALID_UID))) as [Hn|_].
  - exfalso. apply Hn. apply bool_decide_ext. exact Huid.
  - reflexivity.
Qed.

(** C2: a mark with a bit outside the mask is rejected with [-ERANGE]
    before anything else happens: the world, and with it the trace of
    requests handed to the kernel, is returned as it was. *)
Theorem modifyIpRule_rejects_uncovered_mark
    action priority table fwmark mask interface uidStart uidEnd w :
  Z.land fwmark (not32 mask) ≠ 0 →
  modifyIpRule action priority table fwmark mask interface uidStart uidEnd w
  = (- ERANGE, w).
Proof.
  intros Hmark. unfold modifyIpRule.
  destruct (decide (Z.land fwmark (not32 mask) ≠ 0)); [reflexivity|contradiction].
Qed.

Lemma modifyIpRule_rejects_uncovered_mark_witness :
  Z.land 3 (not32 1) ≠ 0 ∧
  modifyIpRule RTM_NEWRULE RULE_PRIORITY_MAIN RT_TABLE_MAIN 3 1 None
    INVALID_UID INVALID_UID sample_world = (- ERANGE, sample_world).
Proof.
  split; [vm_compute; discriminate|].
  apply (modifyIpRule_rejects_uncovered_mark RTM_NEWRULE RULE_PRIORITY_MAIN
           RT_TABLE_MAIN 3 1 None INVALID_UID INVALID_UID sample_world).
  vm_compute; discriminate.
Defined.

(** C3: for an input that passes the checks, the request is sent for IPv4
    and then for IPv6; the two messages are the same but for the family in
    the rule header; a failure for IPv4 is returned with nothing sent for
    IPv6; the result is 0 exactly when both exchanges returned 0. *)
Theorem modifyIpRule_per_family
    action priority table fwmark mask interface uidStart uidEnd w :
  validRule fwmark mask interface uidStart uidEnd →
  let q4 := ruleRequest action AF_INET priority table fwmark mask interface
              uidStart uidEnd in
  let q6 := ruleRequest action AF_INET6 priority table fwmark mask interface
              uidStart uidEnd in
  let r4 := (send q4 w).1 in
  let w4 := (send q4 w).2 in
  let r6 := (send q6 w4).1 in
  let w6 := (send q6 w4).2 in
  let result :=
    modifyIpRule action priority table fwmark mask interface uidStart uidEnd w in
  (∃ act,
      req_iov q4 !! 1%nat = Some (Iovec (PFibRuleHdr AF_INET act) sizeof_fib_rule_hdr) ∧
      req_iov q6 = <[1%nat := Iovec (PFibRuleHdr AF_INET6 act) sizeof_fib_rule_hdr]>
                     (req_iov q4)) ∧
  req_action q6 = req_action q4 ∧ req_flags q6 = req_flags q4 ∧
  (r4 ≠ 0 → result = (r4, w4) ∧ trace w4 = trace w ++ [sent q4 r4]) ∧
  (r4 = 0 → result = (r6, w6) ∧ trace w6 = trace w ++ [sent q4 0; sent q6 r6]) ∧
  (result.1 = 0 ↔ r4 = 0 ∧ r6 = 0).
Proof.
  intros Hvalid q4 q6 r4 w4 r6 w6 result.
  assert (Hres : result = if decide (r4 = 0) then (r6, w6) else (r4, w4)).
  { subst result. rewrite modifyIpRule_valid by exact Hvalid.
    unfold ruleRequests. fold q4 q6. cbn [sendAll]. unfold orReturn, ret.
    subst r4 w4 r6 w6.
    destruct (send q4 w) as [a wa]. cbn [fst snd].
    destruct (decide (a = 0)) as [->|Ha]; [|reflexivity].
    destruct (send q6 wa) as [b wb]. cbn [fst snd].
    destruct (decide (b = 0)) as [->|Hb]; reflexivity. }
  split; [eexists; split; reflexivity|].
  split; [reflexivity|]. split; [reflexivity|].
  split; [|split].
  - intros Hne. rewrite Hres. destruct (decide (r4 = 0)); [contradiction|].
    split; [reflexivity|]. subst w4 r4. rewrite send_eq. reflexivity.
  - intros He. rewrite Hres. destruct (decide (r4 = 0)); [|contradiction].
    split; [reflexivity|]. subst w6 r6 w4. rewrite !send_eq. simpl.
    rewrite <- app_assoc. simpl. do 3 f_equal.
    subst r4. rewrite send_eq in He. simpl in He. rewrite He. reflexivity.
  - rewrite Hres. destruct (decide (r4 = 0)) as [He|Hne]; simpl.
    + tauto.
    + split; [intros; contradiction|tauto].
Qed.

Lemma modifyIpRule_per_family_witness :
  validRule 0 65535 None INVALID_UID INVALID_UID ∧
  (modifyIpRule RTM_NEWRULE RULE_PRIORITY_MAIN RT_TABLE_MAIN 0 65535 None
     INVALID_UID INVALID_UID sample_world).1 = 0.
Proof.
  assert (Hvalid : validRule 0 65535 None INVALID_UID INVALID_UID).
  { split; [reflexivity|]. split; [vm_compute; discriminate|tauto]. }
  split; [exact Hvalid|].
  apply (modifyIpRule_per_family RTM_NEWRULE RULE_PRIORITY_MAIN RT_TABLE_MAIN
           0 65535 None INVALID_UID INVALID_UID sample_world Hvalid).
  split; reflexivity.
Defined.

(** ** Sequences of requests *)

Lemma orReturn_eq (m k : M Z) w :
  orReturn m k w = if decide ((m w).1 = 0) then k (m w).2 else m w.
Proof.
  unfold orReturn. destruct (m w) as [r w1]. cbn [fst snd].
  destruct (decide (r = 0)); reflexivity.
Qed.

Lemma sendAll_app a b w :
  sendAll (a ++ b) w = orReturn (sendAll a) (sendAll b) w.
Proof.
  revert w. induction a as [|q a IH]; intros w.
  - reflexivity.
  - cbn [app sendAll]. unfold orReturn at 1 2 3.
    destruct (send q w) as [r w1].
    destruct (decide (r = 0)) as [->|Hr].
    + rewrite IH. reflexivity.
    + destruct (decide (r = 0)); [contradiction|reflexivity].
Qed.

Lemma orReturn_sendAll (m k : M Z) s1 s2 :
  (∀ w, m w = sendAll s1 w) → (∀ w, k w = sendAll s2 w) →
  ∀ w, orReturn m k w = sendAll (s1 ++ s2) w.
Proof.
  intros Hm Hk w. rewrite sendAll_app. unfold orReturn. rewrite Hm.
  destruct (sendAll s1 w) as [r w1]. destruct (decide (r = 0)); [apply Hk|reflexivity].
Qed.

(** The trace of [sendAll]: the requests of the script in order, each
    acknowledged with 0 until one is not; that one's result is returned
    and nothing follows it. *)
Lemma sendAll_trace script : ∀ w,
  ∃ acks,
    trace (sendAll script w).2 = trace w ++ zip_with sent script acks ∧
    interfaceToIndex (sendAll script w).2 = interfaceToIndex w ∧
    (((sendAll script w).1 = 0 ∧ acks = replicate (length script) 0) ∨
     ((sendAll script w).1 ≠ 0 ∧
      ∃ n, (n < length script)%nat ∧ acks = replicate n 0 ++ [(sendAll script w).1])).
Proof.
  induction script as [|q script IH]; intros w.
  - exists []. cbn. rewrite app_nil_r. auto.
  - cbn [sendAll]. unfold orReturn. rewrite send_eq.
    set (r := netlinkResult _).
    destruct (decide (r = 0)) as [Hr|Hr].
    + destruct (IH (record (sent q r) w)) as (acks & Htr & Hmap & Hres).
      exists (r :: acks). rewrite Htr, Hmap. cbn. rewrite <- app_assoc. cbn.
      split; [reflexivity|]. split; [reflexivity|].
      destruct Hres as [[H0 ->]|[Hn (n & Hlt & ->)]].
      * left. split; [exact H0|]. f_equal. exact Hr.
      * right. split; [exact Hn|]. exists (S n). split; [cbn; lia|].
        cbn. f_equal. exact Hr.
    + exists [r]. cbn. rewrite zip_with_nil_r.
      split; [reflexivity|]. split; [reflexivity|].
      right. split; [exact Hr|]. exists 0%nat. split; [cbn; lia|reflexivity].
Qed.

(** ** Bit inclusion, for the sample layout *)

Lemma bsub_of_land_lnot a b : Z.land a (Z.lnot b) = 0 → bsub a b.
Proof.
  intros H n Hn Ha.
  assert (Hb : Z.testbit (Z.land a (Z.lnot b)) n = false)
    by (rewrite H; apply Z.bits_0).
  rewrite Z.land_spec, Z.lnot_spec, Ha in Hb by exact Hn.
  destruct (Z.testbit b n); [reflexivity|discriminate].
Qed.

Lemma bsub_not32 a b : bsub a b → Z.land a (not32 b) = 0.
Proof.
  intros H. apply Z.bits_inj'. intros n Hn.
  rewrite Z.land_spec, Z.bits_0. unfold not32, u32.
  destruct (Z.testbit a n) eqn:Ha; [|reflexivity]. cbn.
  destruct (Z_lt_le_dec n 32) as [Hlt|Hge].
  - rewrite Z.mod_pow2_bits_low by exact Hlt.
    rewrite Z.lnot_spec by exact Hn. rewrite (H n Hn Ha). reflexivity.
  - apply Z.mod_pow2_bits_high. lia.
Qed.

Lemma bsub_lor a a' b b' : bsub a a' → bsub b b' → bsub (Z.lor a b) (Z.lor a' b').
Proof.
  intros Ha Hb n Hn. rewrite !Z.lor_spec. intros H.
  apply orb_true_iff in H. apply orb_true_iff.
  destruct H as [H|H]; [left; apply Ha|right; apply Hb]; assumption.
Qed.

Lemma bsub_land_r a a' k : bsub a a' → bsub (Z.land a k) (Z.land a' k).
Proof.
  intros Ha n Hn. rewrite !Z.land_spec. intros H.
  apply andb_true_iff in H. destruct H as [H1 H2].
  rewrite (Ha n Hn H1), H2. reflexivity.
Qed.

Lemma bsub_shiftl a a' k : 0 ≤ k → bsub a a' → bsub (Z.shiftl a k) (Z.shiftl a' k).
Proof.
  intros Hk Ha n Hn. rewrite !Z.shiftl_spec by exact Hn.
  destruct (Z_lt_le_dec n k) as [Hlt|Hge].
  - rewrite Z.testbit_neg_r by lia. discriminate.
  - apply Ha. lia.
Qed.

Lemma bsub_b2z (e e' : bool) : (e → e') → bsub (Z.b2z e) (Z.b2z e').
Proof.
  intros H n Hn. destruct e; cbn.
  - destruct e'; [auto|]. exfalso. apply H. exact I.
  - rewrite Z.bits_0. discriminate.
Qed.

Lemma sample_intValue_sound : layoutSound sample_intValue.
Proof.
  intros f m (Hnet & Hexp & Hvpn & Hperm). apply bsub_not32.
  unfold sample_intValue.
  repeat apply bsub_lor.
  - apply bsub_land_r, bsub_of_land_lnot, Hnet.
  - apply bsub_shiftl; [lia|]. apply bsub_b2z, Hexp.
  - apply bsub_shiftl; [lia|]. apply bsub_b2z, Hvpn.
  - apply bsub_shiftl; [lia|]. apply bsub_land_r, bsub_of_land_lnot, Hperm.
Qed.

(** ** The rules a kernel holds after a trace *)

Lemma foldl_keepsRule rule evs : ∀ rules,
  Forall (keepsRule rule) evs → rule ∈ rules → rule ∈ foldl applyRuleEvent rules evs.
Proof.
  induction evs as [|e evs IH]; intros rules Hevs Hin; [exact Hin|].
  apply Forall_cons in Hevs as [He Hevs]. cbn [foldl].
  apply IH; [exact Hevs|]. apply He, Hin.
Qed.

Lemma body_datagram action flags iov :
  body (datagram action flags iov) = body iov.
Proof. destruct iov; reflexivity. Qed.

Lemma keepsRule_add rule q r :
  nlmsg_type_of (sent q r) = Some RTM_NEWRULE → keepsRule rule (sent q r).
Proof.
  intros Htype rules Hin. unfold sent in *. cbn [applyRuleEvent].
  destruct (decide (r = 0)); [|exact Hin]. rewrite Htype.
  destruct (decide (Some RTM_NEWRULE = Some RTM_NEWRULE)); [|contradiction].
  apply elem_of_cons. right. exact Hin.
Qed.

Lemma keepsRule_other rule q r :
  body (req_iov q) ≠ rule → keepsRule rule (sent q r).
Proof.
  intros Hne rules Hin. unfold sent. cbn [applyRuleEvent].
  destruct (decide (r = 0)); [|exact Hin].
  destruct (decide _); [apply elem_of_cons; right; exact Hin|].
  destruct (decide _); [|exact Hin].
  apply list_elem_of_filter. split; [|exact Hin].
  rewrite body_datagram. intros E. apply Hne. symmetry. exact E.
Qed.

(** After a script of acknowledged adds, the kernel holds every rule of
    the script. *)
Lemma installed_after_adds script : ∀ rules,
  Forall (fun q => nlmsg_type_of (sent q 0) = Some RTM_NEWRULE) script →
  ∀ q, q ∈ script →
    body (req_iov q)
    ∈ foldl applyRuleEvent rules (zip_with sent script (replicate (length script) 0)).
Proof.
  induction script as [|q0 script IH]; intros rules Hadds q Hq.
  - apply elem_of_nil in Hq. contradiction.
  - apply Forall_cons in Hadds as [H0 Hadds]. cbn [length replicate zip_with foldl].
    apply elem_of_cons in Hq as [->|Hq]; [|apply IH; assumption].
    apply foldl_keepsRule.
    + clear IH. revert Hadds. generalize (length script) as n.
      induction script as [|q1 script IHs]; intros n Hadds.
      * constructor.
      * destruct n as [|n]; [constructor|]. cbn.
        apply Forall_cons in Hadds as [H1 Hadds].
        constructor; [apply keepsRule_add, H1|apply IHs, Hadds].
    + unfold sent at 1. cbn [applyRuleEvent].
      destruct (decide (0 = 0)); [|contradiction].
      change (EvNetlink (datagram (req_action q0) (req_flags q0) (req_iov q0)) 0)
        with (sent q0 0). rewrite H0.
      destruct (decide (Some RTM_NEWRULE = Some RTM_NEWRULE)); [|contradiction].
      rewrite body_datagram. apply elem_of_cons. left. reflexivity.
Qed.

(** Requests for other rules leave a rule in place. *)
Lemma installed_after_others rule script : ∀ acks rules,
  Forall (fun q => body (req_iov q) ≠ rule) script →
  rule ∈ rules →
  rule ∈ foldl applyRuleEvent rules (zip_with sent script acks).
Proof.
  intros acks rules Hother Hin. apply foldl_keepsRule; [|exact Hin].
  clear Hin rules. revert acks.
  induction script as [|q script IH]; intros acks; [constructor|].
  apply Forall_cons in Hother as [Hq Hother].
  destruct acks as [|r acks]; [constructor|]. cbn.
  constructor; [apply keepsRule_other, Hq|apply IH, Hother].
Qed.

(** ** Reading messages *)

Lemma RTA_ALIGN_spec len : RTA_ALIGN len = 4 * ((len + 3) / 4).
Proof.
  unfold RTA_ALIGN, RTA_ALIGNTO.
  replace (len + 4 - 1) with (len + 3) by lia.
  change (4 - 1) with (Z.ones 2).
  rewrite <- Z.ldiff_land, Z.ldiff_ones_r by lia.
  rewrite Z.shiftl_mul_pow2, Z.shiftr_div_pow2 by lia.
  change (2 ^ 2) with 4. lia.
Qed.


Lemma paddingLengthOf_spec interface :
  interfaceLengthOf interface ≤ IFNAMSIZ →
  0 ≤ paddingLengthOf interface < 4 ∧
  (interfaceLengthOf interface + paddingLengthOf interface) mod 4 = 0.
Proof.
  intros Hlen. destruct interface as [name|];
    [|repeat split; vm_compute; first [discriminate|reflexivity]].
  unfold paddingLengthOf, RTA_SPACE, RTA_LENGTH, u16.
  set (n := interfaceLengthOf (Some name)) in *.
  assert (Hn : 1 ≤ n ≤ 16) by (subst n; cbn in *; unfold IFNAMSIZ in *; lia).
  rewrite !RTA_ALIGN_spec. unfold sizeof_rtattr.
  change ((4 + 3) / 4) with 1. clearbody n.
  replace (4 * 1 + n + 3) with (n + 7) by lia.
  pose proof (Z.div_mod (n + 7) 4 ltac:(lia)) as Hdiv.
  pose proof (Z.mod_pos_bound (n + 7) 4 ltac:(lia)) as Hrem.
  set (q := (n + 7) / 4) in *. set (r := (n + 7) mod 4) in *.
  clearbody q r. change (2 ^ 16) with 65536.
  rewrite (Z.mod_small (4 * q - (4 * 1 + n))) by lia.
  split; [lia|]. replace (n + (4 * q - (4 * 1 + n))) with ((q - 1) * 4) by lia.
  apply Z.mod_mul. lia.
Qed.


Lemma filter_len_keep b len l :
  len ≠ 0 →
  filter (fun v => iov_len v ≠ 0) (Iovec b len :: l)
  = Iovec b len :: filter (fun v => iov_len v ≠ 0) l.
Proof.
  intros H. rewrite filter_cons. cbn.
  destruct (decide (len ≠ 0)); [reflexivity|contradiction].
Qed.


Lemma filter_len_drop b l :
  filter (fun v => iov_len v ≠ 0) (Iovec b 0 :: l)
  = filter (fun v => iov_len v ≠ 0) l.
Proof.
  rewrite filter_cons. cbn.
  destruct (decide (0 ≠ 0)); [contradiction|reflexivity].
Qed.

Lemma U16_RTA_LENGTH_small x : 0 ≤ x ≤ 16 → U16_RTA_LENGTH x = sizeof_rtattr + x.
Proof.
  intros Hx. unfold U16_RTA_LENGTH, RTA_LENGTH, u16. rewrite RTA_ALIGN_spec.
  unfold sizeof_rtattr. change ((4 + 3) / 4) with 1.
  rewrite (Z.mod_small x) by lia. rewrite Z.mod_small by lia. lia.
Qed.

Lemma string_bytes_length name :
  Z.of_nat (length (string_bytes name)) = Z.of_nat (String.length name).
Proof.
  unfold string_bytes. rewrite length_fmap. f_equal.
  induction name as [|a name IH]; [reflexivity|]. cbn. rewrite IH. reflexivity.
Qed.

Lemma readAttrs_word type v rest :
  readAttrs (Iovec (PRtattr (U16_RTA_LENGTH sizeof_uint32) type) sizeof_rtattr
             :: Iovec (PU32 v) sizeof_uint32 :: rest)
  = cons (type, Word v) <$> readAttrs rest.
Proof. reflexivity. Qed.

Lemma readAttrs_bytes type bs n rest :
  0 < n ≤ 16 →
  match rest with Iovec PPadding _ :: _ => False | _ => True end →
  readAttrs (Iovec (PRtattr (U16_RTA_LENGTH n) type) sizeof_rtattr
             :: Iovec (PBuffer bs) n :: rest)
  = cons (type, Bytes (take (Z.to_nat n) bs)) <$> readAttrs rest.
Proof.
  intros Hn Hrest. cbn [readAttrs].
  destruct (decide (sizeof_rtattr = sizeof_rtattr)); [|contradiction].
  rewrite U16_RTA_LENGTH_small by lia.
  destruct (decide (0 < n ∧ sizeof_rtattr + n = sizeof_rtattr + n)) as [_|H];
    [|exfalso; apply H; split; [lia|reflexivity]].
  destruct rest as [|[[] ?] ?]; try reflexivity. contradiction.
Qed.

Lemma readAttrs_bytes_padded type bs n pad rest :
  0 < n ≤ 16 → 0 < pad < 4 → (n + pad) mod 4 = 0 →
  readAttrs (Iovec (PRtattr (U16_RTA_LENGTH n) type) sizeof_rtattr
             :: Iovec (PBuffer bs) n :: Iovec PPadding pad :: rest)
  = cons (type, Bytes (take (Z.to_nat n) bs)) <$> readAttrs rest.
Proof.
  intros Hn Hpad Hmod. cbn [readAttrs].
  destruct (decide (sizeof_rtattr = sizeof_rtattr)); [|contradiction].
  rewrite U16_RTA_LENGTH_small by lia.
  destruct (decide (0 < n ∧ sizeof_rtattr + n = sizeof_rtattr + n)) as [_|H];
    [|exfalso; apply H; split; [lia|reflexivity]].
  destruct (decide (0 < pad < RTA_ALIGNTO ∧ (n + pad) mod RTA_ALIGNTO = 0)) as [_|H];
    [reflexivity|].
  exfalso. apply H. unfold RTA_ALIGNTO. split; [lia|exact Hmod].
Qed.

Lemma readAttrs_empty type rest :
  match rest with
  | Iovec (PU32 _) _ :: _ | Iovec (PBuffer _) _ :: _ => False
  | _ => True
  end →
  readAttrs (Iovec (PRtattr (U16_RTA_LENGTH 0) type) sizeof_rtattr :: rest)
  = cons (type, Bytes []) <$> readAttrs rest.
Proof.
  intros Hrest. cbn [readAttrs].
  destruct (decide (sizeof_rtattr = sizeof_rtattr)); [|contradiction].
  destruct rest as [|[[] ?] ?]; try reflexivity; contradiction.
Qed.

(** The rule encoder writes the message of the spec. *)
Lemma readRule_ruleRequest action family priority table fwmark mask interface
    uidStart uidEnd :
  interfaceLengthOf interface ≤ IFNAMSIZ →
  readRule (wire (ruleRequest action family priority table fwmark mask interface
                    uidStart uidEnd))
  = Some (ruleMessage action (ruleFlags action) family priority table fwmark mask
            interface uidStart uidEnd).
Proof.
  intros Hlen. unfold wire, ruleRequest. cbn [req_action req_flags req_iov].
  unfold ruleIov. rewrite datagram_cons. unfold readRule, ruleMessage.
  destruct (paddingLengthOf_spec interface Hlen) as [Hpad Hmod].
  destruct interface as [name|].
  - assert (Hn : 0 < interfaceLengthOf (Some name) ≤ 16)
      by (cbn in *; unfold IFNAMSIZ in *; lia).
    assert (Hbytes : take (Z.to_nat (interfaceLengthOf (Some name)))
                       (string_bytes name ++ [0]) = string_bytes name ++ [0]).
    { apply take_ge. rewrite length_app. cbn.
      pose proof (string_bytes_length name). lia. }
    cbn [from_option].
    set (len := interfaceLengthOf (Some name)) in *.
    set (pad := paddingLengthOf (Some name)) in *.
    assert (Hlen0 : len ≠ 0) by lia.
    clearbody len pad.
    destruct (decide (pad = 0)) as [->|Hp];
      do 3 case_bool_decide;
      repeat first
        [ rewrite filter_len_drop
        | rewrite filter_len_keep by first [assumption | vm_compute; discriminate] ];
      rewrite filter_nil;
      (destruct (decide (sizeof_nlmsghdr = sizeof_nlmsghdr ∧
                         sizeof_fib_rule_hdr = sizeof_fib_rule_hdr)) as [_|Hbad];
         [|exfalso; apply Hbad; split; reflexivity]);
      rewrite ?readAttrs_word;
      first [ rewrite readAttrs_bytes by first [lia|exact I]
            | rewrite readAttrs_bytes_padded by first [lia|exact Hmod] ];
      rewrite Hbytes; reflexivity.
  - cbn [interfaceLengthOf paddingLengthOf from_option].
    do 3 case_bool_decide;
      repeat first
        [ rewrite filter_len_drop
        | rewrite filter_len_keep by (vm_compute; discriminate) ];
      rewrite filter_nil;
      (destruct (decide (sizeof_nlmsghdr = sizeof_nlmsghdr ∧
                         sizeof_fib_rule_hdr = sizeof_fib_rule_hdr)) as [_|Hbad];
         [|exfalso; apply Hbad; split; reflexivity]);
      rewrite ?readAttrs_word; reflexivity.
Qed.

(** The route encoder writes the message of the spec. *)
Lemma readRoute_routeRequest parsePrefix inet_pton w action table interface
    destination nexthop :
  let p := parsePrefix destination in
  0 ≤ rawLength p ≤ sizeof_in6_addr →
  readRoute (wire (routeRequest parsePrefix inet_pton w action table interface
                     destination nexthop))
  = Some (routeMessage action (routeFlags action) p table
            (Some (u32 (if_nametoindex w interface)))
            (if nexthop is Some address
             then Some (inet_pton (family p) address).2 else None)).
Proof.
  intros p Hlen. unfold wire, routeRequest. cbn [req_action req_flags req_iov].
  fold p. unfold routeIov. rewrite datagram_cons. unfold readRoute, routeMessage.
  unfold sizeof_in6_addr in Hlen.
  set (n := rawLength p) in *. clearbody n.
  destruct (decide (n = 0)) as [->|Hn], nexthop as [address|];
    repeat first
      [ rewrite filter_len_drop
      | rewrite filter_len_keep by first [assumption | vm_compute; discriminate] ];
    rewrite filter_nil;
    (destruct (decide (sizeof_nlmsghdr = sizeof_nlmsghdr ∧
                       sizeof_rtmsg = sizeof_rtmsg)) as [_|Hbad];
       [|exfalso; apply Hbad; split; reflexivity]);
    rewrite readAttrs_word;
    first [ rewrite readAttrs_empty by exact I
          | rewrite readAttrs_bytes by first [lia|exact I] ];
    rewrite readAttrs_word;
    try first [ rewrite readAttrs_empty by exact I
              | rewrite readAttrs_bytes by first [lia|exact I] ];
    reflexivity.
Qed.

(** ** Startup rules *)

Lemma validRule_of_covered intValue f m :
  layoutSound intValue → coveredBy f m →
  validRule (intValue f) (intValue m) None INVALID_UID INVALID_UID.
Proof.
  intros Hsound Hcov. split; [apply Hsound, Hcov|].
  split; [cbn; unfold IFNAMSIZ; lia|tauto].
Qed.

Lemma Init_sendAll offset mask ci intValue w :
  layoutSound intValue →
  Init offset mask ci intValue w
  = sendAll (baselineRequests offset mask ci intValue) w.
Proof.
  intros Hsound. unfold Init, baselineRequests.
  apply orReturn_sendAll; [|intros w1; apply orReturn_sendAll;
    [|intros w2; rewrite <- (app_nil_r (ruleRequests _ _ _ _ _ _ _ _));
      apply orReturn_sendAll; [|reflexivity]]];
  intros w'; apply modifyIpRule_valid, validRule_of_covered; try exact Hsound;
  (split; [|split; [|split]]); cbn; try tauto; try reflexivity;
  apply Z.land_lnot_diag.
Qed.

(** C1: [Init] hands the kernel the requests of three rules and nothing
    else, in this order: priority 20000 to the main table for network id
    0, priority 16000 to the legacy table for "not explicitly selected",
    priority 11000 to the privileged legacy table for "not explicitly
    selected" with the internal-connectivity permission; each rule for
    IPv4 and then IPv6.  Read off the wire, the six datagrams are the six
    messages of [baselineRules]: new rules with these priorities, tables,
    marks and masks, and nothing else in them.  Each request is sent only
    once all earlier ones returned 0; the first result that is not 0 is
    returned and nothing is sent after it, in particular nothing that
    would take back a rule already installed.  The result is 0 when all
    six were accepted, and the kernel then holds the three rules for both
    families. *)
Theorem Init_installs_baseline_rules offset mask ci intValue w :
  layoutSound intValue →
  let script := baselineRequests offset mask ci intValue in
  let result := Init offset mask ci intValue w in
  (fun q => readRule (wire q)) <$> script
  = Some <$> baselineRules offset mask ci intValue ∧
  Forall (fun q => req_action q = RTM_NEWRULE) script ∧
  (∃ acks,
    trace result.2 = trace w ++ zip_with sent script acks ∧
    interfaceToIndex result.2 = interfaceToIndex w ∧
    ((result.1 = 0 ∧ acks = replicate 6 0) ∨
     (result.1 ≠ 0 ∧ ∃ n, (n < 6)%nat ∧ acks = replicate n 0 ++ [result.1]))) ∧
  (result.1 = 0 →
     Forall (fun q => body (req_iov q) ∈ installedRules (trace result.2)) script).
Proof.
  intros Hsound script result. split.
  { subst script. unfold baselineRequests, baselineRules, ruleRequests.
    cbn [app fmap list_fmap].
    rewrite !readRule_ruleRequest by (cbn; unfold IFNAMSIZ; lia).
    reflexivity. }
  split.
  { subst script. unfold baselineRequests, ruleRequests. cbn.
    repeat constructor. }
  assert (Htrace : ∃ acks,
    trace result.2 = trace w ++ zip_with sent script acks ∧
    interfaceToIndex result.2 = interfaceToIndex w ∧
    ((result.1 = 0 ∧ acks = replicate 6 0) ∨
     (result.1 ≠ 0 ∧ ∃ n, (n < 6)%nat ∧ acks = replicate n 0 ++ [result.1]))).
  { subst result. rewrite Init_sendAll by exact Hsound. fold script.
    exact (sendAll_trace script w). }
  split; [exact Htrace|]. intros H0.
  destruct Htrace as (acks & Htr & _ & [[_ ->]|[Hn _]]); [|contradiction].
  apply Forall_forall. intros q Hq.
  unfold installedRules. rewrite Htr, foldl_app.
  change 6%nat with (length script).
  apply installed_after_adds; [repeat constructor|exact Hq].
Qed.

Lemma Init_installs_baseline_rules_witness :
  let rule family priority table fwmark mask :=
    {| rule_type := 32; rule_flags := 1541; rule_family := family;
       rule_action := 1;
       rule_attrs := [(6, Word priority); (15, Word table);
                      (10, Word fwmark); (16, Word mask)] |} in
  layoutSound sample_intValue ∧
  (Init 1000 65535 3 sample_intValue sample_world).1 = 0 ∧
  trace (Init 1000 65535 3 sample_intValue sample_world).2
  = zip_with sent (baselineRequests 1000 65535 3 sample_intValue) (replicate 6 0) ∧
  (fun q => readRule (wire q)) <$> baselineRequests 1000 65535 3 sample_intValue
  = [ Some (rule 2 20000 254 0 65535); Some (rule 10 20000 254 0 65535);
      Some (rule 2 16000 98 0 65536); Some (rule 10 16000 98 0 65536);
      Some (rule 2 11000 99 786432 851968);
      Some (rule 10 11000 99 786432 851968) ].
Proof.
  intros rule. split; [exact sample_intValue_sound|].
  destruct (Init_installs_baseline_rules 1000 65535 3 sample_intValue
              sample_world sample_intValue_sound)
    as (Hread & _ & (acks & Htr & _ & [[H0 ->]|[Hn _]]) & _).
  - split; [exact H0|]. split; [exact Htr|]. rewrite Hread. reflexivity.
  - exfalso. apply Hn. vm_compute. reflexivity.
Defined.

(** ** Interface table registry *)

Lemma getRouteTableForInterface_resolved offset name w :
  u32 (if_nametoindex w name) ≠ 0 →
  getRouteTableForInterface offset name w
  = (u32 (u32 (if_nametoindex w name) + offset),
     set_interfaceToIndex
       (<[name := u32 (if_nametoindex w name)]> (interfaceToIndex w)) w).
Proof.
  intros H. unfold getRouteTableForInterface.
  destruct (decide (u32 (if_nametoindex w name) ≠ 0)); [|contradiction].
  destruct (decide (u32 (if_nametoindex w name) ≠ 0)); [reflexivity|contradiction].
Qed.

Lemma getRouteTableForInterface_unresolved offset name w :
  u32 (if_nametoindex w name) = 0 →
  getRouteTableForInterface offset name w
  = (match interfaceToIndex w !! name with
     | Some cached => if decide (cached ≠ 0) then u32 (cached + offset) else 0
     | None => 0
     end, w).
Proof.
  intros H. unfold getRouteTableForInterface. rewrite H.
  destruct (decide (0 ≠ 0)) as [Hn|_]; [contradiction|].
  destruct (interfaceToIndex w !! name) as [cached|]; [reflexivity|].
  destruct (decide (0 ≠ 0)) as [Hn|_]; [contradiction|reflexivity].
Qed.

Lemma sameRegistry_refl w : sameRegistry w w.
Proof. split; reflexivity. Qed.


Lemma sameRegistry_trans w1 w2 w3 :
  sameRegistry w1 w2 → sameRegistry w2 w3 → sameRegistry w1 w3.
Proof. intros [H1 H2] [H3 H4]. split; congruence. Qed.


Lemma sameRegistry_record e w : sameRegistry w (record e w).
Proof. split; reflexivity. Qed.


Lemma flushEachVersion_trace ipPath tableString versions : ∀ w,
  let result := flushEachVersion ipPath versions tableString w in
  if_nametoindex result.2 = if_nametoindex w ∧
  interfaceToIndex result.2 = interfaceToIndex w ∧
  ∃ evs, trace result.2 = trace w ++ evs ∧
         Forall (fun e => ∃ argv r, e = EvExec argv r (interfaceToIndex w)) evs.
Proof.
  induction versions as [|version versions IH]; intros w.
  - cbn. do 2 (split; [reflexivity|]). exists []. rewrite app_nil_r.
    split; [reflexivity|constructor].
  - cbn [flushEachVersion].
    set (argv := flushArgv ipPath version tableString).
    set (r := android_fork_execvp w (trace w) argv).
    destruct (decide (r ≠ 0)).
    + cbn. do 2 (split; [reflexivity|]). exists [EvExec argv r (interfaceToIndex w)].
      split; [reflexivity|]. constructor; [eauto|constructor].
    + destruct (IH (record (EvExec argv r (interfaceToIndex w)) w))
        as (Hif & Hcache & evs & Htr & Hevs).
      cbn zeta in *. rewrite Hif, Hcache.
      do 2 (split; [reflexivity|]). exists (EvExec argv r (interfaceToIndex w) :: evs).
      rewrite Htr. cbn. rewrite <- app_assoc.
      split; [reflexivity|]. constructor; [eauto|exact Hevs].
Qed.

(** *** What every operation keeps *)

Section Preserved.

Variable P : World → Prop.
Hypothesis P_registry : ∀ w w', sameRegistry w w' → P w → P w'.

Lemma preserves_ret r : preserves P (ret r).
Proof. intros w H. exact H. Qed.

Lemma preserves_orReturn m k :
  preserves P m → preserves P k → preserves P (orReturn m k).
Proof.
  intros Hm Hk w H. unfold orReturn. specialize (Hm w H).
  destruct (m w) as [r w1]. cbn [snd] in Hm.
  destruct (decide (r = 0)); [apply Hk; exact Hm|exact Hm].
Qed.

Lemma preserves_bind (m : M Z) (k : Z → M Z) :
  preserves P m → (∀ a, preserves P (k a)) → preserves P (bind m k).
Proof.
  intros Hm Hk w H. unfold bind. specialize (Hm w H).
  destruct (m w) as [r w1]. cbn [snd] in Hm. apply Hk. exact Hm.
Qed.

Lemma preserves_sameRegistry (m : M Z) :
  (∀ w, sameRegistry w (m w).2) → preserves P m.
Proof. intros Hsame w H. exact (P_registry _ _ (Hsame w) H). Qed.

Lemma preserves_modifyIpRule action priority table fwmark mask interface
    uidStart uidEnd :
  preserves P (modifyIpRule action priority table fwmark mask interface
                 uidStart uidEnd).
Proof.
  unfold modifyIpRule.
  repeat (match goal with |- context [decide ?Q] => destruct (decide Q) end;
          try apply preserves_ret).
  generalize AF_FAMILIES. intros families.
  induction families as [|family rest IH]; cbn [forEachFamily].
  - apply preserves_ret.
  - apply preserves_orReturn; [|exact IH].
    apply preserves_sameRegistry. intros w. apply sameRegistry_record.
Qed.

Lemma preserves_modifyIpRoute parsePrefix inet_pton action table interface
    destination nexthop :
  preserves P (modifyIpRoute parsePrefix inet_pton action table interface
                 destination nexthop).
Proof.
  apply preserves_sameRegistry. intros w. unfold modifyIpRoute.
  destruct destination as [destination|]; [|apply sameRegistry_refl].
  repeat (match goal with |- context [decide ?Q] => destruct (decide Q) end;
          try apply sameRegistry_refl).
  apply sameRegistry_record.
Qed.

Lemma preserves_flushEachVersion ipPath versions tableString :
  preserves P (flushEachVersion ipPath versions tableString).
Proof.
  apply preserves_sameRegistry. intros w.
  destruct (flushEachVersion_trace ipPath tableString versions w) as (Hif & Hcache & _).
  split; assumption.
Qed.

Variable offset : Z.
Hypothesis P_lookup : ∀ interface, preserves P (getRouteTableForInterface offset interface).

Lemma preserves_modifyPerNetworkRules mask intValue netId interface permission
    add modifyIptables :
  preserves P (modifyPerNetworkRules offset mask intValue netId interface
                 permission add modifyIptables).
Proof.
  unfold modifyPerNetworkRules. apply preserves_bind; [apply P_lookup|].
  intros table. destruct (decide (table = 0)); [apply preserves_ret|].
  do 3 (apply preserves_orReturn; [apply preserves_modifyIpRule|]).
  destruct modifyIptables; [|apply preserves_ret].
  apply preserves_sameRegistry. intros w. apply sameRegistry_record.
Qed.

Lemma preserves_modifyVpnRules mask ci intValue netId interface action :
  preserves P (modifyVpnRules offset mask ci intValue netId interface action).
Proof.
  unfold modifyVpnRules. apply preserves_bind; [apply P_lookup|].
  intros table. destruct (decide (table = 0)); [apply preserves_ret|].
  apply preserves_orReturn; apply preserves_modifyIpRule.
Qed.

Lemma preserves_modifyDefaultNetworkRules mask intValue interface permission
    action :
  preserves P (modifyDefaultNetworkRules offset mask intValue interface
                 permission action).
Proof.
  unfold modifyDefaultNetworkRules. apply preserves_bind; [apply P_lookup|].
  intros table. destruct (decide (table = 0)); [apply preserves_ret|].
  apply preserves_modifyIpRule.
Qed.

Lemma preserves_modifyRoute parsePrefix inet_pton interface destination nexthop
    action tableType uid :
  preserves P (modifyRoute offset parsePrefix inet_pton interface destination
                 nexthop action tableType uid).
Proof.
  unfold modifyRoute. apply preserves_bind.
  - destruct tableType; [apply P_lookup|apply preserves_ret..].
  - intros table. destruct (decide (table = 0)); [apply preserves_ret|].
    apply preserves_bind; [apply preserves_modifyIpRoute|].
    intros r. destruct (decide _); [apply preserves_ret|].
    destruct nexthop; [apply preserves_ret|].
    apply preserves_bind; [apply preserves_modifyIpRoute|].
    intros r'. destruct (decide _); apply preserves_ret.
Qed.

Lemma preserves_Init mask ci intValue :
  preserves P (Init offset mask ci intValue).
Proof.
  unfold Init.
  do 3 (apply preserves_orReturn; [apply preserves_modifyIpRule|]).
  apply preserves_ret.
Qed.

End Preserved.

(** *** The entry of an interface *)

Lemma entryKept_registry name entry w w' :
  sameRegistry w w' → entryKept name entry w → entryKept name entry w'.
Proof. intros [Hif Hcache] H. unfold entryKept. rewrite Hif, Hcache. exact H. Qed.

Lemma entryKept_lookup name entry offset interface :
  preserves (entryKept name entry) (getRouteTableForInterface offset interface).
Proof.
  intros w [Hentry Hresolves]. unfold getRouteTableForInterface.
  destruct (decide (u32 (if_nametoindex w interface) ≠ 0)) as [Hn|_].
  - split; [|exact Hresolves]. cbn [snd set_interfaceToIndex interfaceToIndex].
    destruct (decide (interface = name)) as [->|Hne].
    + rewrite lookup_insert_eq. destruct Hresolves; [contradiction|assumption].
    + rewrite lookup_insert_ne by exact Hne. exact Hentry.
  - destruct (interfaceToIndex w !! interface); split; assumption.
Qed.

Lemma entryKept_flushRoutes name entry offset ipPath interface :
  (interface = name → entry = None) →
  preserves (entryKept name entry) (flushRoutes offset ipPath interface).
Proof.
  intros Hdetach. unfold flushRoutes.
  apply preserves_bind; [apply entryKept_lookup|].
  intros table. destruct (decide (table = 0)); [apply preserves_ret|].
  intros w [Hentry Hresolves].
  apply (preserves_flushEachVersion _ (entryKept_registry name entry)).
  split; [|exact Hresolves]. cbn [set_interfaceToIndex interfaceToIndex].
  destruct (decide (interface = name)) as [->|Hne].
  - rewrite lookup_delete_eq. symmetry. apply Hdetach. reflexivity.
  - rewrite lookup_delete_ne by exact Hne. exact Hentry.
Qed.

Lemma runOperation_leavesEntry s name entry op w :
  leavesEntry name entry op →
  entryKept name entry w → entryKept name entry (runOperation s op w).
Proof.
  pose proof (entryKept_registry name entry) as Hreg.
  pose proof (entryKept_lookup name entry (routeTableOffset s)) as Hlookup.
  intros Hop. revert w. destruct op; cbn [runOperation leavesEntry] in *.
  - apply (preserves_Init _ Hreg).
  - apply (preserves_modifyPerNetworkRules _ Hreg _ Hlookup).
  - apply preserves_orReturn;
      [apply (preserves_modifyPerNetworkRules _ Hreg _ Hlookup)|].
    apply entryKept_flushRoutes, Hop.
  - apply preserves_orReturn;
      [apply (preserves_modifyPerNetworkRules _ Hreg _ Hlookup)|].
    apply (preserves_modifyVpnRules _ Hreg _ Hlookup).
  - apply preserves_orReturn;
      [apply (preserves_modifyPerNetworkRules _ Hreg _ Hlookup)|].
    apply preserves_orReturn; [apply (preserves_modifyVpnRules _ Hreg _ Hlookup)|].
    apply entryKept_flushRoutes, Hop.
  - apply preserves_orReturn;
      apply (preserves_modifyPerNetworkRules _ Hreg _ Hlookup).
  - apply (preserves_modifyDefaultNetworkRules _ Hreg _ Hlookup).
  - apply (preserves_modifyDefaultNetworkRules _ Hreg _ Hlookup).
  - apply (preserves_modifyRoute _ Hreg _ Hlookup).
  - apply (preserves_modifyRoute _ Hreg _ Hlookup).
  - intros w [Hentry _]. split; [exact Hentry|exact Hop].
Qed.

Lemma runOperations_leaveEntry s name entry ops : ∀ w,
  Forall (leavesEntry name entry) ops →
  entryKept name entry w → entryKept name entry (runOperations s ops w).
Proof.
  unfold runOperations.
  induction ops as [|op rest IH]; intros w Hops Hw; cbn [foldl]; [exact Hw|].
  apply Forall_cons in Hops as [Hop Hrest].
  apply IH; [exact Hrest|]. apply runOperation_leavesEntry; assumption.
Qed.

(** C7, as the code has it: once [name] has been resolved to an index, a
    lookup made after the interface is gone still returns that index plus
    the offset, whatever public operations were called in between and
    however the interfaces of the system changed, as long as [name] was
    not detached from a network or a VPN (which flushes its routes and
    forgets its entry) and did not come back with another index.  A name
    that has no entry and never resolves gives 0. *)
Theorem getRouteTableForInterface_after_removal s name w ops gone :
  let offset := routeTableOffset s in
  let index := u32 (if_nametoindex w name) in
  let first := getRouteTableForInterface offset name w in
  let later :=
    getRouteTableForInterface offset name
      (set_if_nametoindex gone (runOperations s ops first.2)) in
  u32 (gone name) = 0 →
  (index ≠ 0 → Forall (leavesEntry name (Some index)) ops →
     first.1 = u32 (index + offset) ∧ later.1 = first.1) ∧
  (index = 0 → interfaceToIndex w !! name = None →
     Forall (leavesEntry name None) ops →
     first.1 = 0 ∧ later.1 = 0).
Proof.
  intros offset index first later Hgone. split.
  - intros Hidx Hops. subst first later.
    rewrite getRouteTableForInterface_resolved by exact Hidx. cbn [fst snd].
    split; [reflexivity|].
    rewrite getRouteTableForInterface_unresolved by exact Hgone. cbn [fst].
    change (interfaceToIndex (set_if_nametoindex gone ?x)) with (interfaceToIndex x).
    destruct (runOperations_leaveEntry s name (Some index) ops
                (set_interfaceToIndex (<[name := index]> (interfaceToIndex w)) w)
                Hops) as [Hentry _].
    { split; [apply lookup_insert_eq|right; reflexivity]. }
    fold index. rewrite Hentry.
    destruct (decide (index ≠ 0)); [reflexivity|contradiction].
  - intros Hidx Hnone Hops. subst first later.
    rewrite getRouteTableForInterface_unresolved by exact Hidx. cbn [fst snd].
    rewrite Hnone. split; [reflexivity|].
    rewrite getRouteTableForInterface_unresolved by exact Hgone. cbn [fst].
    change (interfaceToIndex (set_if_nametoindex gone ?x)) with (interfaceToIndex x).
    destruct (runOperations_leaveEntry s name None ops w Hops) as [Hentry _].
    { split; [exact Hnone|left; exact Hidx]. }
    rewrite Hentry. reflexivity.
Qed.

Lemma getRouteTableForInterface_after_removal_witness :
  let ops :=
    [ OpAddInterfaceToNetwork 5 "wlan0" 0; InterfacesChange no_interfaces;
      OpAddToDefaultNetwork "wlan0" 0;
      OpAddRoute "wlan0" (Some "10.0.0.0/24") None INTERFACE 0;
      OpRemoveFromDefaultNetwork "wlan0" 0 ]%string in
  u32 (no_interfaces "wlan0") = 0 ∧
  Forall (leavesEntry "wlan0" (Some 5)) ops ∧
  (getRouteTableForInterface 1000 "wlan0" sample_world).1 = 1005 ∧
  (getRouteTableForInterface 1000 "wlan0"
     (set_if_nametoindex no_interfaces
        (runOperations sample_settings ops
           (getRouteTableForInterface 1000 "wlan0" sample_world).2))).1 = 1005.
Proof.
  intros ops. split; [reflexivity|].
  assert (Hops : Forall (leavesEntry "wlan0" (Some 5)) ops).
  { subst ops. repeat (apply Forall_cons; split; [first [exact I|left; reflexivity]|]).
    apply Forall_nil_2. }
  split; [exact Hops|].
  destruct (getRouteTableForInterface_after_removal sample_settings "wlan0"
              sample_world ops no_interfaces eq_refl) as [Hres _].
  destruct (Hres ltac:(vm_compute; discriminate) Hops) as [Hfirst Hlater].
  split; [reflexivity|].
  transitivity (getRouteTableForInterface 1000 "wlan0" sample_world).1;
    [exact Hlater|reflexivity].
Defined.

(** C7, as stated, fails: [wlan0] is resolved and gets table 1005; it is
    then attached to a network and detached again, both with result 0;
    once the interface is gone the lookup gives 0, not 1005. *)
Lemma getRouteTableForInterface_after_detach_counterexample :
  let first := getRouteTableForInterface 1000 "wlan0" sample_world in
  let attached :=
    addInterfaceToNetwork 1000 65535 sample_intValue 5 "wlan0" 0 first.2 in
  let detached :=
    removeInterfaceFromNetwork 1000 65535 sample_intValue "/system/bin/ip" 5
      "wlan0" 0 attached.2 in
  let later :=
    getRouteTableForInterface 1000 "wlan0"
      (set_if_nametoindex no_interfaces detached.2) in
  first.1 = 1005 ∧ attached.1 = 0 ∧ detached.1 = 0 ∧
  u32 (no_interfaces "wlan0") = 0 ∧ later.1 = 0.
Proof. repeat split; vm_compute; reflexivity. Qed.

(** C10: with kernel indices in the range of a positive [int] and the
    offset an [int] above 902, a table derived from an interface is 0 (not
    found) or lies strictly above the offset, while the two reserved tables
    lie strictly below it: the three kinds of table never coincide.  The
    lookup keeps the registry within the range of kernel indices. *)
Theorem getRouteTableForInterface_disjoint_from_reserved offset name w :
  902 < offset ≤ INT_MAX →
  validIndices w →
  let result := getRouteTableForInterface offset name w in
  (result.1 = 0 ∨ offset < result.1) ∧
  0 < u32 (ROUTE_TABLE_LEGACY offset) < offset ∧
  0 < u32 (ROUTE_TABLE_PRIVILEGED_LEGACY offset) < offset ∧
  result.1 ≠ u32 (ROUTE_TABLE_LEGACY offset) ∧
  result.1 ≠ u32 (ROUTE_TABLE_PRIVILEGED_LEGACY offset) ∧
  u32 (ROUTE_TABLE_LEGACY offset) ≠ u32 (ROUTE_TABLE_PRIVILEGED_LEGACY offset) ∧
  validIndices result.2.
Proof.
  intros Hoff [Hres Hcache] result. unfold INT_MAX in *.
  assert (Hleg : u32 (ROUTE_TABLE_LEGACY offset) = offset - 902)
    by (apply u32_small; unfold ROUTE_TABLE_LEGACY; lia).
  assert (Hpriv : u32 (ROUTE_TABLE_PRIVILEGED_LEGACY offset) = offset - 901)
    by (apply u32_small; unfold ROUTE_TABLE_PRIVILEGED_LEGACY; lia).
  assert (Hidx : u32 (if_nametoindex w name) = if_nametoindex w name)
    by (apply u32_small; pose proof (Hres name); lia).
  assert (Hmain : (result.1 = 0 ∨ offset < result.1) ∧ validIndices result.2).
  { subst result.
    destruct (decide (u32 (if_nametoindex w name) = 0)) as [H0|Hn].
    - rewrite getRouteTableForInterface_unresolved by exact H0. cbn [fst snd].
      split; [|split; assumption].
      destruct (interfaceToIndex w !! name) as [cached|] eqn:E; [|left; reflexivity].
      specialize (Hcache name cached E).
      destruct (decide (cached ≠ 0)); [|left; reflexivity].
      right. rewrite u32_small; lia.
    - rewrite getRouteTableForInterface_resolved by exact Hn. cbn [fst snd].
      pose proof (Hres name) as Hname. rewrite Hidx in *. split.
      + right. rewrite u32_small; lia.
      + split; [exact Hres|]. intros n i. cbn.
        destruct (decide (name = n)) as [->|Hne].
        * rewrite lookup_insert_eq. intros [= <-]. unfold INT_MAX. lia.
        * rewrite lookup_insert_ne by exact Hne. apply Hcache. }
  destruct Hmain as [Hrange Hvalid]. rewrite Hleg, Hpriv.
  split; [exact Hrange|]. do 5 (split; [lia|]). exact Hvalid.
Qed.

Lemma sample_world_validIndices : validIndices sample_world.
Proof.
  split.
  - intros name. cbn. unfold sample_interfaces, INT_MAX.
    destruct (decide (name = "wlan0"%string)); lia.
  - intros name index. cbn. rewrite lookup_empty. discriminate.
Qed.

Lemma getRouteTableForInterface_disjoint_from_reserved_witness :
  902 < 1000 ≤ INT_MAX ∧ validIndices sample_world ∧
  (getRouteTableForInterface 1000 "wlan0" sample_world).1 = 1005 ∧
  u32 (ROUTE_TABLE_LEGACY 1000) = 98 ∧
  u32 (ROUTE_TABLE_PRIVILEGED_LEGACY 1000) = 99 ∧
  (getRouteTableForInterface 1000 "wlan0" sample_world).1
    ≠ u32 (ROUTE_TABLE_LEGACY 1000).
Proof.
  assert (Hoff : 902 < 1000 ≤ INT_MAX) by (unfold INT_MAX; lia).
  split; [exact Hoff|]. split; [exact sample_world_validIndices|].
  do 3 (split; [reflexivity|]).
  apply (getRouteTableForInterface_disjoint_from_reserved 1000 "wlan0"
           sample_world Hoff sample_world_validIndices).
Defined.

(** ** Flushing the routes of an interface *)





(** ** Routes *)

Lemma modifyIpRoute_ready parsePrefix inet_pton action table interface
    destination nexthop w :
  routeChecksPass parsePrefix inet_pton w interface destination nexthop →
  modifyIpRoute parsePrefix inet_pton action table (Some interface)
    (Some destination) nexthop w
  = send (routeRequest parsePrefix inet_pton w action table interface
            destination nexthop) w.
Proof.
  intros (Hlen & Hif & Hhop). unfold modifyIpRoute.
  destruct (decide (rawLength (parsePrefix destination) < 0)); [lia|].
  destruct (decide (rawLength (parsePrefix destination) > sizeof_in6_addr)); [lia|].
  destruct (decide (is_Some (Some interface) ∧ u32 (if_nametoindex w interface) = 0))
    as [[_ H0]|_]; [contradiction|].
  destruct nexthop as [address|].
  - destruct (decide (is_Some (Some address) ∧
        (inet_pton (family (parsePrefix destination)) address).1 ≤ 0))
      as [[_ H0]|_]; [lia|reflexivity].
  - destruct (decide (is_Some None ∧ (1, @nil Z).1 ≤ 0)) as [[H0 _]|_];
      [destruct H0; discriminate|reflexivity].
Qed.

(** [modifyIpRoute] sends at most one request, and only to [table]. *)
Lemma modifyIpRoute_trace parsePrefix inet_pton action table interface
    destination nexthop w :
  let result :=
    modifyIpRoute parsePrefix inet_pton action table (Some interface)
      (Some destination) nexthop w in
  if_nametoindex result.2 = if_nametoindex w ∧
  netlink result.2 = netlink w ∧
  interfaceToIndex result.2 = interfaceToIndex w ∧
  (result.2 = w ∧ result.1 ≠ 0 ∨
   result.2 = record (sent (routeRequest parsePrefix inet_pton w action table
                              interface destination nexthop) result.1) w).
Proof.
  intros result. subst result. unfold modifyIpRoute.
  destruct (decide (rawLength (parsePrefix destination) < 0)).
  { cbn. do 3 (split; [reflexivity|]). left. split; [reflexivity|lia]. }
  destruct (decide (rawLength (parsePrefix destination) > sizeof_in6_addr)).
  { cbn. do 3 (split; [reflexivity|]). left. split; [reflexivity|discriminate]. }
  destruct (decide (is_Some (Some interface) ∧ u32 (if_nametoindex w interface) = 0)).
  { cbn. do 3 (split; [reflexivity|]). left. split; [reflexivity|discriminate]. }
  destruct nexthop as [address|].
  - destruct (decide (is_Some (Some address) ∧
        (inet_pton (family (parsePrefix destination)) address).1 ≤ 0)).
    { cbn. do 3 (split; [reflexivity|]). left. split; [reflexivity|discriminate]. }
    cbn. do 3 (split; [reflexivity|]). right. reflexivity.
  - destruct (decide (is_Some None ∧ (1, @nil Z).1 ≤ 0)).
    { cbn. do 3 (split; [reflexivity|]). left. split; [reflexivity|discriminate]. }
    cbn. do 3 (split; [reflexivity|]). right. reflexivity.
Qed.

Lemma modifyRoute_unfold offset parsePrefix inet_pton interface destination
    nexthop action tableType uid w :
  let resolved := routeTable offset tableType interface w in
  let primary :=
    modifyIpRoute parsePrefix inet_pton action resolved.1 (Some interface)
      destination nexthop resolved.2 in
  let mirror :=
    modifyIpRoute parsePrefix inet_pton action RT_TABLE_MAIN (Some interface)
      destination None primary.2 in
  modifyRoute offset parsePrefix inet_pton interface destination nexthop action
    tableType uid w
  = if decide (resolved.1 = 0) then (- ESRCH, resolved.2)
    else if decide (primary.1 ≠ 0 ∧ ¬ toleratedPrimary action tableType primary.1)
    then primary
    else match nexthop with
         | Some _ => (0, primary.2)
         | None =>
             if decide (mirror.1 ≠ 0 ∧ ¬ (action = RTM_NEWROUTE ∧ mirror.1 = - EEXIST))
             then mirror else (0, mirror.2)
         end.
Proof.
  intros resolved primary mirror. subst mirror primary resolved.
  unfold modifyRoute, routeTable, bind, toleratedPrimary.
  destruct (match tableType with
            | INTERFACE => getRouteTableForInterface offset interface
            | LEGACY => ret (u32 (ROUTE_TABLE_LEGACY offset))
            | PRIVILEGED_LEGACY => ret (u32 (ROUTE_TABLE_PRIVILEGED_LEGACY offset))
            end w) as [table w0].
  cbn [fst snd]. destruct (decide (table = 0)); [reflexivity|].
  destruct (modifyIpRoute parsePrefix inet_pton action table (Some interface)
              destination nexthop w0) as [r w1].
  cbn [fst snd]. destruct (decide _); [reflexivity|].
  destruct nexthop; [reflexivity|].
  destruct (modifyIpRoute parsePrefix inet_pton action RT_TABLE_MAIN
              (Some interface) destination None w1) as [r2 w2].
  cbn [fst snd]. destruct (decide _); reflexivity.
Qed.

Lemma routeChecksPass_env parsePrefix inet_pton w w' interface destination nexthop :
  if_nametoindex w' = if_nametoindex w →
  routeChecksPass parsePrefix inet_pton w interface destination nexthop →
  routeChecksPass parsePrefix inet_pton w' interface destination nexthop.
Proof. intros H. unfold routeChecksPass. rewrite H. tauto. Qed.

(** Adding a route to one of the two reserved tables returns 0 whenever
    the kernel answers the requests with 0 or "already exists". *)
Lemma addRoute_reserved_table offset parsePrefix inet_pton interface destination
    nexthop tableType uid w :
  tableType ≠ INTERFACE →
  (routeTable offset tableType interface w).1 ≠ 0 →
  routeChecksPass parsePrefix inet_pton w interface destination nexthop →
  (∀ tr msg, netlinkResult (netlink w tr msg) = 0 ∨
             netlinkResult (netlink w tr msg) = - EEXIST) →
  let result :=
    addRoute offset parsePrefix inet_pton interface (Some destination) nexthop
      tableType uid w in
  result.1 = 0 ∧ if_nametoindex result.2 = if_nametoindex w ∧
  netlink result.2 = netlink w.
Proof.
  intros Htype Htable Hchecks Hkernel result. subst result. unfold addRoute.
  rewrite modifyRoute_unfold.
  assert (Hres : (routeTable offset tableType interface w).2 = w)
    by (destruct tableType; [contradiction|reflexivity|reflexivity]).
  rewrite Hres.
  destruct (decide ((routeTable offset tableType interface w).1 = 0)); [contradiction|].
  rewrite (modifyIpRoute_ready _ _ _ _ _ _ _ w) by exact Hchecks.
  rewrite send_eq. cbn [fst snd].
  set (r1 := netlinkResult _).
  assert (H1 : r1 = 0 ∨ r1 = - EEXIST) by apply Hkernel.
  destruct (decide (r1 ≠ 0 ∧ ¬ toleratedPrimary RTM_NEWROUTE tableType r1))
    as [[Hn Hnt]|_].
  { exfalso. destruct H1 as [H1|H1]; [contradiction|]. apply Hnt.
    split; [reflexivity|]. split; [exact H1|].
    destruct tableType; [contradiction|left|right]; reflexivity. }
  destruct nexthop as [address|].
  { cbn. auto. }
  rewrite modifyIpRoute_ready
    by (eapply routeChecksPass_env; [|exact Hchecks]; reflexivity).
  rewrite send_eq. cbn [fst snd].
  set (r2 := netlinkResult _).
  assert (H2 : r2 = 0 ∨ r2 = - EEXIST) by apply Hkernel.
  destruct (decide (r2 ≠ 0 ∧ ¬ (RTM_NEWROUTE = RTM_NEWROUTE ∧ r2 = - EEXIST)))
    as [[Hn Hnt]|_].
  { exfalso. destruct H2 as [H2|H2]; [contradiction|]. apply Hnt. auto. }
  cbn. auto.
Qed.

(** C4: once a table is found, a failure of the first install is passed on
    as it is, unless it is "already exists" for an add into the legacy or
    the privileged legacy table.  In particular "already exists" is passed
    on for the table of an interface and for every removal.  A tolerated
    failure counts as success: with a nexthop the call returns 0, without
    one it goes on to the install into the main table, where "already
    exists" is let pass for an add and everything else is returned.  So
    the same add into a reserved table, made twice
    against a kernel that answers 0 or "already exists", returns 0 both
    times. *)
Theorem modifyRoute_tolerates_EEXIST_on_reserved_tables offset parsePrefix
    inet_pton interface destination nexthop action tableType uid w :
  let resolved := routeTable offset tableType interface w in
  let primary :=
    modifyIpRoute parsePrefix inet_pton action resolved.1 (Some interface)
      destination nexthop resolved.2 in
  let mirror :=
    modifyIpRoute parsePrefix inet_pton action RT_TABLE_MAIN (Some interface)
      destination None primary.2 in
  let result :=
    modifyRoute offset parsePrefix inet_pton interface destination nexthop
      action tableType uid w in
  resolved.1 ≠ 0 →
  (primary.1 ≠ 0 → ¬ toleratedPrimary action tableType primary.1 →
     result = primary) ∧
  (primary.1 = - EEXIST → tableType = INTERFACE ∨ action ≠ RTM_NEWROUTE →
     result = primary) ∧
  (primary.1 = 0 ∨ toleratedPrimary action tableType primary.1 →
     match nexthop with
     | Some _ => result = (0, primary.2)
     | None =>
         result = (if decide (mirror.1 = 0 ∨
                              (action = RTM_NEWROUTE ∧ mirror.1 = - EEXIST))
                   then 0 else mirror.1, mirror.2)
     end) ∧
  (∀ dst,
     destination = Some dst → action = RTM_NEWROUTE → tableType ≠ INTERFACE →
     routeChecksPass parsePrefix inet_pton w interface dst nexthop →
     (∀ tr msg, netlinkResult (netlink w tr msg) = 0 ∨
                netlinkResult (netlink w tr msg) = - EEXIST) →
     result.1 = 0 ∧
     (addRoute offset parsePrefix inet_pton interface destination nexthop
        tableType uid result.2).1 = 0).
Proof.
  intros resolved primary mirror result Htable.
  assert (Hres : result =
    if decide (primary.1 ≠ 0 ∧ ¬ toleratedPrimary action tableType primary.1)
    then primary
    else match nexthop with
         | Some _ => (0, primary.2)
         | None =>
             if decide (mirror.1 ≠ 0 ∧ ¬ (action = RTM_NEWROUTE ∧ mirror.1 = - EEXIST))
             then mirror else (0, mirror.2)
         end).
  { subst result. rewrite modifyRoute_unfold. fold resolved. fold primary. fold mirror.
    destruct (decide (resolved.1 = 0)); [contradiction|reflexivity]. }
  assert (Hpass : primary.1 ≠ 0 → ¬ toleratedPrimary action tableType primary.1 →
                  result = primary).
  { intros Hn Hnt. rewrite Hres.
    destruct (decide (primary.1 ≠ 0 ∧ ¬ toleratedPrimary action tableType primary.1))
      as [_|Hd]; [reflexivity|]. exfalso. apply Hd. split; assumption. }
  split; [exact Hpass|]. split; [|split].
  - intros He Hcase. apply Hpass.
    + rewrite He. discriminate.
    + intros (Ha & _ & Ht). destruct Hcase as [Hi|Hi].
      * rewrite Hi in Ht. destruct Ht; discriminate.
      * contradiction.
  - intros Hok. rewrite Hres.
    destruct (decide (primary.1 ≠ 0 ∧ ¬ toleratedPrimary action tableType primary.1))
      as [[Hn Hnt]|_]; [destruct Hok; contradiction|].
    destruct nexthop; [reflexivity|].
    destruct (decide (mirror.1 ≠ 0 ∧ ¬ (action = RTM_NEWROUTE ∧ mirror.1 = - EEXIST)))
      as [[Hn Hne]|Hd].
    + destruct (decide (mirror.1 = 0 ∨ (action = RTM_NEWROUTE ∧ mirror.1 = - EEXIST)))
        as [[H0|H0]|_]; [contradiction|contradiction|apply surjective_pairing].
    + destruct (decide (mirror.1 = 0 ∨ (action = RTM_NEWROUTE ∧ mirror.1 = - EEXIST)))
        as [_|Hnd]; [reflexivity|].
      exfalso. apply Hd. split.
      * intros H0. apply Hnd. left. exact H0.
      * intros H0. apply Hnd. right. exact H0.
  - intros dst -> -> Htype Hchecks Hkernel.
    destruct (addRoute_reserved_table offset parsePrefix inet_pton interface dst
                nexthop tableType uid w Htype Htable Hchecks Hkernel)
      as (H1 & Hif & Hnl).
    fold (addRoute offset parsePrefix inet_pton interface (Some dst) nexthop
            tableType uid w) in result.
    split; [exact H1|].
    apply (addRoute_reserved_table offset parsePrefix inet_pton interface dst
             nexthop tableType uid result.2 Htype).
    + destruct tableType; [contradiction|exact Htable|exact Htable].
    + eapply routeChecksPass_env; [exact Hif|exact Hchecks].
    + subst result. rewrite Hnl. exact Hkernel.
Qed.

Lemma remembering_kernel_answers tr msg :
  netlinkResult (remembering_kernel tr msg) = 0 ∨
  netlinkResult (remembering_kernel tr msg) = - EEXIST.
Proof.
  unfold remembering_kernel.
  destruct (decide (EvNetlink msg 0 ∈ tr)); [right|left]; reflexivity.
Qed.

Lemma modifyRoute_tolerates_EEXIST_on_reserved_tables_witness :
  let w := set_netlink remembering_kernel sample_world in
  let first :=
    addRoute 1000 sample_parsePrefix sample_inet_pton "wlan0"
      (Some "192.0.2.0/24"%string) None LEGACY 0 w in
  let second :=
    addRoute 1000 sample_parsePrefix sample_inet_pton "wlan0"
      (Some "192.0.2.0/24"%string) None LEGACY 0 first.2 in
  (routeTable 1000 LEGACY "wlan0" w).1 ≠ 0 ∧
  first.1 = 0 ∧ second.1 = 0 ∧
  (λ e, match e with EvNetlink _ r => r | _ => 0 end) <$> trace second.2
  = [0; 0; - EEXIST; - EEXIST].
Proof.
  intros w first second.
  assert (Htable : (routeTable 1000 LEGACY "wlan0" w).1 ≠ 0)
    by (vm_compute; discriminate).
  assert (Hchecks : routeChecksPass sample_parsePrefix sample_inet_pton w
                      "wlan0" "192.0.2.0/24" None).
  { split; [vm_compute; split; discriminate|].
    split; [vm_compute; discriminate|exact I]. }
  split; [exact Htable|].
  destruct (modifyRoute_tolerates_EEXIST_on_reserved_tables 1000
              sample_parsePrefix sample_inet_pton "wlan0"
              (Some "192.0.2.0/24"%string) None RTM_NEWROUTE LEGACY 0 w Htable)
    as (_ & _ & _ & Htwice).
  destruct (Htwice "192.0.2.0/24"%string eq_refl eq_refl) as [H1 H2].
  - discriminate.
  - exact Hchecks.
  - exact remembering_kernel_answers.
  - split; [exact H1|]. split; [exact H2|]. vm_compute. reflexivity.
Defined.

Lemma routeTable_env offset tableType interface w :
  let r := routeTable offset tableType interface w in
  if_nametoindex r.2 = if_nametoindex w ∧ netlink r.2 = netlink w ∧
  trace r.2 = trace w.
Proof.
  destruct tableType; cbn; auto. unfold getRouteTableForInterface.
  destruct (decide (u32 (if_nametoindex w interface) ≠ 0));
    [|destruct (interfaceToIndex w !! interface)]; cbn; auto.
Qed.

Lemma routeRequest_env parsePrefix inet_pton w w' action table interface
    destination nexthop :
  if_nametoindex w' = if_nametoindex w →
  routeRequest parsePrefix inet_pton w' action table interface destination nexthop
  = routeRequest parsePrefix inet_pton w action table interface destination nexthop.
Proof. intros H. unfold routeRequest. rewrite H. reflexivity. Qed.

(** C5: an add without nexthop whose install into the target table went
    through (or failed in the tolerated way) installs the same route into
    the main table next.  Read off the wire, the first datagram is a new
    static unicast route for the destination through the interface with
    the target table in its table attribute, and the second is the same
    route with table 254, the main table.  "Already exists" from that
    second install gives 0; any other failure is returned.  An install
    that failed otherwise ends the call with nothing more sent.  With a
    nexthop at most one request is sent, the one for the target table,
    with the gateway in it. *)
Theorem addRoute_mirrors_directly_connected offset parsePrefix inet_pton
    interface destination tableType uid w :
  let resolved := routeTable offset tableType interface w in
  let table := resolved.1 in
  let q1 := routeRequest parsePrefix inet_pton w RTM_NEWROUTE table interface
              destination None in
  let q2 := routeRequest parsePrefix inet_pton w RTM_NEWROUTE RT_TABLE_MAIN
              interface destination None in
  let r1 := (send q1 resolved.2).1 in
  let r2 := (send q2 (send q1 resolved.2).2).1 in
  let direct :=
    addRoute offset parsePrefix inet_pton interface (Some destination) None
      tableType uid w in
  let create :=
    Z.lor (Z.lor (Z.lor NLM_F_REQUEST NLM_F_ACK) NLM_F_CREATE) NLM_F_EXCL in
  let p := parsePrefix destination in
  let ifindex := u32 (if_nametoindex w interface) in
  table ≠ 0 →
  routeChecksPass parsePrefix inet_pton w interface destination None →
  readRoute (wire q1)
  = Some (routeMessage RTM_NEWROUTE create p table (Some ifindex) None) ∧
  readRoute (wire q2)
  = Some (routeMessage RTM_NEWROUTE create p 254 (Some ifindex) None) ∧
  req_iov q2 = <[3%nat := Iovec (PU32 RT_TABLE_MAIN) sizeof_uint32]> (req_iov q1) ∧
  (r1 = 0 ∨ toleratedPrimary RTM_NEWROUTE tableType r1 →
     trace direct.2 = trace w ++ [sent q1 r1; sent q2 r2] ∧
     direct.1 = if decide (r2 = 0 ∨ r2 = - EEXIST) then 0 else r2) ∧
  (r1 ≠ 0 → ¬ toleratedPrimary RTM_NEWROUTE tableType r1 →
     trace direct.2 = trace w ++ [sent q1 r1] ∧ direct.1 = r1) ∧
  (∀ address,
     let via :=
       addRoute offset parsePrefix inet_pton interface (Some destination)
         (Some address) tableType uid w in
     let q := routeRequest parsePrefix inet_pton w RTM_NEWROUTE table interface
                destination (Some address) in
     (trace via.2 = trace w ∨ ∃ r, trace via.2 = trace w ++ [sent q r]) ∧
     readRoute (wire q)
     = Some (routeMessage RTM_NEWROUTE create p table (Some ifindex)
               (Some (inet_pton (family p) address).2))).
Proof.
  intros resolved table q1 q2 r1 r2 direct create p ifindex Htable Hchecks.
  split; [exact (readRoute_routeRequest parsePrefix inet_pton w RTM_NEWROUTE
                   table interface destination None (proj1 Hchecks))|].
  split; [exact (readRoute_routeRequest parsePrefix inet_pton w RTM_NEWROUTE
                   RT_TABLE_MAIN interface destination None (proj1 Hchecks))|].
  destruct (routeTable_env offset tableType interface w) as (Hif & Hnl & Htr).
  fold resolved in Hif, Hnl, Htr.
  assert (Hchecks0 : routeChecksPass parsePrefix inet_pton resolved.2 interface
                       destination None)
    by (eapply routeChecksPass_env; [exact Hif|exact Hchecks]).
  split; [reflexivity|].
  assert (Hprimary :
    modifyIpRoute parsePrefix inet_pton RTM_NEWROUTE table (Some interface)
      (Some destination) None resolved.2 = send q1 resolved.2).
  { rewrite modifyIpRoute_ready by exact Hchecks0.
    rewrite (routeRequest_env _ _ w) by exact Hif. reflexivity. }
  assert (Hmirror :
    modifyIpRoute parsePrefix inet_pton RTM_NEWROUTE RT_TABLE_MAIN (Some interface)
      (Some destination) None (send q1 resolved.2).2 = send q2 (send q1 resolved.2).2).
  { rewrite modifyIpRoute_ready
      by (eapply routeChecksPass_env; [|exact Hchecks0]; reflexivity).
    rewrite (routeRequest_env _ _ w) by exact Hif. reflexivity. }
  assert (Hdirect : direct =
    if decide (r1 ≠ 0 ∧ ¬ toleratedPrimary RTM_NEWROUTE tableType r1)
    then send q1 resolved.2
    else if decide (r2 ≠ 0 ∧ ¬ (RTM_NEWROUTE = RTM_NEWROUTE ∧ r2 = - EEXIST))
         then send q2 (send q1 resolved.2).2
         else (0, (send q2 (send q1 resolved.2).2).2)).
  { subst direct. unfold addRoute. rewrite modifyRoute_unfold.
    fold resolved. fold table.
    destruct (decide (table = 0)); [contradiction|].
    rewrite Hprimary, Hmirror. reflexivity. }
  assert (Ht1 : trace (send q1 resolved.2).2 = trace w ++ [sent q1 r1]).
  { subst r1. rewrite send_eq. cbn. rewrite Htr. reflexivity. }
  assert (Ht2 : trace (send q2 (send q1 resolved.2).2).2
                = trace w ++ [sent q1 r1; sent q2 r2]).
  { subst r2. rewrite (send_eq q2). cbn [snd fst record trace]. rewrite Ht1.
    rewrite <- app_assoc. reflexivity. }
  split; [|split].
  - intros Hok. rewrite Hdirect.
    destruct (decide (r1 ≠ 0 ∧ ¬ toleratedPrimary RTM_NEWROUTE tableType r1))
      as [[Hn Hnt]|_]; [destruct Hok; contradiction|].
    destruct (decide (r2 ≠ 0 ∧ ¬ (RTM_NEWROUTE = RTM_NEWROUTE ∧ r2 = - EEXIST)))
      as [[Hn Hne]|Hd]; cbn [fst snd]; (split; [exact Ht2|]).
    + destruct (decide (r2 = 0 ∨ r2 = - EEXIST)) as [[H0|H0]|_];
        [contradiction|exfalso; apply Hne; auto|reflexivity].
    + destruct (decide (r2 = 0 ∨ r2 = - EEXIST)) as [_|Hnd]; [reflexivity|].
      exfalso. apply Hd. split.
      * intros H0. apply Hnd. left. exact H0.
      * intros [_ H0]. apply Hnd. right. exact H0.
  - intros Hn Hnt. rewrite Hdirect.
    destruct (decide (r1 ≠ 0 ∧ ¬ toleratedPrimary RTM_NEWROUTE tableType r1))
      as [_|Hd]; [|exfalso; apply Hd; split; assumption].
    split; [exact Ht1|reflexivity].
  - intros address via q.
    split;
      [|exact (readRoute_routeRequest parsePrefix inet_pton w RTM_NEWROUTE
                 table interface destination (Some address) (proj1 Hchecks))].
    subst via. unfold addRoute. rewrite modifyRoute_unfold.
    fold resolved. fold table.
    destruct (decide (table = 0)); [contradiction|].
    destruct (modifyIpRoute_trace parsePrefix inet_pton RTM_NEWROUTE table
                interface destination (Some address) resolved.2)
      as (_ & _ & _ & Hstep).
    set (primary := modifyIpRoute parsePrefix inet_pton RTM_NEWROUTE table
                      (Some interface) (Some destination) (Some address) resolved.2)
      in *.
    assert (Hsame : ∀ x : Z * World, x.2 = primary.2 →
              trace x.2 = trace w ∨ ∃ r, trace x.2 = trace w ++ [sent q r]).
    { intros x ->. destruct Hstep as [[-> _]| ->].
      - left. exact Htr.
      - right. exists primary.1. cbn. rewrite Htr.
        rewrite (routeRequest_env _ _ w) by exact Hif. reflexivity. }
    destruct (decide (primary.1 ≠ 0 ∧
                      ¬ toleratedPrimary RTM_NEWROUTE tableType primary.1));
      apply Hsame; reflexivity.
Qed.

Lemma addRoute_mirrors_directly_connected_witness :
  let direct :=
    addRoute 1000 sample_parsePrefix sample_inet_pton "wlan0"
      (Some "10.0.0.0/24"%string) None INTERFACE 0 sample_world in
  (routeTable 1000 INTERFACE "wlan0" sample_world).1 ≠ 0 ∧
  routeChecksPass sample_parsePrefix sample_inet_pton sample_world
    "wlan0" "10.0.0.0/24" None ∧
  direct.1 = 0 ∧
  trace direct.2
  = [ sent (routeRequest sample_parsePrefix sample_inet_pton sample_world
              RTM_NEWROUTE 1005 "wlan0" "10.0.0.0/24" None) 0;
      sent (routeRequest sample_parsePrefix sample_inet_pton sample_world
              RTM_NEWROUTE RT_TABLE_MAIN "wlan0" "10.0.0.0/24" None) 0 ] ∧
  (fun e => if e is EvNetlink msg _ then readRoute msg else None) <$> trace direct.2
  = [ Some {| route_type := 24; route_flags := 1541; route_family := 2;
              route_dst_len := 24; route_protocol := 4; route_kind := 1;
              route_attrs := [(15, Word 1005); (1, Bytes [10; 0; 0; 0]);
                              (4, Word 5)] |};
      Some {| route_type := 24; route_flags := 1541; route_family := 2;
              route_dst_len := 24; route_protocol := 4; route_kind := 1;
              route_attrs := [(15, Word 254); (1, Bytes [10; 0; 0; 0]);
                              (4, Word 5)] |} ].
Proof.
  intros direct.
  assert (Htable : (routeTable 1000 INTERFACE "wlan0" sample_world).1 ≠ 0)
    by (vm_compute; discriminate).
  assert (Hchecks : routeChecksPass sample_parsePrefix sample_inet_pton
                      sample_world "wlan0" "10.0.0.0/24" None).
  { split; [vm_compute; split; discriminate|].
    split; [vm_compute; discriminate|exact I]. }
  split; [exact Htable|]. split; [exact Hchecks|].
  destruct (addRoute_mirrors_directly_connected 1000 sample_parsePrefix
              sample_inet_pton "wlan0" "10.0.0.0/24" INTERFACE 0 sample_world
              Htable Hchecks) as (Hq1 & Hq2 & _ & Hmirror & _ & _).
  destruct Hmirror as [Htr Hres]; [left; reflexivity|].
  subst direct. split; [rewrite Hres; reflexivity|].
  split; [rewrite Htr; reflexivity|].
  rewrite Htr.
  change (routeTable 1000 INTERFACE "wlan0" sample_world).1 with 1005 in Hq1.
  transitivity
    [readRoute (wire (routeRequest sample_parsePrefix sample_inet_pton
                        sample_world RTM_NEWROUTE 1005 "wlan0"
                        "10.0.0.0/24" None));
     readRoute (wire (routeRequest sample_parsePrefix sample_inet_pton
                        sample_world RTM_NEWROUTE RT_TABLE_MAIN "wlan0"
                        "10.0.0.0/24" None))]; [reflexivity|].
  rewrite Hq1, Hq2. reflexivity.
Defined.

(** ** Permission change *)

Lemma sendAll_env script : ∀ w,
  if_nametoindex (sendAll script w).2 = if_nametoindex w.
Proof.
  induction script as [|q script IH]; intros w; [reflexivity|].
  cbn [sendAll]. unfold orReturn. rewrite send_eq.
  destruct (decide _); [rewrite IH|]; reflexivity.
Qed.

Lemma set_interfaceToIndex_same w :
  set_interfaceToIndex (interfaceToIndex w) w = w.
Proof. destruct w; reflexivity. Qed.

(** A second lookup of the same name in the same system finds the same
    table and leaves the registry as it is. *)
Lemma getRouteTableForInterface_again offset name w w' :
  if_nametoindex w' = if_nametoindex w →
  interfaceToIndex w' = interfaceToIndex (getRouteTableForInterface offset name w).2 →
  getRouteTableForInterface offset name w'
  = ((getRouteTableForInterface offset name w).1, w').
Proof.
  intros Hif. destruct (decide (u32 (if_nametoindex w name) ≠ 0)) as [Hn|H0].
  - rewrite (getRouteTableForInterface_resolved offset name w) by exact Hn.
    cbn [fst snd]. intros Hcache.
    rewrite getRouteTableForInterface_resolved by (rewrite Hif; exact Hn).
    rewrite Hif. f_equal.
    replace (<[name := u32 (if_nametoindex w name)]> (interfaceToIndex w'))
      with (interfaceToIndex w'); [apply set_interfaceToIndex_same|].
    rewrite Hcache. cbn. rewrite insert_insert_eq. reflexivity.
  - assert (E : u32 (if_nametoindex w name) = 0)
      by (destruct (decide (u32 (if_nametoindex w name) = 0)); [assumption|contradiction]).
    rewrite (getRouteTableForInterface_unresolved offset name w) by exact E.
    cbn [fst snd]. intros Hcache.
    rewrite getRouteTableForInterface_unresolved by (rewrite Hif; exact E).
    rewrite Hcache. reflexivity.
Qed.

Lemma modifyPerNetworkRules_sendAll offset mask intValue netId interface
    permission add w :
  layoutSound intValue →
  Z.land netId (Z.lnot mask) = 0 →
  interfaceLengthOf (Some interface) ≤ IFNAMSIZ →
  let resolved := getRouteTableForInterface offset interface w in
  modifyPerNetworkRules offset mask intValue netId interface permission add false w
  = if decide (resolved.1 = 0) then (- ESRCH, resolved.2)
    else sendAll (perNetworkRequests mask intValue
                    (if add then RTM_NEWRULE else RTM_DELRULE)
                    resolved.1 netId interface permission) resolved.2.
Proof.
  intros Hsound Hnet Hlen resolved. subst resolved.
  unfold modifyPerNetworkRules, bind.
  destruct (getRouteTableForInterface offset interface w) as [table w0].
  cbn [fst snd]. destruct (decide (table = 0)); [reflexivity|].
  unfold perNetworkRequests.
  apply orReturn_sendAll; [|intros w1; apply orReturn_sendAll;
    [|intros w2; rewrite <- (app_nil_r (ruleRequests _ _ _ _ _ _ _ _));
      apply orReturn_sendAll; [|reflexivity]]];
  intros w'; apply modifyIpRule_valid;
  (split; [apply Hsound|split; [first [exact Hlen|cbn; unfold IFNAMSIZ; lia]|tauto]]);
  (split; [|split; [|split]]); cbn; try tauto; try exact Hnet;
  apply Z.land_lnot_diag.
Qed.

(** C6, as the code has it: once the table of the interface is found, the
    six requests that add the rules of the new permission are sent first.
    If one of them fails, its result is returned and no request to remove
    a rule is ever sent.  If all six are acknowledged, the requests that
    remove the rules of the old permission follow, in order, until one
    fails; its result is returned and nothing is sent after it.  Whatever
    becomes of the removal, the kernel then holds every one of the new
    rules, provided none of the old rules is the same rule as one of the
    new ones. *)
Theorem modifyNetworkPermission_adds_before_removing offset mask intValue
    netId interface oldPermission newPermission w :
  layoutSound intValue →
  Z.land netId (Z.lnot mask) = 0 →
  interfaceLengthOf (Some interface) ≤ IFNAMSIZ →
  let resolved := getRouteTableForInterface offset interface w in
  let table := resolved.1 in
  let adds := perNetworkRequests mask intValue RTM_NEWRULE table netId interface
                newPermission in
  let dels := perNetworkRequests mask intValue RTM_DELRULE table netId interface
                oldPermission in
  let added := sendAll adds resolved.2 in
  let removed := sendAll dels added.2 in
  let result :=
    modifyNetworkPermission offset mask intValue netId interface oldPermission
      newPermission w in
  table ≠ 0 →
  Forall (fun q => req_action q = RTM_NEWRULE) adds ∧
  Forall (fun q => req_action q = RTM_DELRULE) dels ∧
  (added.1 ≠ 0 →
     result = added ∧
     ∃ n, (n < 6)%nat ∧
       trace result.2 = trace w ++ zip_with sent adds (replicate n 0 ++ [result.1])) ∧
  (added.1 = 0 →
     result = removed ∧
     ∃ acks,
       trace result.2
       = trace w ++ zip_with sent adds (replicate 6 0) ++ zip_with sent dels acks ∧
       ((result.1 = 0 ∧ acks = replicate 6 0) ∨
        (result.1 ≠ 0 ∧ ∃ n, (n < 6)%nat ∧ acks = replicate n 0 ++ [result.1]))) ∧
  (added.1 = 0 →
     Forall (fun qa => Forall (fun qd => body (req_iov qd) ≠ body (req_iov qa)) dels)
            adds →
     Forall (fun qa => body (req_iov qa) ∈ installedRules (trace result.2)) adds).
Proof.
  intros Hsound Hnet Hlen resolved table adds dels added removed result Htable.
  split; [repeat constructor|]. split; [repeat constructor|].
  assert (Hresult : result = if decide (added.1 = 0) then removed else added).
  { subst result. unfold modifyNetworkPermission. rewrite orReturn_eq.
    rewrite modifyPerNetworkRules_sendAll by assumption.
    fold resolved. fold table.
    destruct (decide (table = 0)); [contradiction|].
    fold adds. fold added.
    destruct (decide (added.1 = 0)); [|reflexivity].
    rewrite modifyPerNetworkRules_sendAll by assumption.
    destruct (sendAll_trace adds resolved.2) as (acks & _ & Hcache & _).
    fold added in Hcache.
    rewrite (getRouteTableForInterface_again offset interface w added.2).
    - cbn [fst snd]. fold resolved. fold table.
      destruct (decide (table = 0)); [contradiction|reflexivity].
    - subst added. rewrite sendAll_env. subst resolved.
      unfold getRouteTableForInterface.
      destruct (decide (u32 (if_nametoindex w interface) ≠ 0));
        [|destruct (interfaceToIndex w !! interface)]; reflexivity.
    - exact Hcache. }
  assert (Htr0 : trace resolved.2 = trace w).
  { subst resolved. unfold getRouteTableForInterface.
    destruct (decide (u32 (if_nametoindex w interface) ≠ 0));
      [|destruct (interfaceToIndex w !! interface)]; reflexivity. }
  destruct (sendAll_trace adds resolved.2) as (acksA & HtrA & _ & HresA).
  fold added in HtrA, HresA. rewrite Htr0 in HtrA.
  assert (Hremoved : added.1 = 0 →
    result = removed ∧
    ∃ acks,
      trace result.2
      = trace w ++ zip_with sent adds (replicate 6 0) ++ zip_with sent dels acks ∧
      ((result.1 = 0 ∧ acks = replicate 6 0) ∨
       (result.1 ≠ 0 ∧ ∃ n, (n < 6)%nat ∧ acks = replicate n 0 ++ [result.1]))).
  { intros H0. rewrite Hresult.
    destruct (decide (added.1 = 0)); [|contradiction]. split; [reflexivity|].
    destruct HresA as [[_ ->]|[Hn _]]; [|contradiction].
    destruct (sendAll_trace dels added.2) as (acksD & HtrD & _ & HresD).
    fold removed in HtrD, HresD. rewrite HtrA in HtrD.
    exists acksD. split; [rewrite HtrD, <- app_assoc; reflexivity|exact HresD]. }
  split; [|split; [exact Hremoved|]].
  - intros Hn. rewrite Hresult.
    destruct (decide (added.1 = 0)); [contradiction|]. split; [reflexivity|].
    destruct HresA as [[H0 _]|[_ (k & Hlt & ->)]]; [contradiction|].
    exists k. split; [exact Hlt|exact HtrA].
  - intros H0 Hdistinct.
    destruct (Hremoved H0) as (_ & acks & Htr & _).
    apply Forall_forall. intros qa Hqa.
    unfold installedRules. rewrite Htr, !foldl_app.
    apply installed_after_others.
    + exact (proj1 (Forall_forall _ _) Hdistinct qa Hqa).
    + change 6%nat with (length adds).
      apply installed_after_adds; [repeat constructor|exact Hqa].
Qed.

Lemma modifyNetworkPermission_adds_before_removing_witness :
  let w := set_netlink keeping_kernel sample_world in
  let adds := perNetworkRequests 65535 sample_intValue RTM_NEWRULE 1005 5 "wlan0" 1 in
  let dels := perNetworkRequests 65535 sample_intValue RTM_DELRULE 1005 5 "wlan0" 0 in
  let result := modifyNetworkPermission 1000 65535 sample_intValue 5 "wlan0" 0 1 w in
  layoutSound sample_intValue ∧
  Z.land 5 (Z.lnot 65535) = 0 ∧
  interfaceLengthOf (Some "wlan0"%string) ≤ IFNAMSIZ ∧
  (getRouteTableForInterface 1000 "wlan0" w).1 ≠ 0 ∧
  Forall (fun qa => Forall (fun qd => body (req_iov qd) ≠ body (req_iov qa)) dels) adds ∧
  result.1 = - EINVAL ∧
  trace result.2
  = zip_with sent adds (replicate 6 0) ++ zip_with sent dels [- EINVAL] ∧
  Forall (fun qa => body (req_iov qa) ∈ installedRules (trace result.2)) adds.
Proof.
  intros w adds dels result.
  assert (Hnet : Z.land 5 (Z.lnot 65535) = 0) by reflexivity.
  assert (Hlen : interfaceLengthOf (Some "wlan0"%string) ≤ IFNAMSIZ)
    by (vm_compute; discriminate).
  assert (Htable : (getRouteTableForInterface 1000 "wlan0" w).1 ≠ 0)
    by (vm_compute; discriminate).
  assert (Hdistinct :
    Forall (fun qa => Forall (fun qd => body (req_iov qd) ≠ body (req_iov qa)) dels) adds).
  { subst adds dels. unfold perNetworkRequests, ruleRequests. cbn [app].
    each_of_list ltac:(each_of_list ltac:(vm_compute; discriminate)). }
  do 5 (split; [first [exact sample_intValue_sound|assumption]|]).
  destruct (modifyNetworkPermission_adds_before_removing 1000 65535
              sample_intValue 5 "wlan0" 0 1 w sample_intValue_sound Hnet Hlen Htable)
    as (_ & _ & _ & Hadded & Hheld).
  destruct Hadded as [Hres _]; [vm_compute; reflexivity|].
  split; [|split].
  - subst result. rewrite Hres. vm_compute. reflexivity.
  - subst result. rewrite Hres. vm_compute. reflexivity.
  - apply Hheld; [vm_compute; reflexivity|exact Hdistinct].
Defined.

(** C6, as stated, fails when an old rule is also a new one, as with the
    old permission equal to the new one: the six additions are
    acknowledged, the first removal is acknowledged and the second is
    refused.  The call returns the error of the removal, and the rule the
    first removal took away is the first of the rules just added: the
    newly added rules do not all remain installed. *)
Lemma modifyNetworkPermission_same_permission_counterexample :
  let w := set_netlink (refusing_at 7) sample_world in
  let adds := perNetworkRequests 65535 sample_intValue RTM_NEWRULE 1005 5 "wlan0" 1 in
  let dels := perNetworkRequests 65535 sample_intValue RTM_DELRULE 1005 5 "wlan0" 1 in
  let result := modifyNetworkPermission 1000 65535 sample_intValue 5 "wlan0" 1 1 w in
  result.1 = - EINVAL ∧
  trace result.2
  = zip_with sent adds (replicate 6 0) ++ zip_with sent dels [0; - EINVAL] ∧
  ¬ Forall (fun qa => body (req_iov qa) ∈ installedRules (trace result.2)) adds.
Proof.
  intros w adds dels result.
  split; [vm_compute; reflexivity|]. split; [vm_compute; reflexivity|].
  intros Hall. apply Forall_inv in Hall. revert Hall.
  apply (bool_decide_unpack (_ ∉ _)). vm_compute. exact I.
Qed.


(** * Further properties *)

(** ** Checks of the rule encoder *)

(** X1: [modifyIpRule] calls [sendNetlinkRequest] exactly when the input
    passes its three checks, and the first call is then the one for the
    IPv4 message; what becomes of that exchange is up to its system calls.
    Otherwise the world is returned as it was, with the error of the
    first check that fails: the mark, then the length of the interface
    name, then the pair of UIDs. *)
Theorem modifyIpRule_exchanges_iff_valid
    action priority table fwmark mask interface uidStart uidEnd w :
  let result :=
    modifyIpRule action priority table fwmark mask interface uidStart uidEnd w in
  let first :=
    ruleRequest action AF_INET priority table fwmark mask interface uidStart uidEnd in
  (validRule fwmark mask interface uidStart uidEnd →
     ∃ rest, trace result.2 = trace w ++ sent first (send first w).1 :: rest) ∧
  (¬ validRule fwmark mask interface uidStart uidEnd →
     result.2 = w ∧
     result.1 = if decide (Z.land fwmark (not32 mask) ≠ 0) then - ERANGE
                else if decide (interfaceLengthOf interface > IFNAMSIZ)
                     then - ENAMETOOLONG else - EUSERS).
Proof.
  intros result first. split.
  - intros Hvalid. subst result. rewrite modifyIpRule_valid by exact Hvalid.
    unfold ruleRequests. cbn [sendAll]. fold first. rewrite orReturn_eq.
    assert (Ht : trace (send first w).2 = trace w ++ [sent first (send first w).1])
      by reflexivity.
    destruct (decide ((send first w).1 = 0)) as [H0|Hn].
    + set (second := ruleRequest action AF_INET6 priority table fwmark mask
                       interface uidStart uidEnd).
      destruct (sendAll_trace [second] (send first w).2) as (acks & Htr & _).
      cbn [sendAll] in Htr. rewrite Htr, Ht, <- app_assoc.
      eexists. reflexivity.
    + exists []. exact Ht.
  - intros Hinvalid. subst result. unfold modifyIpRule.
    destruct (decide (Z.land fwmark (not32 mask) ≠ 0)) as [|Hmark];
      [split; reflexivity|].
    destruct (decide (interfaceLengthOf interface > IFNAMSIZ)) as [|Hlen];
      [split; reflexivity|].
    destruct (decide (bool_decide (uidStart = INVALID_UID)
                      ≠ bool_decide (uidEnd = INVALID_UID))) as [|Huid];
      [split; reflexivity|].
    exfalso. apply Hinvalid. split; [|split].
    + destruct (decide (Z.land fwmark (not32 mask) = 0)); [assumption|contradiction].
    + lia.
    + revert Huid. do 2 case_bool_decide; intros Huid; try tauto;
        exfalso; apply Huid; discriminate.
Qed.

Lemma modifyIpRule_exchanges_iff_valid_witness :
  let name := Some "a_name_longer_than_the_kernel_allows"%string in
  let refused := set_netlink (fun _ _ => acked (- EEXIST)) sample_world in
  ¬ validRule 0 0 name INVALID_UID INVALID_UID ∧
  modifyIpRule RTM_NEWRULE 14000 1005 0 0 name INVALID_UID INVALID_UID sample_world
  = (- ENAMETOOLONG, sample_world) ∧
  validRule 0 0 (Some "wlan0"%string) INVALID_UID INVALID_UID ∧
  trace (modifyIpRule RTM_NEWRULE 14000 1005 0 0 (Some "wlan0"%string)
           INVALID_UID INVALID_UID refused).2
  = [sent (ruleRequest RTM_NEWRULE AF_INET 14000 1005 0 0 (Some "wlan0"%string)
             INVALID_UID INVALID_UID) (- EEXIST)].
Proof.
  intros name refused.
  assert (Hinvalid : ¬ validRule 0 0 name INVALID_UID INVALID_UID).
  { intros (_ & Hlen & _). vm_compute in Hlen. apply Hlen. reflexivity. }
  assert (Hvalid : validRule 0 0 (Some "wlan0"%string) INVALID_UID INVALID_UID).
  { split; [reflexivity|]. split; [vm_compute; discriminate|tauto]. }
  split; [exact Hinvalid|].
  destruct (modifyIpRule_exchanges_iff_valid RTM_NEWRULE 14000 1005 0 0 name
              INVALID_UID INVALID_UID sample_world) as [_ Hrejected].
  destruct (Hrejected Hinvalid) as [Hw Hr].
  split.
  { rewrite (surjective_pairing (modifyIpRule _ _ _ _ _ _ _ _ _)), Hw, Hr.
    reflexivity. }
  split; [exact Hvalid|].
  destruct (modifyIpRule_exchanges_iff_valid RTM_NEWRULE 14000 1005 0 0
              (Some "wlan0"%string) INVALID_UID INVALID_UID refused) as [Hsent _].
  destruct (Hsent Hvalid) as [rest Htr]. vm_compute. reflexivity.
Defined.

(** ** Alignment of the rule message *)

(** X2: the message of a rule is a whole number of 4-byte words.  The
    padding after the interface name is 0 to 3 bytes and fills the name,
    with its one terminator, up to a multiple of 4, while the attribute
    header gives the length without the padding; the length in the netlink
    header is a multiple of 4 between 36 and 96. *)
Theorem rule_message_aligned
    action flags family priority table fwmark mask interface uidStart uidEnd :
  interfaceLengthOf interface ≤ IFNAMSIZ →
  let iov := ruleIov family priority table fwmark mask interface
               (interfaceLengthOf interface) (paddingLengthOf interface)
               uidStart uidEnd in
  0 ≤ paddingLengthOf interface < 4 ∧
  (interfaceLengthOf interface + paddingLengthOf interface) mod 4 = 0 ∧
  iov !! 14%nat
  = Some (Iovec (PRtattr (sizeof_rtattr + interfaceLengthOf interface) FRA_OIFNAME)
                (if interface is Some _ then sizeof_rtattr else 0)) ∧
  ∃ len,
    nlmsg_len_of (datagram action flags iov) = Some len ∧
    len mod 4 = 0 ∧ 36 ≤ len ≤ 96.
Proof.
  intros Hlen iov.
  destruct (paddingLengthOf_spec interface Hlen) as [Hpad Hmod].
  assert (Hn : 0 ≤ interfaceLengthOf interface ≤ 16)
    by (destruct interface; cbn in *; unfold IFNAMSIZ in *; lia).
  split; [exact Hpad|]. split; [exact Hmod|]. split.
  { subst iov. cbn [ruleIov lookup list_lookup]. do 3 f_equal.
    unfold U16_RTA_LENGTH, RTA_LENGTH, u16. rewrite RTA_ALIGN_spec.
    unfold sizeof_rtattr. change ((4 + 3) / 4) with 1.
    rewrite (Z.mod_small (interfaceLengthOf interface)) by lia.
    rewrite Z.mod_small by lia. lia. }
  subst iov. unfold ruleIov. rewrite datagram_cons. cbn [nlmsg_len_of total_len foldr iov_len].
  eexists. split; [reflexivity|].
  unfold sizeof_nlmsghdr, sizeof_fib_rule_hdr, sizeof_rtattr, sizeof_uint32, u32.
  set (n := interfaceLengthOf interface) in *.
  set (p := paddingLengthOf interface) in *.
  assert (Hnone : interface = None → n = 0 ∧ p = 0)
    by (intros ->; split; reflexivity).
  clearbody n p.
  pose proof (Z.div_mod (n + p) 4 ltac:(lia)) as Hdiv. rewrite Hmod in Hdiv.
  set (k := (n + p) / 4) in *. clearbody k.
  change (2 ^ 32) with 4294967296.
  destruct (bool_decide (table ≠ 0)), (bool_decide (mask ≠ 0)),
    (bool_decide (uidStart ≠ INVALID_UID)), interface;
    try (destruct (Hnone eq_refl) as [-> ->]);
    rewrite (Z.mod_small _ 4294967296) by lia;
    (split; [clear Hmod; Z.to_euclidean_division_equations; lia|lia]).
Qed.

Lemma rule_message_aligned_witness :
  interfaceLengthOf (Some "wlan0"%string) ≤ IFNAMSIZ ∧
  paddingLengthOf (Some "wlan0"%string) = 2 ∧
  ∃ len,
    nlmsg_len_of
      (datagram RTM_NEWRULE NETLINK_CREATE_REQUEST_FLAGS
         (ruleIov AF_INET 14000 1005 0 0 (Some "wlan0"%string) 6 2
            INVALID_UID INVALID_UID)) = Some len ∧
    len mod 4 = 0 ∧ 36 ≤ len ≤ 96.
Proof.
  assert (Hlen : interfaceLengthOf (Some "wlan0"%string) ≤ IFNAMSIZ)
    by (vm_compute; discriminate).
  split; [exact Hlen|]. split; [reflexivity|].
  exact (proj2 (proj2 (proj2
    (rule_message_aligned RTM_NEWRULE NETLINK_CREATE_REQUEST_FLAGS AF_INET 14000
       1005 0 0 (Some "wlan0"%string) INVALID_UID INVALID_UID Hlen)))).
Defined.

(** ** Result of an exchange *)

(** X3: provided a failing system call leaves a non-zero [errno],
    [sendNetlinkRequest] returns 0 only for a full acknowledgment: all
    four system calls succeeded, exactly the 36 bytes of a header with an
    error message were received, and the error in it is 0.  A reply of any
    other size gives [-EBADMSG]. *)
Theorem sendNetlinkRequest_zero_iff_acknowledged action flags iov w :
  let sys := netlink w (trace w) (datagram action flags iov) in
  let result := sendNetlinkRequest action flags iov w in
  errnoSet sys →
  (result.1 = 0 ↔
     sys_socket sys ≠ -1 ∧ sys_connect sys ≠ -1 ∧ sys_writev sys ≠ -1 ∧
     sys_recv sys = 36 ∧ response_err_error sys = 0) ∧
  (sys_socket sys ≠ -1 → sys_connect sys ≠ -1 → sys_writev sys ≠ -1 →
   sys_recv sys ≠ -1 → sys_recv sys ≠ 36 → result.1 = - EBADMSG).
Proof.
  intros sys result Herrno. subst result. unfold sendNetlinkRequest.
  cbn [fst]. fold sys. unfold netlinkResult, errnoSet in *.
  change (sizeof_nlmsghdr + sizeof_nlmsgerr) with 36.
  destruct (decide (sys_socket sys ≠ -1 ∧ sys_connect sys ≠ -1 ∧
                    sys_writev sys ≠ -1 ∧ sys_recv sys ≠ -1))
    as [(H1 & H2 & H3 & H4)|Hfail].
  - destruct (decide (sys_recv sys = 36)) as [H36|H36].
    + split; [|intros; contradiction]. split.
      * intros H0. repeat split; assumption.
      * intros (_ & _ & _ & _ & H0). exact H0.
    + split; [|intros; reflexivity]. split.
      * unfold EBADMSG. lia.
      * intros (_ & _ & _ & Hr & _). contradiction.
  - assert (Hminus : sys_socket sys = -1 ∨ sys_connect sys = -1 ∨
                      sys_writev sys = -1 ∨ sys_recv sys = -1).
    { destruct (decide (sys_socket sys = -1)); [tauto|].
      destruct (decide (sys_connect sys = -1)); [tauto|].
      destruct (decide (sys_writev sys = -1)); [tauto|].
      destruct (decide (sys_recv sys = -1)); [tauto|].
      exfalso. apply Hfail. tauto. }
    specialize (Herrno Hminus). split.
    + split; [lia|]. intros (H1 & H2 & H3 & H4 & _). exfalso. apply Hfail.
      repeat split; try assumption. lia.
    + intros H1 H2 H3 H4. exfalso. apply Hfail. tauto.
Qed.

Lemma sendNetlinkRequest_zero_iff_acknowledged_witness :
  let iov := ruleIov AF_INET 20000 254 0 0 None 0 0 INVALID_UID INVALID_UID in
  errnoSet (netlink sample_world (trace sample_world)
              (datagram RTM_NEWRULE NETLINK_CREATE_REQUEST_FLAGS iov)) ∧
  (sendNetlinkRequest RTM_NEWRULE NETLINK_CREATE_REQUEST_FLAGS iov sample_world).1 = 0.
Proof.
  intros iov.
  assert (Herrno : errnoSet (netlink sample_world (trace sample_world)
                     (datagram RTM_NEWRULE NETLINK_CREATE_REQUEST_FLAGS iov))).
  { intros [H|[H|[H|H]]]; vm_compute in H; discriminate. }
  split; [exact Herrno|].
  apply (sendNetlinkRequest_zero_iff_acknowledged RTM_NEWRULE
           NETLINK_CREATE_REQUEST_FLAGS iov sample_world Herrno).
  repeat split; vm_compute; congruence.
Defined.

(** ** Tables of distinct interfaces *)

Lemma u32_range z : 0 ≤ u32 z < 2 ^ 32.
Proof. unfold u32. apply Z.mod_pos_bound. lia. Qed.

Lemma u32_add_cancel a b c :
  0 ≤ a < 2 ^ 32 → 0 ≤ b < 2 ^ 32 → u32 (a + c) = u32 (b + c) → a = b.
Proof.
  unfold u32. intros Ha Hb H.
  assert (Hd : (a - b) mod 2 ^ 32 = 0).
  { replace (a - b) with ((a + c) - (b + c)) by lia.
    rewrite Zminus_mod, H, Z.sub_diag. reflexivity. }
  apply Z.mod_divide in Hd; [|lia]. destruct Hd as [q Hq].
  assert (q = 0) by nia. lia.
Qed.

(** X4: interfaces with different kernel indices get different tables,
    also when the sum of index and offset wraps around in 32 bits; and the
    same index always gives the same table. *)
Theorem getRouteTableForInterface_separates_indices offset a b w :
  let ia := u32 (if_nametoindex w a) in
  let ib := u32 (if_nametoindex w b) in
  let first := getRouteTableForInterface offset a w in
  let second := getRouteTableForInterface offset b first.2 in
  ia ≠ 0 → ib ≠ 0 →
  (first.1 = second.1 ↔ ia = ib).
Proof.
  intros ia ib first second Ha Hb. subst first second.
  rewrite (getRouteTableForInterface_resolved offset a w) by exact Ha.
  cbn [fst snd].
  rewrite getRouteTableForInterface_resolved by exact Hb. cbn [fst].
  change (if_nametoindex (set_interfaceToIndex ?m w)) with (if_nametoindex w).
  fold ia ib. split.
  - apply u32_add_cancel; apply u32_range.
  - intros ->. reflexivity.
Qed.

Lemma getRouteTableForInterface_separates_indices_witness :
  let w := set_if_nametoindex
             (fun name => if decide (name = "wlan0"%string) then 5 else 7)
             sample_world in
  u32 (if_nametoindex w "wlan0") ≠ 0 ∧ u32 (if_nametoindex w "rmnet0") ≠ 0 ∧
  (getRouteTableForInterface 1000 "wlan0" w).1
  ≠ (getRouteTableForInterface 1000 "rmnet0"
       (getRouteTableForInterface 1000 "wlan0" w).2).1.
Proof.
  intros w.
  assert (Ha : u32 (if_nametoindex w "wlan0") ≠ 0) by (vm_compute; discriminate).
  assert (Hb : u32 (if_nametoindex w "rmnet0") ≠ 0) by (vm_compute; discriminate).
  split; [exact Ha|]. split; [exact Hb|].
  intros Heq.
  apply (getRouteTableForInterface_separates_indices 1000 "wlan0" "rmnet0" w Ha Hb)
    in Heq.
  vm_compute in Heq. discriminate.
Defined.

(** ** Checks of the route encoder *)

(** X5: [modifyIpRoute] fails without handing anything to the kernel, in
    this order: no destination ([-EFAULT]); a destination that does not
    parse (the error of the parser, as it is); an address longer than an
    IPv6 address ([-ENOBUFS]); an interface that does not resolve
    ([-ENODEV]); a nexthop that is not an address of the family of the
    destination ([-EINVAL]).  Otherwise it makes exactly one exchange and
    returns its result. *)
Theorem modifyIpRoute_error_order parsePrefix inet_pton action table interface
    destination nexthop w :
  let result :=
    modifyIpRoute parsePrefix inet_pton action table interface destination
      nexthop w in
  (destination = None → result = (- EFAULT, w)) ∧
  (∀ dst, destination = Some dst →
     let p := parsePrefix dst in
     let unresolved :=
       ∃ name, interface = Some name ∧ u32 (if_nametoindex w name) = 0 in
     let badNexthop :=
       ∃ address, nexthop = Some address ∧ (inet_pton (family p) address).1 ≤ 0 in
     (rawLength p < 0 → result = (rawLength p, w)) ∧
     (sizeof_in6_addr < rawLength p → result = (- ENOBUFS, w)) ∧
     (0 ≤ rawLength p ≤ sizeof_in6_addr → unresolved → result = (- ENODEV, w)) ∧
     (0 ≤ rawLength p ≤ sizeof_in6_addr → ¬ unresolved → badNexthop →
        result = (- EINVAL, w)) ∧
     (0 ≤ rawLength p ≤ sizeof_in6_addr → ¬ unresolved → ¬ badNexthop →
        ∃ iov, result = sendNetlinkRequest action (routeFlags action) iov w ∧
               iov !! 3%nat = Some (Iovec (PU32 table) sizeof_uint32) ∧
               iov !! 5%nat = Some (Iovec (PBuffer (rawAddress p)) (rawLength p)))).
Proof.
  intros result. subst result. unfold modifyIpRoute. split.
  { intros ->. reflexivity. }
  intros dst ->. set (p := parsePrefix dst). unfold sizeof_in6_addr.
  split; [|split; [|split; [|split]]].
  - intros H. destruct (decide (rawLength p < 0)); [reflexivity|contradiction].
  - intros H. destruct (decide (rawLength p < 0)); [lia|].
    destruct (decide (rawLength p > 16)); [reflexivity|lia].
  - intros H (name & -> & H0).
    destruct (decide (rawLength p < 0)); [lia|].
    destruct (decide (rawLength p > 16)); [lia|].
    destruct (decide (is_Some (Some name) ∧ u32 (if_nametoindex w name) = 0))
      as [_|Hn]; [reflexivity|].
    exfalso. apply Hn. split; [eexists; reflexivity|exact H0].
  - intros H Hres (address & -> & Hbad).
    destruct (decide (rawLength p < 0)); [lia|].
    destruct (decide (rawLength p > 16)); [lia|].
    destruct (decide _) as [[[name Hname] H0]|_].
    { exfalso. apply Hres. exists name. split; [exact Hname|].
      rewrite Hname in H0. exact H0. }
    destruct (decide (is_Some (Some address) ∧
        (inet_pton (family p) address).1 ≤ 0)) as [_|Hn]; [reflexivity|].
    exfalso. apply Hn. split; [eexists; reflexivity|exact Hbad].
  - intros H Hres Hhop.
    destruct (decide (rawLength p < 0)); [lia|].
    destruct (decide (rawLength p > 16)); [lia|].
    destruct (decide _) as [[[name Hname] H0]|_].
    { exfalso. apply Hres. exists name. split; [exact Hname|].
      rewrite Hname in H0. exact H0. }
    destruct (decide _) as [[[address Haddr] Hbad]|_].
    { exfalso. apply Hhop. exists address. split; [exact Haddr|].
      rewrite Haddr in Hbad. exact Hbad. }
    eexists. split; [reflexivity|]. split; reflexivity.
Qed.

Lemma modifyIpRoute_error_order_witness :
  let result :=
    modifyIpRoute sample_parsePrefix sample_inet_pton RTM_NEWROUTE 1005
      (Some "rmnet0"%string) (Some "10.0.0.0/24"%string) (Some "not an address"%string)
      sample_world in
  0 ≤ rawLength (sample_parsePrefix "10.0.0.0/24") ≤ sizeof_in6_addr ∧
  result = (- ENODEV, sample_world).
Proof.
  intros result.
  assert (Hlen : 0 ≤ rawLength (sample_parsePrefix "10.0.0.0/24") ≤ sizeof_in6_addr)
    by (vm_compute; split; discriminate).
  split; [exact Hlen|].
  destruct (modifyIpRoute_error_order sample_parsePrefix sample_inet_pton
              RTM_NEWROUTE 1005 (Some "rmnet0"%string) (Some "10.0.0.0/24"%string)
              (Some "not an address"%string) sample_world) as [_ Hcases].
  destruct (Hcases "10.0.0.0/24"%string eq_refl) as (_ & _ & Hdev & _).
  apply Hdev; [exact Hlen|]. exists "rmnet0"%string. split; reflexivity.
Defined.

(** ** Unknown interfaces *)

Lemma getRouteTableForInterface_unknown offset name w :
  unknownInterface w name → getRouteTableForInterface offset name w = (0, w).
Proof.
  intros [H0 Hnone].
  rewrite getRouteTableForInterface_unresolved by exact H0.
  rewrite Hnone. reflexivity.
Qed.

(** X6: for an interface that does not resolve and has no entry in the
    registry, every operation that works on the table of an interface
    returns [-ESRCH] and leaves the world as it was: nothing is sent, run
    or remembered. *)
Theorem unknown_interface_is_not_found offset mask ci none intValue parsePrefix
    inet_pton ipPath netId name permission oldPermission add modifyIptables
    action destination nexthop uid w :
  unknownInterface w name →
  modifyPerNetworkRules offset mask intValue netId name permission add
    modifyIptables w = (- ESRCH, w) ∧
  modifyVpnRules offset mask ci intValue netId name action w = (- ESRCH, w) ∧
  modifyDefaultNetworkRules offset mask intValue name permission action w
    = (- ESRCH, w) ∧
  modifyRoute offset parsePrefix inet_pton name destination nexthop action
    INTERFACE uid w = (- ESRCH, w) ∧
  flushRoutes offset ipPath name w = (- ESRCH, w) ∧
  removeInterfaceFromNetwork offset mask intValue ipPath netId name permission w
    = (- ESRCH, w) ∧
  addInterfaceToVpn offset mask ci none intValue netId name w = (- ESRCH, w) ∧
  removeInterfaceFromVpn offset mask ci none intValue ipPath netId name w
    = (- ESRCH, w) ∧
  modifyNetworkPermission offset mask intValue netId name oldPermission
    permission w = (- ESRCH, w).
Proof.
  intros Hunknown.
  pose proof (getRouteTableForInterface_unknown offset name w Hunknown) as Hget.
  assert (Hrules : ∀ p a i,
    modifyPerNetworkRules offset mask intValue netId name p a i w = (- ESRCH, w)).
  { intros p a i. unfold modifyPerNetworkRules, bind. rewrite Hget.
    destruct (decide (0 = 0)); [reflexivity|contradiction]. }
  assert (Hvpn : ∀ a,
    modifyVpnRules offset mask ci intValue netId name a w = (- ESRCH, w)).
  { intros a. unfold modifyVpnRules, bind. rewrite Hget.
    destruct (decide (0 = 0)); [reflexivity|contradiction]. }
  assert (Hflush : flushRoutes offset ipPath name w = (- ESRCH, w)).
  { unfold flushRoutes, bind. rewrite Hget.
    destruct (decide (0 = 0)); [reflexivity|contradiction]. }
  assert (Hfail : ∀ k : M Z, orReturn (fun _ => (- ESRCH, w)) k w = (- ESRCH, w)).
  { intros k. unfold orReturn.
    destruct (decide (- ESRCH = 0)); [discriminate|reflexivity]. }
  split; [apply Hrules|]. split; [apply Hvpn|]. split.
  { unfold modifyDefaultNetworkRules, bind. rewrite Hget.
    destruct (decide (0 = 0)); [reflexivity|contradiction]. }
  split.
  { unfold modifyRoute, bind. rewrite Hget.
    destruct (decide (0 = 0)); [reflexivity|contradiction]. }
  split; [exact Hflush|].
  repeat split.
  - unfold removeInterfaceFromNetwork. rewrite orReturn_eq, Hrules. reflexivity.
  - unfold addInterfaceToVpn. rewrite orReturn_eq, Hrules. reflexivity.
  - unfold removeInterfaceFromVpn. rewrite orReturn_eq, Hrules. reflexivity.
  - unfold modifyNetworkPermission. rewrite orReturn_eq, Hrules. reflexivity.
Qed.

Lemma unknown_interface_is_not_found_witness :
  unknownInterface sample_world "rmnet0" ∧
  removeInterfaceFromNetwork 1000 65535 sample_intValue "/system/bin/ip" 5
    "rmnet0" 0 sample_world = (- ESRCH, sample_world).
Proof.
  assert (Hunknown : unknownInterface sample_world "rmnet0")
    by (split; reflexivity).
  split; [exact Hunknown|].
  apply (unknown_interface_is_not_found 1000 65535 3 0 sample_intValue
           sample_parsePrefix sample_inet_pton "/system/bin/ip" 5 "rmnet0" 0 0
           true true RTM_DELRULE None None 0 sample_world Hunknown).
Defined.

(** ** Composite operations as sequences of requests *)

Lemma orReturn_ext (m m' k k' : M Z) w :
  (∀ w, m w = m' w) → (∀ w, k w = k' w) → orReturn m k w = orReturn m' k' w.
Proof.
  intros Hm Hk. unfold orReturn. rewrite Hm.
  destruct (m' w) as [r w1]. destruct (decide (r = 0)); [apply Hk|reflexivity].
Qed.

Lemma orReturn_assoc (a b c : M Z) w :
  orReturn (orReturn a b) c w = orReturn a (orReturn b c) w.
Proof.
  unfold orReturn. destruct (a w) as [r w1].
  destruct (decide (r = 0)) as [->|Hr]; [reflexivity|].
  destruct (decide (r = 0)); [contradiction|reflexivity].
Qed.

(** A checked rule followed by more checked requests and a continuation. *)
Lemma orReturn_sendAll_then (m k k' : M Z) s1 s2 :
  (∀ w, m w = sendAll s1 w) →
  (∀ w, k w = orReturn (sendAll s2) k' w) →
  ∀ w, orReturn m k w = orReturn (sendAll (s1 ++ s2)) k' w.
Proof.
  intros Hm Hk w.
  rewrite (orReturn_ext m (sendAll s1) k (orReturn (sendAll s2) k') w Hm Hk).
  rewrite <- orReturn_assoc. apply orReturn_ext; [|reflexivity].
  intros w1. rewrite sendAll_app. reflexivity.
Qed.

Lemma modifyPerNetworkRules_unfold offset mask intValue netId interface
    permission add modifyIptables w :
  layoutSound intValue →
  Z.land netId (Z.lnot mask) = 0 →
  interfaceLengthOf (Some interface) ≤ IFNAMSIZ →
  let resolved := getRouteTableForInterface offset interface w in
  modifyPerNetworkRules offset mask intValue netId interface permission add
    modifyIptables w
  = if decide (resolved.1 = 0) then (- ESRCH, resolved.2)
    else orReturn
           (sendAll (perNetworkRequests mask intValue
                       (if add then RTM_NEWRULE else RTM_DELRULE)
                       resolved.1 netId interface permission))
           (if modifyIptables then markIncoming netId interface add else ret 0)
           resolved.2.
Proof.
  intros Hsound Hnet Hlen resolved. subst resolved.
  unfold modifyPerNetworkRules, bind.
  destruct (getRouteTableForInterface offset interface w) as [table w0].
  cbn [fst snd]. destruct (decide (table = 0)); [reflexivity|].
  unfold perNetworkRequests.
  apply orReturn_sendAll_then; [|intros w1; apply orReturn_sendAll_then;
    [|intros w2; rewrite <- (app_nil_r (ruleRequests _ 13000 _ _ _ _ _ _));
      apply orReturn_sendAll_then;
      [|intros w3; destruct modifyIptables; reflexivity]]];
  intros w'; apply modifyIpRule_valid;
  (split; [apply Hsound|split; [first [exact Hlen|cbn; unfold IFNAMSIZ; lia]|tauto]]);
  (split; [|split; [|split]]); cbn; try tauto; try exact Hnet;
  apply Z.land_lnot_diag.
Qed.

Lemma modifyVpnRules_sendAll offset mask ci intValue netId interface action w :
  layoutSound intValue →
  Z.land netId (Z.lnot mask) = 0 →
  let resolved := getRouteTableForInterface offset interface w in
  modifyVpnRules offset mask ci intValue netId interface action w
  = if decide (resolved.1 = 0) then (- ESRCH, resolved.2)
    else sendAll (vpnRequests mask ci intValue action resolved.1 netId) resolved.2.
Proof.
  intros Hsound Hnet resolved. subst resolved.
  unfold modifyVpnRules, bind.
  destruct (getRouteTableForInterface offset interface w) as [table w0].
  cbn [fst snd]. destruct (decide (table = 0)); [reflexivity|].
  unfold vpnRequests.
  apply orReturn_sendAll;
  intros w'; apply modifyIpRule_valid, validRule_of_covered; try exact Hsound;
  (split; [|split; [|split]]); cbn; try tauto; try exact Hnet;
  apply Z.land_lnot_diag.
Qed.

Lemma modifyDefaultNetworkRules_sendAll offset mask intValue interface
    permission action w :
  layoutSound intValue →
  let resolved := getRouteTableForInterface offset interface w in
  modifyDefaultNetworkRules offset mask intValue interface permission action w
  = if decide (resolved.1 = 0) then (- ESRCH, resolved.2)
    else sendAll (defaultNetworkRequests mask intValue action resolved.1 permission)
           resolved.2.
Proof.
  intros Hsound resolved. subst resolved.
  unfold modifyDefaultNetworkRules, bind.
  destruct (getRouteTableForInterface offset interface w) as [table w0].
  cbn [fst snd]. destruct (decide (table = 0)); [reflexivity|].
  unfold defaultNetworkRequests.
  apply modifyIpRule_valid, validRule_of_covered; try exact Hsound.
  (split; [|split; [|split]]); cbn; try tauto; apply Z.land_lnot_diag.
Qed.

(** ** Rules taken away *)

Lemma neverAdds_iptables args r : neverAdds (EvIptables args r).
Proof. intros rules rule H. exact H. Qed.

Lemma neverAdds_exec argv r held : neverAdds (EvExec argv r held).
Proof. intros rules rule H. exact H. Qed.

Lemma keepsRule_iptables rule args r : keepsRule rule (EvIptables args r).
Proof. intros rules H. exact H. Qed.

Lemma keepsRule_exec rule argv r held : keepsRule rule (EvExec argv r held).
Proof. intros rules H. exact H. Qed.

Lemma neverAdds_sent q r :
  nlmsg_type_of (sent q r) ≠ Some RTM_NEWRULE → neverAdds (sent q r).
Proof.
  intros Htype rules rule. unfold sent in *. cbn [applyRuleEvent].
  destruct (decide (r = 0)); [|tauto].
  destruct (decide _) as [E|_]; [contradiction|].
  destruct (decide _); [|tauto].
  intros H. apply list_elem_of_filter in H. tauto.
Qed.

Lemma foldl_neverAdds rule evs : ∀ rules,
  Forall neverAdds evs → rule ∉ rules → rule ∉ foldl applyRuleEvent rules evs.
Proof.
  induction evs as [|e evs IH]; intros rules Hevs Hnot; [exact Hnot|].
  apply Forall_cons in Hevs as [He Hevs]. cbn [foldl].
  apply IH; [exact Hevs|]. intros H. apply Hnot. exact (He rules rule H).
Qed.

Lemma removed_by q rules :
  nlmsg_type_of (sent q 0) = Some RTM_DELRULE →
  body (req_iov q) ∉ applyRuleEvent rules (sent q 0).
Proof.
  intros Htype. unfold sent in *. cbn [applyRuleEvent].
  destruct (decide (0 = 0)); [|contradiction]. rewrite Htype.
  destruct (decide (Some RTM_DELRULE = Some RTM_NEWRULE)); [discriminate|].
  destruct (decide (Some RTM_DELRULE = Some RTM_DELRULE)); [|contradiction].
  rewrite body_datagram. intros H. apply list_elem_of_filter in H.
  destruct H as [H _]. apply H. reflexivity.
Qed.

Lemma dels_neverAdd script : ∀ acks,
  Forall (fun q => nlmsg_type_of (sent q 0) = Some RTM_DELRULE) script →
  Forall neverAdds (zip_with sent script acks).
Proof.
  induction script as [|q script IH]; intros acks Hdels; [constructor|].
  apply Forall_cons in Hdels as [Hq Hdels].
  destruct acks as [|r acks]; [constructor|]. cbn.
  constructor; [|apply IH, Hdels].
  apply neverAdds_sent. change (nlmsg_type_of (sent q r)) with (nlmsg_type_of (sent q 0)).
  rewrite Hq. discriminate.
Qed.

(** After a script of acknowledged removals, the kernel holds none of the
    rules of the script. *)
Lemma absent_after_dels script : ∀ rules,
  Forall (fun q => nlmsg_type_of (sent q 0) = Some RTM_DELRULE) script →
  ∀ q, q ∈ script →
    body (req_iov q)
    ∉ foldl applyRuleEvent rules (zip_with sent script (replicate (length script) 0)).
Proof.
  induction script as [|q0 script IH]; intros rules Hdels q Hq.
  - apply elem_of_nil in Hq. contradiction.
  - pose proof Hdels as Hall.
    apply Forall_cons in Hdels as [H0 Hdels]. cbn [length replicate zip_with foldl].
    apply elem_of_cons in Hq as [->|Hq]; [|apply IH; assumption].
    apply foldl_neverAdds; [apply dels_neverAdd, Hdels|apply removed_by, H0].
Qed.

Lemma installedRules_keeps rule tr evs :
  Forall (keepsRule rule) evs →
  rule ∈ installedRules tr → rule ∈ installedRules (tr ++ evs).
Proof.
  intros Hevs Hin. unfold installedRules. rewrite foldl_app.
  apply foldl_keepsRule; assumption.
Qed.

Lemma installedRules_absent rule tr evs :
  Forall neverAdds evs →
  rule ∉ installedRules tr → rule ∉ installedRules (tr ++ evs).
Proof.
  intros Hevs Hin. unfold installedRules. rewrite foldl_app.
  apply foldl_neverAdds; assumption.
Qed.

Lemma sendAll_zero script w :
  (sendAll script w).1 = 0 →
  trace (sendAll script w).2
  = trace w ++ zip_with sent script (replicate (length script) 0).
Proof.
  intros H0. destruct (sendAll_trace script w) as (acks & Htr & _ & Hres).
  destruct Hres as [[_ ->]|[Hn _]]; [exact Htr|contradiction].
Qed.

(** A script of adds that returns 0 leaves all its rules in the kernel; a
    script of removals that returns 0 leaves none of them. *)
Lemma sendAll_installs script w :
  Forall (fun q => nlmsg_type_of (sent q 0) = Some RTM_NEWRULE) script →
  (sendAll script w).1 = 0 →
  Forall (fun q => body (req_iov q) ∈ installedRules (trace (sendAll script w).2))
         script.
Proof.
  intros Hadds H0. apply Forall_forall. intros q Hq.
  rewrite sendAll_zero by exact H0. unfold installedRules. rewrite foldl_app.
  apply installed_after_adds; assumption.
Qed.

Lemma sendAll_removes script w :
  Forall (fun q => nlmsg_type_of (sent q 0) = Some RTM_DELRULE) script →
  (sendAll script w).1 = 0 →
  Forall (fun q => body (req_iov q) ∉ installedRules (trace (sendAll script w).2))
         script.
Proof.
  intros Hdels H0. apply Forall_forall. intros q Hq.
  rewrite sendAll_zero by exact H0. unfold installedRules. rewrite foldl_app.
  apply absent_after_dels; assumption.
Qed.

(** ** The steps around the rules *)

Lemma markIncoming_eq netId interface add w :
  ∃ args r,
    markIncoming netId interface add w
    = (if decide (r ≠ 0) then - EREMOTEIO else 0, record (EvIptables args r) w).
Proof. eexists _, _. reflexivity. Qed.

Lemma getRouteTableForInterface_env offset name w :
  let r := getRouteTableForInterface offset name w in
  if_nametoindex r.2 = if_nametoindex w ∧ trace r.2 = trace w.
Proof.
  unfold getRouteTableForInterface.
  destruct (decide (u32 (if_nametoindex w name) ≠ 0));
    [|destruct (interfaceToIndex w !! name)]; cbn; auto.
Qed.

(** A flush that returns 0 has forgotten the interface and has only run
    commands. *)
Lemma flushRoutes_zero offset ipPath name w :
  (flushRoutes offset ipPath name w).1 = 0 →
  interfaceToIndex (flushRoutes offset ipPath name w).2 !! name = None ∧
  ∃ evs, trace (flushRoutes offset ipPath name w).2 = trace w ++ evs ∧
         Forall (fun e => ∃ argv r held, e = EvExec argv r held) evs.
Proof.
  unfold flushRoutes, bind.
  destruct (getRouteTableForInterface_env offset name w) as [_ Htr].
  destruct (getRouteTableForInterface offset name w) as [table w0].
  cbn [fst snd] in *. destruct (decide (table = 0)); [discriminate|].
  intros _.
  destruct (flushEachVersion_trace ipPath (pretty (Z.to_N table)) IP_VERSIONS
              (set_interfaceToIndex (delete name (interfaceToIndex w0)) w0))
    as (_ & Hcache & evs & Hevs & Hexec).
  cbn zeta in *. rewrite Hcache. split; [apply lookup_delete_eq|].
  exists evs. rewrite Hevs. cbn. rewrite Htr. split; [reflexivity|].
  eapply Forall_impl; [exact Hexec|]. intros e (argv & r & ->). eauto.
Qed.

(** ** Attaching an interface to a network and detaching it *)

Lemma modifyPerNetworkRules_zero offset mask intValue netId interface permission
    (add : bool) w :
  layoutSound intValue →
  Z.land netId (Z.lnot mask) = 0 →
  interfaceLengthOf (Some interface) ≤ IFNAMSIZ →
  let resolved := getRouteTableForInterface offset interface w in
  let script := perNetworkRequests mask intValue
                  (if add then RTM_NEWRULE else RTM_DELRULE)
                  resolved.1 netId interface permission in
  let result :=
    modifyPerNetworkRules offset mask intValue netId interface permission add
      true w in
  result.1 = 0 →
  resolved.1 ≠ 0 ∧ (sendAll script resolved.2).1 = 0 ∧
  ∃ args, result.2 = record (EvIptables args 0) (sendAll script resolved.2).2.
Proof.
  intros Hsound Hnet Hlen resolved script result. subst result.
  rewrite modifyPerNetworkRules_unfold by assumption.
  fold resolved. fold script.
  destruct (decide (resolved.1 = 0)); [discriminate|].
  rewrite orReturn_eq.
  destruct (decide ((sendAll script resolved.2).1 = 0)) as [H0|Hn];
    [|intros H; contradiction].
  destruct (markIncoming_eq netId interface add (sendAll script resolved.2).2)
    as (args & r & ->).
  cbn [fst snd]. destruct (decide (r ≠ 0)) as [|Hr]; [discriminate|].
  intros _. split; [assumption|]. split; [exact H0|].
  exists args. replace r with 0; [reflexivity|].
  destruct (decide (r = 0)); [congruence|contradiction].
Qed.

(** X7: attaching an interface to a network sends the six rule requests
    first and marks incoming packets only once all six are acknowledged.
    A failing request is returned with no mark command run.  If the mark
    command fails the result is [-EREMOTEIO] and the six rules stay in
    the kernel: nothing is taken back. *)
Theorem addInterfaceToNetwork_rules_then_mark offset mask intValue netId
    interface permission w :
  layoutSound intValue →
  Z.land netId (Z.lnot mask) = 0 →
  interfaceLengthOf (Some interface) ≤ IFNAMSIZ →
  let resolved := getRouteTableForInterface offset interface w in
  let adds := perNetworkRequests mask intValue RTM_NEWRULE resolved.1 netId
                interface permission in
  let rules := sendAll adds resolved.2 in
  let result :=
    addInterfaceToNetwork offset mask intValue netId interface permission w in
  resolved.1 ≠ 0 →
  (rules.1 ≠ 0 → result = rules) ∧
  (rules.1 = 0 →
     ∃ args r,
       result = (if decide (r ≠ 0) then - EREMOTEIO else 0,
                 record (EvIptables args r) rules.2) ∧
       Forall (fun q => body (req_iov q) ∈ installedRules (trace result.2)) adds).
Proof.
  intros Hsound Hnet Hlen resolved adds rules result Htable.
  assert (Hresult : result =
    if decide (rules.1 = 0) then markIncoming netId interface true rules.2
    else rules).
  { subst result. unfold addInterfaceToNetwork.
    rewrite modifyPerNetworkRules_unfold by assumption.
    fold resolved. destruct (decide (resolved.1 = 0)); [contradiction|].
    rewrite orReturn_eq. reflexivity. }
  split.
  - intros Hn. rewrite Hresult.
    destruct (decide (rules.1 = 0)); [contradiction|reflexivity].
  - intros H0. rewrite Hresult.
    destruct (decide (rules.1 = 0)); [|contradiction].
    destruct (markIncoming_eq netId interface true rules.2) as (args & r & ->).
    exists args, r. split; [reflexivity|]. cbn [snd record trace].
    eapply Forall_impl;
      [apply (sendAll_installs adds resolved.2); [repeat constructor|exact H0]|].
    intros q Hq. apply installedRules_keeps; [|exact Hq].
    constructor; [apply keepsRule_iptables|constructor].
Qed.

Lemma addInterfaceToNetwork_rules_then_mark_witness :
  let failing := set_execIptables (fun _ _ => 1) sample_world in
  let result := addInterfaceToNetwork 1000 65535 sample_intValue 5 "wlan0" 0 failing in
  layoutSound sample_intValue ∧ Z.land 5 (Z.lnot 65535) = 0 ∧
  interfaceLengthOf (Some "wlan0"%string) ≤ IFNAMSIZ ∧
  (getRouteTableForInterface 1000 "wlan0" failing).1 ≠ 0 ∧
  result.1 = - EREMOTEIO ∧
  Forall (fun q => body (req_iov q) ∈ installedRules (trace result.2))
         (perNetworkRequests 65535 sample_intValue RTM_NEWRULE 1005 5 "wlan0" 0).
Proof.
  intros failing result.
  assert (Hnet : Z.land 5 (Z.lnot 65535) = 0) by reflexivity.
  assert (Hlen : interfaceLengthOf (Some "wlan0"%string) ≤ IFNAMSIZ)
    by (vm_compute; discriminate).
  assert (Htable : (getRouteTableForInterface 1000 "wlan0" failing).1 ≠ 0)
    by (vm_compute; discriminate).
  do 4 (split; [first [exact sample_intValue_sound|assumption]|]).
  destruct (addInterfaceToNetwork_rules_then_mark 1000 65535 sample_intValue 5
              "wlan0" 0 failing sample_intValue_sound Hnet Hlen Htable)
    as [_ Hmark].
  destruct Hmark as (args & r & Hres & Hheld); [vm_compute; reflexivity|].
  split; [vm_compute; reflexivity|exact Hheld].
Defined.

(** X8: attaching an interface to a network and detaching it again, both
    with result 0, is a round trip: after the attach the kernel holds the
    six rules of the network, after the detach it holds none of them, and
    the registry has forgotten the interface. *)
Theorem attach_detach_round_trip offset mask intValue ipPath netId interface
    permission w :
  layoutSound intValue →
  Z.land netId (Z.lnot mask) = 0 →
  interfaceLengthOf (Some interface) ≤ IFNAMSIZ →
  let table := (getRouteTableForInterface offset interface w).1 in
  let rules := perNetworkRequests mask intValue RTM_NEWRULE table netId
                 interface permission in
  let attached :=
    addInterfaceToNetwork offset mask intValue netId interface permission w in
  let detached :=
    removeInterfaceFromNetwork offset mask intValue ipPath netId interface
      permission attached.2 in
  attached.1 = 0 → detached.1 = 0 →
  Forall (fun q => body (req_iov q) ∈ installedRules (trace attached.2)) rules ∧
  Forall (fun q => body (req_iov q) ∉ installedRules (trace detached.2)) rules ∧
  interfaceToIndex detached.2 !! interface = None.
Proof.
  intros Hsound Hnet Hlen table rules attached detached Hattached Hdetached.
  unfold addInterfaceToNetwork in (value of attached).
  destruct (modifyPerNetworkRules_zero offset mask intValue netId interface
              permission true w Hsound Hnet Hlen Hattached)
    as (Htable & Hadds & argsA & HattachedW).
  fold attached in HattachedW. fold table in Htable. fold table rules in Hadds, HattachedW.
  set (resolved := getRouteTableForInterface offset interface w) in *.
  set (added := sendAll rules resolved.2) in *.
  destruct (getRouteTableForInterface_env offset interface w) as [Hif0 _].
  fold resolved in Hif0.
  assert (Hagain : getRouteTableForInterface offset interface attached.2
                   = (table, attached.2)).
  { apply getRouteTableForInterface_again.
    - rewrite HattachedW. cbn [record if_nametoindex]. subst added.
      rewrite sendAll_env. exact Hif0.
    - rewrite HattachedW. cbn [record interfaceToIndex].
      destruct (sendAll_trace rules resolved.2) as (acks & _ & Hcache & _).
      exact Hcache. }
  split.
  { rewrite HattachedW. cbn [record trace].
    eapply Forall_impl;
      [apply (sendAll_installs rules resolved.2); [repeat constructor|exact Hadds]|].
    intros q Hq. apply installedRules_keeps; [|exact Hq].
    constructor; [apply keepsRule_iptables|constructor]. }
  set (removal := modifyPerNetworkRules offset mask intValue netId interface
                    permission false true attached.2).
  assert (Hsplit : removal.1 = 0 ∧ detached = flushRoutes offset ipPath interface removal.2).
  { subst detached. unfold removeInterfaceFromNetwork in *.
    rewrite orReturn_eq in *. fold removal in Hdetached |- *.
    destruct (decide (removal.1 = 0)); [split; [assumption|reflexivity]|].
    contradiction. }
  destruct Hsplit as [Hremoval Hflush].
  destruct (modifyPerNetworkRules_zero offset mask intValue netId interface
              permission false attached.2 Hsound Hnet Hlen Hremoval)
    as (_ & Hdels & argsD & HremovalW).
  fold removal in HremovalW. rewrite Hagain in Hdels, HremovalW.
  cbn [fst snd] in Hdels, HremovalW.
  set (dels := perNetworkRequests mask intValue RTM_DELRULE table netId interface
                 permission) in *.
  assert (Hflushed : (flushRoutes offset ipPath interface removal.2).1 = 0)
    by (rewrite <- Hflush; exact Hdetached).
  destruct (flushRoutes_zero offset ipPath interface removal.2 Hflushed)
    as (Hgone & evs & Htr & Hexec).
  rewrite Hflush. split; [|exact Hgone].
  assert (Hbodies : (fun q => body (req_iov q)) <$> rules
                    = (fun q => body (req_iov q)) <$> dels) by reflexivity.
  apply Forall_forall. intros q Hq.
  assert (Hin : body (req_iov q) ∈ (fun q => body (req_iov q)) <$> dels).
  { rewrite <- Hbodies. apply list_elem_of_fmap. exists q. split; [reflexivity|exact Hq]. }
  apply list_elem_of_fmap in Hin as (qd & -> & Hqd).
  pose proof (proj1 (Forall_forall _ _)
                (sendAll_removes dels attached.2 ltac:(repeat constructor) Hdels)
                qd Hqd) as Habsent.
  cbn beta in Habsent. rewrite Htr, HremovalW. cbn [record trace].
  rewrite <- app_assoc. apply installedRules_absent; [|exact Habsent].
  constructor; [apply neverAdds_iptables|].
  eapply Forall_impl; [exact Hexec|].
  intros e (argv & r & held & ->). apply neverAdds_exec.
Qed.

Lemma attach_detach_round_trip_witness :
  let attached :=
    addInterfaceToNetwork 1000 65535 sample_intValue 5 "wlan0" 0 sample_world in
  let detached :=
    removeInterfaceFromNetwork 1000 65535 sample_intValue "/system/bin/ip" 5
      "wlan0" 0 attached.2 in
  layoutSound sample_intValue ∧ Z.land 5 (Z.lnot 65535) = 0 ∧
  interfaceLengthOf (Some "wlan0"%string) ≤ IFNAMSIZ ∧
  attached.1 = 0 ∧ detached.1 = 0 ∧
  Forall (fun q => body (req_iov q) ∉ installedRules (trace detached.2))
         (perNetworkRequests 65535 sample_intValue RTM_NEWRULE 1005 5 "wlan0" 0) ∧
  interfaceToIndex detached.2 !! "wlan0"%string = None.
Proof.
  intros attached detached.
  assert (Hnet : Z.land 5 (Z.lnot 65535) = 0) by reflexivity.
  assert (Hlen : interfaceLengthOf (Some "wlan0"%string) ≤ IFNAMSIZ)
    by (vm_compute; discriminate).
  assert (Hattached : attached.1 = 0) by (vm_compute; reflexivity).
  assert (Hdetached : detached.1 = 0) by (vm_compute; reflexivity).
  do 5 (split; [first [exact sample_intValue_sound|assumption]|]).
  exact (proj2 (attach_detach_round_trip 1000 65535 sample_intValue
                  "/system/bin/ip" 5 "wlan0" 0 sample_world sample_intValue_sound
                  Hnet Hlen Hattached Hdetached)).
Defined.

(** ** The default network *)

Lemma modifyDefaultNetworkRules_zero offset mask intValue interface permission
    action w :
  layoutSound intValue →
  let resolved := getRouteTableForInterface offset interface w in
  let result :=
    modifyDefaultNetworkRules offset mask intValue interface permission action w in
  result.1 = 0 →
  resolved.1 ≠ 0 ∧
  result = sendAll (defaultNetworkRequests mask intValue action resolved.1 permission)
             resolved.2.
Proof.
  intros Hsound resolved result. subst result.
  rewrite modifyDefaultNetworkRules_sendAll by exact Hsound. fold resolved.
  destruct (decide (resolved.1 = 0)); [discriminate|]. auto.
Qed.

(** X9: making an interface the default network and withdrawing it again,
    both with result 0, is a round trip on the kernel: the rule at
    priority 19000 is held after the first call and gone after the second,
    for IPv4 and IPv6.  Unlike a detach, the withdrawal keeps the entry of
    the interface in the registry. *)
Theorem default_network_round_trip offset mask intValue interface permission w :
  layoutSound intValue →
  let table := (getRouteTableForInterface offset interface w).1 in
  let rules := defaultNetworkRequests mask intValue RTM_NEWRULE table permission in
  let added := addToDefaultNetwork offset mask intValue interface permission w in
  let removed :=
    removeFromDefaultNetwork offset mask intValue interface permission added.2 in
  added.1 = 0 → removed.1 = 0 →
  Forall (fun q => body (req_iov q) ∈ installedRules (trace added.2)) rules ∧
  Forall (fun q => body (req_iov q) ∉ installedRules (trace removed.2)) rules ∧
  interfaceToIndex removed.2 = interfaceToIndex added.2.
Proof.
  intros Hsound table rules added removed Hadded Hremoved.
  unfold addToDefaultNetwork in (value of added).
  unfold removeFromDefaultNetwork in (value of removed).
  destruct (modifyDefaultNetworkRules_zero offset mask intValue interface
              permission RTM_NEWRULE w Hsound Hadded) as [Htable HaddedW].
  fold added in HaddedW. fold table in Htable, HaddedW. fold rules in HaddedW.
  set (resolved := getRouteTableForInterface offset interface w) in *.
  destruct (getRouteTableForInterface_env offset interface w) as [Hif0 _].
  fold resolved in Hif0.
  assert (Hagain : getRouteTableForInterface offset interface added.2
                   = (table, added.2)).
  { apply getRouteTableForInterface_again.
    - rewrite HaddedW, sendAll_env. exact Hif0.
    - rewrite HaddedW.
      destruct (sendAll_trace rules resolved.2) as (acks & _ & Hcache & _).
      exact Hcache. }
  destruct (modifyDefaultNetworkRules_zero offset mask intValue interface
              permission RTM_DELRULE added.2 Hsound Hremoved) as [_ HremovedW].
  fold removed in HremovedW. rewrite Hagain in HremovedW. cbn [fst snd] in HremovedW.
  set (dels := defaultNetworkRequests mask intValue RTM_DELRULE table permission) in *.
  split; [|split].
  - rewrite HaddedW. apply sendAll_installs; [repeat constructor|].
    rewrite <- HaddedW. exact Hadded.
  - assert (Hbodies : (fun q => body (req_iov q)) <$> rules
                      = (fun q => body (req_iov q)) <$> dels) by reflexivity.
    apply Forall_forall. intros q Hq.
    assert (Hin : body (req_iov q) ∈ (fun q => body (req_iov q)) <$> dels).
    { rewrite <- Hbodies. apply list_elem_of_fmap. exists q.
      split; [reflexivity|exact Hq]. }
    apply list_elem_of_fmap in Hin as (qd & -> & Hqd).
    rewrite HremovedW.
    apply (proj1 (Forall_forall _ _)
             (sendAll_removes dels added.2 ltac:(repeat constructor)
                ltac:(rewrite <- HremovedW; exact Hremoved)) qd Hqd).
  - rewrite HremovedW.
    destruct (sendAll_trace dels added.2) as (acks & _ & Hcache & _).
    exact Hcache.
Qed.

Lemma default_network_round_trip_witness :
  let added := addToDefaultNetwork 1000 65535 sample_intValue "wlan0" 0 sample_world in
  let removed :=
    removeFromDefaultNetwork 1000 65535 sample_intValue "wlan0" 0 added.2 in
  layoutSound sample_intValue ∧ added.1 = 0 ∧ removed.1 = 0 ∧
  Forall (fun q => body (req_iov q) ∉ installedRules (trace removed.2))
         (defaultNetworkRequests 65535 sample_intValue RTM_NEWRULE 1005 0) ∧
  interfaceToIndex removed.2 !! "wlan0"%string = Some 5.
Proof.
  intros added removed.
  assert (Hadded : added.1 = 0) by (vm_compute; reflexivity).
  assert (Hremoved : removed.1 = 0) by (vm_compute; reflexivity).
  do 3 (split; [first [exact sample_intValue_sound|assumption]|]).
  destruct (default_network_round_trip 1000 65535 sample_intValue "wlan0" 0
              sample_world sample_intValue_sound Hadded Hremoved)
    as (_ & Habsent & Hcache).
  split; [exact Habsent|]. subst removed added. rewrite Hcache.
  vm_compute. reflexivity.
Defined.

(** ** Attaching an interface to a VPN and detaching it *)

Lemma sameRegistry_sendAll script w : sameRegistry w (sendAll script w).2.
Proof.
  split; [apply sendAll_env|].
  destruct (sendAll_trace script w) as (acks & _ & Hcache & _). exact Hcache.
Qed.

Lemma getRouteTableForInterface_same offset name w w' :
  sameRegistry (getRouteTableForInterface offset name w).2 w' →
  getRouteTableForInterface offset name w'
  = ((getRouteTableForInterface offset name w).1, w').
Proof.
  intros [Hif Hcache]. apply getRouteTableForInterface_again; [|exact Hcache].
  rewrite Hif. apply getRouteTableForInterface_env.
Qed.

Lemma adds_keep rule script : ∀ acks,
  Forall (fun q => nlmsg_type_of (sent q 0) = Some RTM_NEWRULE) script →
  Forall (keepsRule rule) (zip_with sent script acks).
Proof.
  induction script as [|q script IH]; intros acks Hadds; [constructor|].
  apply Forall_cons in Hadds as [Hq Hadds].
  destruct acks as [|r acks]; [constructor|]. cbn.
  constructor; [apply keepsRule_add, Hq|apply IH, Hadds].
Qed.

Lemma sendAll_keeps_held rule script w :
  Forall (fun q => nlmsg_type_of (sent q 0) = Some RTM_NEWRULE) script →
  rule ∈ installedRules (trace w) →
  rule ∈ installedRules (trace (sendAll script w).2).
Proof.
  intros Hadds Hin. destruct (sendAll_trace script w) as (acks & -> & _).
  apply installedRules_keeps; [apply adds_keep, Hadds|exact Hin].
Qed.

Lemma sendAll_keeps_absent rule script w :
  Forall (fun q => nlmsg_type_of (sent q 0) = Some RTM_DELRULE) script →
  rule ∉ installedRules (trace w) →
  rule ∉ installedRules (trace (sendAll script w).2).
Proof.
  intros Hdels Hin. destruct (sendAll_trace script w) as (acks & -> & _).
  apply installedRules_absent; [apply dels_neverAdd, Hdels|exact Hin].
Qed.

Lemma modifyVpnRules_zero offset mask ci intValue netId interface action w :
  layoutSound intValue →
  Z.land netId (Z.lnot mask) = 0 →
  let resolved := getRouteTableForInterface offset interface w in
  let result := modifyVpnRules offset mask ci intValue netId interface action w in
  result.1 = 0 →
  resolved.1 ≠ 0 ∧
  result = sendAll (vpnRequests mask ci intValue action resolved.1 netId) resolved.2.
Proof.
  intros Hsound Hnet resolved result. subst result.
  rewrite modifyVpnRules_sendAll by assumption. fold resolved.
  destruct (decide (resolved.1 = 0)); [discriminate|]. auto.
Qed.

(** The per-network rules with the mark command, once they returned 0:
    where the world stands afterwards. *)
Lemma modifyPerNetworkRules_done offset mask intValue netId interface permission
    (add : bool) w0 w :
  layoutSound intValue →
  Z.land netId (Z.lnot mask) = 0 →
  interfaceLengthOf (Some interface) ≤ IFNAMSIZ →
  let resolved := getRouteTableForInterface offset interface w0 in
  let script := perNetworkRequests mask intValue
                  (if add then RTM_NEWRULE else RTM_DELRULE)
                  resolved.1 netId interface permission in
  let result :=
    modifyPerNetworkRules offset mask intValue netId interface permission add
      true w in
  sameRegistry resolved.2 w →
  result.1 = 0 →
  (sendAll script w).1 = 0 ∧
  sameRegistry resolved.2 result.2 ∧
  ∃ args, trace result.2 = trace (sendAll script w).2 ++ [EvIptables args 0].
Proof.
  intros Hsound Hnet Hlen resolved script result Hsame Hzero.
  destruct (modifyPerNetworkRules_zero offset mask intValue netId interface
              permission add w Hsound Hnet Hlen Hzero) as (_ & Hscript & args & Hw).
  fold result in Hw.
  rewrite (getRouteTableForInterface_same offset interface w0 w Hsame) in Hscript, Hw.
  cbn [fst snd] in Hscript, Hw. fold resolved in Hscript, Hw. fold script in Hscript, Hw.
  split; [exact Hscript|]. split.
  - rewrite Hw. eapply sameRegistry_trans; [exact Hsame|].
    eapply sameRegistry_trans; [apply sameRegistry_sendAll|apply sameRegistry_record].
  - exists args. rewrite Hw. reflexivity.
Qed.

Lemma addInterfaceToVpn_unfold offset mask ci none intValue netId interface w :
  layoutSound intValue →
  Z.land netId (Z.lnot mask) = 0 →
  interfaceLengthOf (Some interface) ≤ IFNAMSIZ →
  let table := (getRouteTableForInterface offset interface w).1 in
  let network :=
    modifyPerNetworkRules offset mask intValue netId interface none true true w in
  let vpn := vpnRequests mask ci intValue RTM_NEWRULE table netId in
  let result := addInterfaceToVpn offset mask ci none intValue netId interface w in
  (network.1 ≠ 0 → result = network) ∧
  (network.1 = 0 → result = sendAll vpn network.2).
Proof.
  intros Hsound Hnet Hlen table network vpn result.
  assert (Hresult : result =
    if decide (network.1 = 0)
    then modifyVpnRules offset mask ci intValue netId interface RTM_NEWRULE network.2
    else network).
  { subst result. unfold addInterfaceToVpn. rewrite orReturn_eq. reflexivity. }
  split.
  { intros Hn. rewrite Hresult.
    destruct (decide (network.1 = 0)); [contradiction|reflexivity]. }
  intros H0. rewrite Hresult. destruct (decide (network.1 = 0)); [|contradiction].
  destruct (modifyPerNetworkRules_zero offset mask intValue netId interface none
              true w Hsound Hnet Hlen H0) as (Htable & Hadds & args & Hw).
  fold network in Hw. fold table in Htable, Hadds, Hw.
  set (resolved := getRouteTableForInterface offset interface w) in *.
  assert (Hsame : sameRegistry resolved.2 network.2).
  { rewrite Hw.
    eapply sameRegistry_trans; [apply sameRegistry_sendAll|apply sameRegistry_record]. }
  rewrite modifyVpnRules_sendAll by assumption.
  rewrite (getRouteTableForInterface_same offset interface w network.2 Hsame).
  cbn [fst snd]. fold resolved. fold table.
  destruct (decide (table = 0)); [contradiction|reflexivity].
Qed.

(** X10: attaching an interface to a VPN asks for the VPN rules only once
    the six per-network rules are acknowledged and the mark command has
    succeeded; a failure before that is returned with no VPN rule
    requested.  The four VPN requests then go out in order until one
    fails; its result is returned, and whatever it is the kernel keeps
    the per-network rules: nothing is taken back. *)
Theorem addInterfaceToVpn_network_rules_first offset mask ci none intValue
    netId interface w :
  layoutSound intValue →
  Z.land netId (Z.lnot mask) = 0 →
  interfaceLengthOf (Some interface) ≤ IFNAMSIZ →
  let table := (getRouteTableForInterface offset interface w).1 in
  let network :=
    modifyPerNetworkRules offset mask intValue netId interface none true true w in
  let vpn := vpnRequests mask ci intValue RTM_NEWRULE table netId in
  let result := addInterfaceToVpn offset mask ci none intValue netId interface w in
  (network.1 ≠ 0 → result = network) ∧
  (network.1 = 0 →
     result = sendAll vpn network.2 ∧
     (∃ acks,
        trace result.2 = trace network.2 ++ zip_with sent vpn acks ∧
        ((result.1 = 0 ∧ acks = replicate 4 0) ∨
         (result.1 ≠ 0 ∧ ∃ n, (n < 4)%nat ∧ acks = replicate n 0 ++ [result.1]))) ∧
     Forall (fun q => body (req_iov q) ∈ installedRules (trace result.2))
            (perNetworkRequests mask intValue RTM_NEWRULE table netId interface none)).
Proof.
  intros Hsound Hnet Hlen table network vpn result.
  destruct (addInterfaceToVpn_unfold offset mask ci none intValue netId interface
              w Hsound Hnet Hlen) as [Hfail Hok].
  fold table network vpn result in Hfail, Hok.
  split; [exact Hfail|]. intros H0. rewrite (Hok H0).
  split; [reflexivity|]. split.
  - destruct (sendAll_trace vpn network.2) as (acks & Htr & _ & Hres).
    exists acks. split; [exact Htr|exact Hres].
  - destruct (modifyPerNetworkRules_zero offset mask intValue netId interface none
                true w Hsound Hnet Hlen H0) as (Htable & Hadds & args & Hw).
    fold network in Hw. fold table in Htable, Hadds, Hw.
    set (resolved := getRouteTableForInterface offset interface w) in *.
    set (adds := perNetworkRequests mask intValue RTM_NEWRULE table netId
                   interface none) in *.
    apply Forall_forall. intros q Hq.
    apply sendAll_keeps_held; [repeat constructor|].
    rewrite Hw. cbn [record trace].
    apply installedRules_keeps; [constructor; [apply keepsRule_iptables|constructor]|].
    exact (proj1 (Forall_forall _ _)
             (sendAll_installs adds resolved.2 ltac:(repeat constructor) Hadds) q Hq).
Qed.

Lemma addInterfaceToVpn_network_rules_first_witness :
  let result := addInterfaceToVpn 1000 65535 3 0 sample_intValue 5 "wlan0" sample_world in
  layoutSound sample_intValue ∧ Z.land 5 (Z.lnot 65535) = 0 ∧
  interfaceLengthOf (Some "wlan0"%string) ≤ IFNAMSIZ ∧
  result.1 = 0 ∧ length (trace result.2) = 11%nat ∧
  Forall (fun q => body (req_iov q) ∈ installedRules (trace result.2))
         (perNetworkRequests 65535 sample_intValue RTM_NEWRULE 1005 5 "wlan0" 0).
Proof.
  intros result.
  assert (Hnet : Z.land 5 (Z.lnot 65535) = 0) by reflexivity.
  assert (Hlen : interfaceLengthOf (Some "wlan0"%string) ≤ IFNAMSIZ)
    by (vm_compute; discriminate).
  do 3 (split; [first [exact sample_intValue_sound|assumption]|]).
  destruct (addInterfaceToVpn_network_rules_first 1000 65535 3 0 sample_intValue
              5 "wlan0" sample_world sample_intValue_sound Hnet Hlen) as [_ Hdone].
  destruct Hdone as (_ & _ & Hheld); [vm_compute; reflexivity|].
  split; [vm_compute; reflexivity|]. split; [vm_compute; reflexivity|exact Hheld].
Defined.

(** What a successful attach to a VPN went through. *)
Lemma addInterfaceToVpn_steps offset mask ci none intValue netId interface w :
  layoutSound intValue →
  Z.land netId (Z.lnot mask) = 0 →
  interfaceLengthOf (Some interface) ≤ IFNAMSIZ →
  let resolved := getRouteTableForInterface offset interface w in
  let table := resolved.1 in
  let adds := perNetworkRequests mask intValue RTM_NEWRULE table netId interface
                none in
  let vadds := vpnRequests mask ci intValue RTM_NEWRULE table netId in
  let result := addInterfaceToVpn offset mask ci none intValue netId interface w in
  result.1 = 0 →
  table ≠ 0 ∧
  ∃ network,
    sameRegistry resolved.2 network ∧
    Forall (fun q => body (req_iov q) ∈ installedRules (trace network)) adds ∧
    (sendAll vadds network).1 = 0 ∧
    result = sendAll vadds network.
Proof.
  intros Hsound Hnet Hlen resolved table adds vadds result Hzero.
  destruct (addInterfaceToVpn_unfold offset mask ci none intValue
              netId interface w Hsound Hnet Hlen) as [Hfail Hok].
  fold result in Hfail, Hok. fold resolved in Hok. fold table in Hok.
  set (network := modifyPerNetworkRules offset mask intValue netId interface none
                    true true w) in *.
  destruct (decide (network.1 = 0)) as [H0|Hn].
  2: { exfalso. rewrite (Hfail Hn) in Hzero. contradiction. }
  pose proof (Hok H0) as Hres.
  destruct (modifyPerNetworkRules_zero offset mask intValue netId interface none
              true w Hsound Hnet Hlen H0) as (Htable & Hadds & args & Hw).
  fold network in Hw. fold resolved in Htable, Hadds, Hw.
  fold table in Htable, Hadds, Hw. fold adds in Hadds, Hw.
  split; [exact Htable|]. exists network.2.
  split; [|split; [|split]].
  - rewrite Hw.
    eapply sameRegistry_trans; [apply sameRegistry_sendAll|apply sameRegistry_record].
  - apply Forall_forall. intros q Hq. rewrite Hw. cbn [record trace].
    apply installedRules_keeps; [constructor; [apply keepsRule_iptables|constructor]|].
    exact (proj1 (Forall_forall _ _)
             (sendAll_installs adds resolved.2 ltac:(repeat constructor) Hadds) q Hq).
  - fold vadds in Hres. rewrite <- Hres. exact Hzero.
  - exact Hres.
Qed.

(** X11: attaching an interface to a VPN and detaching it again, both
    with result 0, is a round trip: after the attach the kernel holds the
    six per-network rules and the four VPN rules, after the detach it
    holds none of the ten, and the registry has forgotten the interface. *)
Theorem vpn_attach_detach_round_trip offset mask ci none intValue ipPath netId
    interface w :
  layoutSound intValue →
  Z.land netId (Z.lnot mask) = 0 →
  interfaceLengthOf (Some interface) ≤ IFNAMSIZ →
  let table := (getRouteTableForInterface offset interface w).1 in
  let rules :=
    perNetworkRequests mask intValue RTM_NEWRULE table netId interface none
    ++ vpnRequests mask ci intValue RTM_NEWRULE table netId in
  let attached := addInterfaceToVpn offset mask ci none intValue netId interface w in
  let detached :=
    removeInterfaceFromVpn offset mask ci none intValue ipPath netId interface
      attached.2 in
  attached.1 = 0 → detached.1 = 0 →
  Forall (fun q => body (req_iov q) ∈ installedRules (trace attached.2)) rules ∧
  Forall (fun q => body (req_iov q) ∉ installedRules (trace detached.2)) rules ∧
  interfaceToIndex detached.2 !! interface = None.
Proof.
  intros Hsound Hnet Hlen table rules attached detached Hattached Hdetached.
  set (resolved := getRouteTableForInterface offset interface w) in *.
  set (adds := perNetworkRequests mask intValue RTM_NEWRULE table netId interface none).
  set (vadds := vpnRequests mask ci intValue RTM_NEWRULE table netId).
  set (dels := perNetworkRequests mask intValue RTM_DELRULE table netId interface none).
  set (vdels := vpnRequests mask ci intValue RTM_DELRULE table netId).
  (* the attach *)
  destruct (addInterfaceToVpn_steps offset mask ci none intValue netId interface w
              Hsound Hnet Hlen Hattached)
    as (Htable & network & Hsame1 & HheldN & Hvzero & Hattached2).
  fold attached in Hattached2. fold resolved in Hsame1. fold table in Htable.
  fold table adds in HheldN. fold table vadds in Hvzero, Hattached2.
  assert (Hsame2 : sameRegistry resolved.2 attached.2).
  { rewrite Hattached2. eapply sameRegistry_trans; [exact Hsame1|].
    apply sameRegistry_sendAll. }
  split.
  { subst rules. apply Forall_app. split.
    - apply Forall_forall. intros q Hq. rewrite Hattached2.
      apply sendAll_keeps_held; [repeat constructor|].
      exact (proj1 (Forall_forall _ _) HheldN q Hq).
    - rewrite Hattached2. apply sendAll_installs; [repeat constructor|exact Hvzero]. }
  (* the detach *)
  set (removal := modifyPerNetworkRules offset mask intValue netId interface none
                    false true attached.2).
  set (vremoval := modifyVpnRules offset mask ci intValue netId interface
                     RTM_DELRULE removal.2).
  assert (Hsplit : removal.1 = 0 ∧ vremoval.1 = 0 ∧
                   detached = flushRoutes offset ipPath interface vremoval.2).
  { subst detached. unfold removeInterfaceFromVpn in *.
    rewrite orReturn_eq in *. fold removal in Hdetached |- *.
    destruct (decide (removal.1 = 0)); [|contradiction]. split; [assumption|].
    rewrite orReturn_eq in *. fold vremoval in Hdetached |- *.
    destruct (decide (vremoval.1 = 0)); [|contradiction].
    split; [assumption|reflexivity]. }
  destruct Hsplit as (Hremoval & Hvremoval & Hflush).
  destruct (modifyPerNetworkRules_done offset mask intValue netId interface none
              false w attached.2 Hsound Hnet Hlen Hsame2 Hremoval)
    as (Hdels & Hsame3 & argsD & HtrD).
  fold removal in Hsame3, HtrD. fold resolved in Hsame3. fold table dels in Hdels, HtrD.
  destruct (modifyVpnRules_zero offset mask ci intValue netId interface
              RTM_DELRULE removal.2 Hsound Hnet Hvremoval) as [_ HvremovalW].
  fold vremoval in HvremovalW.
  rewrite (getRouteTableForInterface_same offset interface w removal.2 Hsame3)
    in HvremovalW.
  cbn [fst snd] in HvremovalW. fold resolved in HvremovalW.
  fold table vdels in HvremovalW.
  assert (Hflushed : (flushRoutes offset ipPath interface vremoval.2).1 = 0)
    by (rewrite <- Hflush; exact Hdetached).
  destruct (flushRoutes_zero offset ipPath interface vremoval.2 Hflushed)
    as (Hgone & evs & Htr & Hexec).
  assert (Hexecs : Forall neverAdds evs).
  { eapply Forall_impl; [exact Hexec|]. intros e (argv & r & held & ->). apply neverAdds_exec. }
  rewrite Hflush. split; [|exact Hgone].
  rewrite Htr. subst rules. apply Forall_app. split.
  - assert (Hbodies : (fun q => body (req_iov q)) <$> adds
                      = (fun q => body (req_iov q)) <$> dels) by reflexivity.
    apply Forall_forall. intros q Hq.
    assert (Hin : body (req_iov q) ∈ (fun q => body (req_iov q)) <$> dels).
    { rewrite <- Hbodies. apply list_elem_of_fmap. exists q.
      split; [reflexivity|exact Hq]. }
    apply list_elem_of_fmap in Hin as (qd & -> & Hqd).
    apply installedRules_absent; [exact Hexecs|].
    rewrite HvremovalW. apply sendAll_keeps_absent; [repeat constructor|].
    rewrite HtrD. apply installedRules_absent;
      [constructor; [apply neverAdds_iptables|constructor]|].
    exact (proj1 (Forall_forall _ _)
             (sendAll_removes dels attached.2 ltac:(repeat constructor) Hdels) qd Hqd).
  - assert (Hbodies : (fun q => body (req_iov q)) <$> vadds
                      = (fun q => body (req_iov q)) <$> vdels) by reflexivity.
    apply Forall_forall. intros q Hq.
    assert (Hin : body (req_iov q) ∈ (fun q => body (req_iov q)) <$> vdels).
    { rewrite <- Hbodies. apply list_elem_of_fmap. exists q.
      split; [reflexivity|exact Hq]. }
    apply list_elem_of_fmap in Hin as (qd & -> & Hqd).
    apply installedRules_absent; [exact Hexecs|].
    rewrite HvremovalW.
    apply (proj1 (Forall_forall _ _)
             (sendAll_removes vdels removal.2 ltac:(repeat constructor)
                ltac:(rewrite <- HvremovalW; exact Hvremoval)) qd Hqd).
Qed.

Lemma vpn_attach_detach_round_trip_witness :
  let attached :=
    addInterfaceToVpn 1000 65535 3 0 sample_intValue 5 "wlan0" sample_world in
  let detached :=
    removeInterfaceFromVpn 1000 65535 3 0 sample_intValue "/system/bin/ip" 5
      "wlan0" attached.2 in
  layoutSound sample_intValue ∧ Z.land 5 (Z.lnot 65535) = 0 ∧
  interfaceLengthOf (Some "wlan0"%string) ≤ IFNAMSIZ ∧
  attached.1 = 0 ∧ detached.1 = 0 ∧
  Forall (fun q => body (req_iov q) ∉ installedRules (trace detached.2))
         (perNetworkRequests 65535 sample_intValue RTM_NEWRULE 1005 5 "wlan0" 0
          ++ vpnRequests 65535 3 sample_intValue RTM_NEWRULE 1005 5) ∧
  interfaceToIndex detached.2 !! "wlan0"%string = None.
Proof.
  intros attached detached.
  assert (Hnet : Z.land 5 (Z.lnot 65535) = 0) by reflexivity.
  assert (Hlen : interfaceLengthOf (Some "wlan0"%string) ≤ IFNAMSIZ)
    by (vm_compute; discriminate).
  assert (Hattached : attached.1 = 0) by (vm_compute; reflexivity).
  assert (Hdetached : detached.1 = 0) by (vm_compute; reflexivity).
  do 5 (split; [first [exact sample_intValue_sound|assumption]|]).
  exact (proj2 (vpn_attach_detach_round_trip 1000 65535 3 0 sample_intValue
                  "/system/bin/ip" 5 "wlan0" sample_world sample_intValue_sound
                  Hnet Hlen Hattached Hdetached)).
Defined.

(** ** Removing a route *)

(** X12: removing a directly connected route asks the kernel to delete it
    from the target table and then from the main table, with plain request
    flags: read off the wire, the two datagrams are deletions of the
    static unicast route for the destination through the interface, the
    first with the target table in its table attribute and the second
    with table 254.  Nothing is let pass on removal: a failure of the first
    deletion is returned with the second never attempted, a failure of
    the second is returned as it is, and the result is 0 exactly when both
    deletions were acknowledged with 0. *)
Theorem removeRoute_deletes_from_both_tables offset parsePrefix inet_pton
    interface destination tableType uid w :
  let resolved := routeTable offset tableType interface w in
  let table := resolved.1 in
  let q1 := routeRequest parsePrefix inet_pton w RTM_DELROUTE table interface
              destination None in
  let q2 := routeRequest parsePrefix inet_pton w RTM_DELROUTE RT_TABLE_MAIN
              interface destination None in
  let r1 := (send q1 resolved.2).1 in
  let r2 := (send q2 (send q1 resolved.2).2).1 in
  let removed :=
    removeRoute offset parsePrefix inet_pton interface (Some destination) None
      tableType uid w in
  let p := parsePrefix destination in
  let ifindex := u32 (if_nametoindex w interface) in
  table ≠ 0 →
  routeChecksPass parsePrefix inet_pton w interface destination None →
  readRoute (wire q1)
  = Some (routeMessage RTM_DELROUTE (Z.lor NLM_F_REQUEST NLM_F_ACK) p table
            (Some ifindex) None) ∧
  readRoute (wire q2)
  = Some (routeMessage RTM_DELROUTE (Z.lor NLM_F_REQUEST NLM_F_ACK) p 254
            (Some ifindex) None) ∧
  req_flags q1 = NETLINK_REQUEST_FLAGS ∧ req_flags q2 = NETLINK_REQUEST_FLAGS ∧
  (r1 ≠ 0 → removed.1 = r1 ∧ trace removed.2 = trace w ++ [sent q1 r1]) ∧
  (r1 = 0 → removed.1 = r2 ∧ trace removed.2 = trace w ++ [sent q1 0; sent q2 r2]) ∧
  (removed.1 = 0 ↔ r1 = 0 ∧ r2 = 0).
Proof.
  intros resolved table q1 q2 r1 r2 removed p ifindex Htable Hchecks.
  split; [exact (readRoute_routeRequest parsePrefix inet_pton w RTM_DELROUTE
                   table interface destination None (proj1 Hchecks))|].
  split; [exact (readRoute_routeRequest parsePrefix inet_pton w RTM_DELROUTE
                   RT_TABLE_MAIN interface destination None (proj1 Hchecks))|].
  destruct (routeTable_env offset tableType interface w) as (Hif & Hnl & Htr).
  fold resolved in Hif, Hnl, Htr.
  assert (Hchecks0 : routeChecksPass parsePrefix inet_pton resolved.2 interface
                       destination None)
    by (eapply routeChecksPass_env; [exact Hif|exact Hchecks]).
  assert (Hprimary :
    modifyIpRoute parsePrefix inet_pton RTM_DELROUTE table (Some interface)
      (Some destination) None resolved.2 = send q1 resolved.2).
  { rewrite modifyIpRoute_ready by exact Hchecks0.
    rewrite (routeRequest_env _ _ w) by exact Hif. reflexivity. }
  assert (Hmirror :
    modifyIpRoute parsePrefix inet_pton RTM_DELROUTE RT_TABLE_MAIN (Some interface)
      (Some destination) None (send q1 resolved.2).2 = send q2 (send q1 resolved.2).2).
  { rewrite modifyIpRoute_ready
      by (eapply routeChecksPass_env; [|exact Hchecks0]; reflexivity).
    rewrite (routeRequest_env _ _ w) by exact Hif. reflexivity. }
  assert (Hremoved : removed =
    if decide (r1 = 0)
    then (r2, (send q2 (send q1 resolved.2).2).2)
    else (r1, (send q1 resolved.2).2)).
  { subst removed. unfold removeRoute. rewrite modifyRoute_unfold.
    fold resolved. fold table.
    destruct (decide (table = 0)); [contradiction|].
    rewrite Hprimary, Hmirror. fold r1 r2.
    destruct (decide (r1 = 0)) as [H0|Hn].
    - destruct (decide (r1 ≠ 0 ∧ ¬ toleratedPrimary RTM_DELROUTE tableType r1))
        as [[Hn _]|_]; [contradiction|].
      destruct (decide (r2 ≠ 0 ∧ ¬ (RTM_DELROUTE = RTM_NEWROUTE ∧ r2 = - EEXIST)))
        as [_|Hd]; [apply surjective_pairing|].
      replace r2 with 0; [reflexivity|].
      destruct (decide (r2 = 0)) as [|Hr]; [congruence|].
      exfalso. apply Hd. split; [exact Hr|]. intros [E _]. discriminate E.
    - destruct (decide (r1 ≠ 0 ∧ ¬ toleratedPrimary RTM_DELROUTE tableType r1))
        as [_|Hd]; [apply surjective_pairing|].
      exfalso. apply Hd. split; [exact Hn|]. intros [E _]. discriminate E. }
  assert (Ht1 : trace (send q1 resolved.2).2 = trace w ++ [sent q1 r1]).
  { subst r1. rewrite send_eq. cbn. rewrite Htr. reflexivity. }
  assert (Ht2 : trace (send q2 (send q1 resolved.2).2).2
                = trace w ++ [sent q1 r1; sent q2 r2]).
  { subst r2. rewrite (send_eq q2). cbn [snd fst record trace]. rewrite Ht1.
    rewrite <- app_assoc. reflexivity. }
  split; [reflexivity|]. split; [reflexivity|]. rewrite Hremoved.
  destruct (decide (r1 = 0)) as [H0|Hn]; cbn [fst snd].
  - split; [intros; contradiction|]. split.
    + intros _. split; [reflexivity|]. rewrite Ht2, H0. reflexivity.
    + tauto.
  - split; [intros _; split; [reflexivity|exact Ht1]|].
    split; [intros; contradiction|]. tauto.
Qed.

Lemma removeRoute_deletes_from_both_tables_witness :
  let removed :=
    removeRoute 1000 sample_parsePrefix sample_inet_pton "wlan0"
      (Some "10.0.0.0/24"%string) None INTERFACE 0 sample_world in
  (routeTable 1000 INTERFACE "wlan0" sample_world).1 ≠ 0 ∧
  routeChecksPass sample_parsePrefix sample_inet_pton sample_world
    "wlan0" "10.0.0.0/24" None ∧
  removed.1 = 0 ∧ length (trace removed.2) = 2%nat.
Proof.
  intros removed.
  assert (Htable : (routeTable 1000 INTERFACE "wlan0" sample_world).1 ≠ 0)
    by (vm_compute; discriminate).
  assert (Hchecks : routeChecksPass sample_parsePrefix sample_inet_pton
                      sample_world "wlan0" "10.0.0.0/24" None).
  { split; [vm_compute; split; discriminate|].
    split; [vm_compute; discriminate|exact I]. }
  split; [exact Htable|]. split; [exact Hchecks|].
  destruct (removeRoute_deletes_from_both_tables 1000 sample_parsePrefix
              sample_inet_pton "wlan0" "10.0.0.0/24" INTERFACE 0 sample_world
              Htable Hchecks) as (_ & _ & _ & _ & _ & Hboth & _).
  destruct Hboth as [Hres Htr]; [vm_compute; reflexivity|].
  subst removed. split; [rewrite Hres; vm_compute; reflexivity|].
  rewrite Htr. reflexivity.
Defined.

(** ** The registry across the whole control surface *)

Lemma keepsNonzero_ret r : keepsNonzero (ret r).
Proof. intros w H. exact H. Qed.

Lemma keepsNonzero_orReturn m k :
  keepsNonzero m → keepsNonzero k → keepsNonzero (orReturn m k).
Proof.
  intros Hm Hk w H. unfold orReturn. specialize (Hm w H).
  destruct (m w) as [r w1]. cbn [snd] in Hm.
  destruct (decide (r = 0)); [apply Hk; exact Hm|exact Hm].
Qed.

Lemma keepsNonzero_bind (m : M Z) (k : Z → M Z) :
  keepsNonzero m → (∀ a, keepsNonzero (k a)) → keepsNonzero (bind m k).
Proof.
  intros Hm Hk w H. unfold bind. specialize (Hm w H).
  destruct (m w) as [r w1]. cbn [snd] in Hm. apply Hk. exact Hm.
Qed.

Lemma keepsNonzero_same (m : M Z) :
  (∀ w, interfaceToIndex (m w).2 = interfaceToIndex w) → keepsNonzero m.
Proof. intros Hsame w H name index. rewrite Hsame. apply H. Qed.

Lemma keepsNonzero_sendNetlinkRequest action flags iov :
  keepsNonzero (sendNetlinkRequest action flags iov).
Proof. apply keepsNonzero_same. reflexivity. Qed.

Lemma keepsNonzero_forEachFamily families (f : Z → M Z) :
  (∀ family, keepsNonzero (f family)) → keepsNonzero (forEachFamily families f).
Proof.
  intros Hf. induction families as [|family rest IH]; cbn [forEachFamily].
  - apply keepsNonzero_ret.
  - apply keepsNonzero_orReturn; [apply Hf|exact IH].
Qed.

Lemma keepsNonzero_modifyIpRule action priority table fwmark mask interface
    uidStart uidEnd :
  keepsNonzero (modifyIpRule action priority table fwmark mask interface
                  uidStart uidEnd).
Proof.
  unfold modifyIpRule.
  repeat (match goal with |- context [decide ?P] => destruct (decide P) end;
          try apply keepsNonzero_ret).
  apply keepsNonzero_forEachFamily. intros family.
  apply keepsNonzero_sendNetlinkRequest.
Qed.

Lemma keepsNonzero_modifyIpRoute parsePrefix inet_pton action table interface
    destination nexthop :
  keepsNonzero (modifyIpRoute parsePrefix inet_pton action table interface
                  destination nexthop).
Proof.
  apply keepsNonzero_same. intros w. unfold modifyIpRoute.
  destruct destination as [destination|]; [|reflexivity].
  repeat (match goal with |- context [decide ?P] => destruct (decide P) end;
          try reflexivity).
Qed.

Lemma keepsNonzero_getRouteTableForInterface offset interface :
  keepsNonzero (getRouteTableForInterface offset interface).
Proof.
  intros w H. unfold getRouteTableForInterface.
  destruct (decide (u32 (if_nametoindex w interface) ≠ 0)) as [Hn|_].
  - cbn [snd]. intros name index. cbn [set_interfaceToIndex interfaceToIndex].
    destruct (decide (name = interface)) as [->|Hne].
    + rewrite lookup_insert_eq. intros [= <-].
      pose proof (u32_range (if_nametoindex w interface)). lia.
    + rewrite lookup_insert_ne by congruence. apply H.
  - destruct (interfaceToIndex w !! interface); exact H.
Qed.

Lemma keepsNonzero_flushEachVersion ipPath versions tableString :
  keepsNonzero (flushEachVersion ipPath versions tableString).
Proof.
  apply keepsNonzero_same. induction versions as [|version rest IH]; intros w.
  - reflexivity.
  - cbn [flushEachVersion].
    destruct (decide (_ ≠ 0)); [reflexivity|]. rewrite IH. reflexivity.
Qed.

Lemma keepsNonzero_flushRoutes offset ipPath interface :
  keepsNonzero (flushRoutes offset ipPath interface).
Proof.
  unfold flushRoutes. apply keepsNonzero_bind.
  - apply keepsNonzero_getRouteTableForInterface.
  - intros table. destruct (decide (table = 0)); [apply keepsNonzero_ret|].
    intros w H. apply keepsNonzero_flushEachVersion.
    intros name index. cbn [set_interfaceToIndex interfaceToIndex].
    intros Hl. apply lookup_delete_Some in Hl as [_ Hl]. exact (H _ _ Hl).
Qed.

Lemma keepsNonzero_modifyPerNetworkRules offset mask intValue netId interface
    permission add modifyIptables :
  keepsNonzero (modifyPerNetworkRules offset mask intValue netId interface
                  permission add modifyIptables).
Proof.
  unfold modifyPerNetworkRules. apply keepsNonzero_bind.
  - apply keepsNonzero_getRouteTableForInterface.
  - intros table. destruct (decide (table = 0)); [apply keepsNonzero_ret|].
    do 3 (apply keepsNonzero_orReturn; [apply keepsNonzero_modifyIpRule|]).
    destruct modifyIptables; [|apply keepsNonzero_ret].
    apply keepsNonzero_same. reflexivity.
Qed.

Lemma keepsNonzero_modifyVpnRules offset mask ci intValue netId interface action :
  keepsNonzero (modifyVpnRules offset mask ci intValue netId interface action).
Proof.
  unfold modifyVpnRules. apply keepsNonzero_bind.
  - apply keepsNonzero_getRouteTableForInterface.
  - intros table. destruct (decide (table = 0)); [apply keepsNonzero_ret|].
    apply keepsNonzero_orReturn; apply keepsNonzero_modifyIpRule.
Qed.

Lemma keepsNonzero_modifyDefaultNetworkRules offset mask intValue interface
    permission action :
  keepsNonzero (modifyDefaultNetworkRules offset mask intValue interface
                  permission action).
Proof.
  unfold modifyDefaultNetworkRules. apply keepsNonzero_bind.
  - apply keepsNonzero_getRouteTableForInterface.
  - intros table. destruct (decide (table = 0)); [apply keepsNonzero_ret|].
    apply keepsNonzero_modifyIpRule.
Qed.

Lemma keepsNonzero_modifyRoute offset parsePrefix inet_pton interface destination
    nexthop action tableType uid :
  keepsNonzero (modifyRoute offset parsePrefix inet_pton interface destination
                  nexthop action tableType uid).
Proof.
  unfold modifyRoute. apply keepsNonzero_bind.
  - destruct tableType;
      [apply keepsNonzero_getRouteTableForInterface|apply keepsNonzero_ret..].
  - intros table. destruct (decide (table = 0)); [apply keepsNonzero_ret|].
    apply keepsNonzero_bind; [apply keepsNonzero_modifyIpRoute|].
    intros r. destruct (decide _); [apply keepsNonzero_ret|].
    destruct nexthop; [apply keepsNonzero_ret|].
    apply keepsNonzero_bind; [apply keepsNonzero_modifyIpRoute|].
    intros r'. destruct (decide _); apply keepsNonzero_ret.
Qed.

Lemma keepsNonzero_Init offset mask ci intValue :
  keepsNonzero (Init offset mask ci intValue).
Proof.
  unfold Init.
  do 3 (apply keepsNonzero_orReturn; [apply keepsNonzero_modifyIpRule|]).
  apply keepsNonzero_ret.
Qed.

Lemma runOperation_keepsNonzero s op w :
  registryNonzero w → registryNonzero (runOperation s op w).
Proof.
  intros H. destruct op; cbn [runOperation].
  - apply keepsNonzero_Init, H.
  - apply keepsNonzero_modifyPerNetworkRules, H.
  - revert w H. apply keepsNonzero_orReturn;
      [apply keepsNonzero_modifyPerNetworkRules|apply keepsNonzero_flushRoutes].
  - revert w H. apply keepsNonzero_orReturn;
      [apply keepsNonzero_modifyPerNetworkRules|apply keepsNonzero_modifyVpnRules].
  - revert w H. apply keepsNonzero_orReturn;
      [apply keepsNonzero_modifyPerNetworkRules|].
    apply keepsNonzero_orReturn;
      [apply keepsNonzero_modifyVpnRules|apply keepsNonzero_flushRoutes].
  - revert w H. apply keepsNonzero_orReturn;
      apply keepsNonzero_modifyPerNetworkRules.
  - apply keepsNonzero_modifyDefaultNetworkRules, H.
  - apply keepsNonzero_modifyDefaultNetworkRules, H.
  - apply keepsNonzero_modifyRoute, H.
  - apply keepsNonzero_modifyRoute, H.
  - exact H.
Qed.

(** X13: whatever sequence of public calls is made, and however the
    interfaces of the system change between them, every index the registry
    remembers is a non-zero 32-bit value; a name whose lookup gave 0 is
    never stored. *)
Theorem registry_never_holds_zero s ops w :
  registryNonzero w → registryNonzero (runOperations s ops w).
Proof.
  unfold runOperations. revert w.
  induction ops as [|op rest IH]; intros w H; cbn [foldl].
  - exact H.
  - apply IH, runOperation_keepsNonzero, H.
Qed.

Lemma registry_never_holds_zero_witness :
  registryNonzero sample_world ∧
  registryNonzero
    (runOperations sample_settings
       [ OpInit; OpAddInterfaceToNetwork 5 "wlan0" 0;
         InterfacesChange no_interfaces;
         OpAddRoute "wlan0" (Some "10.0.0.0/24"%string) None INTERFACE 0;
         OpRemoveInterfaceFromNetwork 5 "wlan0" 0 ] sample_world).
Proof.
  assert (H : registryNonzero sample_world).
  { intros name index. cbn. rewrite lookup_empty. discriminate. }
  split; [exact H|].
  apply (registry_never_holds_zero sample_settings _ sample_world H).
Defined.

(** ** A flush followed by the loss of the interface *)

Lemma flushRoutes_found offset ipPath name w :
  (flushRoutes offset ipPath name w).1 ≠ - ESRCH →
  if_nametoindex (flushRoutes offset ipPath name w).2 = if_nametoindex w ∧
  interfaceToIndex (flushRoutes offset ipPath name w).2 !! name = None.
Proof.
  unfold flushRoutes, bind.
  destruct (getRouteTableForInterface_env offset name w) as [Hif _].
  destruct (getRouteTableForInterface offset name w) as [table w0].
  cbn [fst snd] in *.
  destruct (decide (table = 0)); [intros H; contradiction H; reflexivity|].
  intros _.
  destruct (flushEachVersion_trace ipPath (pretty (Z.to_N table)) IP_VERSIONS
              (set_interfaceToIndex (delete name (interfaceToIndex w0)) w0))
    as (Hif' & Hcache & _).
  cbn zeta in *. rewrite Hif', Hcache. split; [exact Hif|apply lookup_delete_eq].
Qed.

(** X14: once [flushRoutes] has found the table of an interface, whether
    the flushes then succeed or fail, an interface that afterwards stops
    resolving has no table any more: the lookup gives 0 and a second flush
    returns [-ESRCH] without running a command.  A failed flush can
    therefore not be repeated once the interface is gone. *)
Theorem flushed_interface_is_not_found_once_gone offset ipPath name gone w :
  let flushed := flushRoutes offset ipPath name w in
  let after := set_if_nametoindex gone flushed.2 in
  flushed.1 ≠ - ESRCH →
  u32 (gone name) = 0 →
  getRouteTableForInterface offset name after = (0, after) ∧
  flushRoutes offset ipPath name after = (- ESRCH, after).
Proof.
  intros flushed after Hfound Hgone.
  destruct (flushRoutes_found offset ipPath name w Hfound) as [_ Hnone].
  fold flushed in Hnone.
  assert (Hunknown : unknownInterface after name)
    by (split; [exact Hgone|exact Hnone]).
  pose proof (getRouteTableForInterface_unknown offset name after Hunknown) as Hget.
  split; [exact Hget|].
  unfold flushRoutes, bind. rewrite Hget.
  destruct (decide (0 = 0)); [reflexivity|contradiction].
Qed.

Lemma flushed_interface_is_not_found_once_gone_witness :
  let failing :=
    set_android_fork_execvp (fun _ _ => 1) sample_world in
  let flushed := flushRoutes 1000 "/system/bin/ip" "wlan0" failing in
  let after := set_if_nametoindex no_interfaces flushed.2 in
  flushed.1 = - EREMOTEIO ∧ u32 (no_interfaces "wlan0"%string) = 0 ∧
  flushRoutes 1000 "/system/bin/ip" "wlan0" after = (- ESRCH, after).
Proof.
  intros failing flushed after.
  assert (Hres : flushed.1 = - EREMOTEIO) by (vm_compute; reflexivity).
  assert (Hfound : flushed.1 ≠ - ESRCH) by (rewrite Hres; discriminate).
  assert (Hgone : u32 (no_interfaces "wlan0"%string) = 0) by reflexivity.
  split; [exact Hres|]. split; [exact Hgone|].
  exact (proj2 (flushed_interface_is_not_found_once_gone 1000 "/system/bin/ip"
                  "wlan0" no_interfaces failing Hfound Hgone)).
Defined.

(** ** What a rule message carries *)

(** X15: on the wire a rule message carries the priority always, the table
    exactly when [table] is not 0, the mark and its mask exactly when
    [mask] is not 0, the uid range exactly when [uidStart] is valid and the
    name of the outgoing interface exactly when one is given, in this
    order; the rule sends to a table when [table] is not 0 and is an
    unreachable rule otherwise. *)
Theorem rule_message_carries_what_is_set family priority table fwmark mask
    interface uidStart uidEnd :
  let msg :=
    ruleIov family priority table fwmark mask interface
      (interfaceLengthOf interface) (paddingLengthOf interface) uidStart uidEnd in
  attributeTypes msg =
    [FRA_PRIORITY]
    ++ (if bool_decide (table ≠ 0) then [FRA_TABLE] else [])
    ++ (if bool_decide (mask ≠ 0) then [FRA_FWMARK; FRA_FWMASK] else [])
    ++ (if bool_decide (uidStart ≠ INVALID_UID) then [FRA_UID_START; FRA_UID_END]
        else [])
    ++ (if interface is Some _ then [FRA_OIFNAME] else []) ∧
  ruleActions msg =
    [if bool_decide (table ≠ 0) then FR_ACT_TO_TBL else FR_ACT_UNREACHABLE].
Proof.
  intros msg. subst msg. unfold attributeTypes, ruleActions, body, ruleIov.
  cbn [tail].
  destruct interface as [name|].
  - assert (Hlen : interfaceLengthOf (Some name) ≠ 0) by (cbn; lia).
    set (len := interfaceLengthOf (Some name)) in *.
    set (pad := paddingLengthOf (Some name)).
    clearbody len pad.
    destruct (decide (pad = 0)) as [->|Hpad];
      do 3 case_bool_decide;
      repeat first
        [ rewrite filter_len_drop
        | rewrite filter_len_keep by first [assumption | vm_compute; discriminate] ];
      split; reflexivity.
  - cbn [interfaceLengthOf paddingLengthOf].
    do 3 case_bool_decide;
      repeat first
        [ rewrite filter_len_drop
        | rewrite filter_len_keep by (vm_compute; discriminate) ];
      split; reflexivity.
Qed.

(** ** The registry entries of other interfaces *)

Lemma touchesOnly_ret name r : touchesOnly name (ret r).
Proof. intros w other _. reflexivity. Qed.

Lemma touchesOnly_orReturn name m k :
  touchesOnly name m → touchesOnly name k → touchesOnly name (orReturn m k).
Proof.
  intros Hm Hk w other Hne. unfold orReturn. specialize (Hm w other Hne).
  destruct (m w) as [r w1]. cbn [snd] in Hm.
  destruct (decide (r = 0)); [rewrite Hk by exact Hne|]; exact Hm.
Qed.

Lemma touchesOnly_bind name (m : M Z) (k : Z → M Z) :
  touchesOnly name m → (∀ a, touchesOnly name (k a)) → touchesOnly name (bind m k).
Proof.
  intros Hm Hk w other Hne. unfold bind. specialize (Hm w other Hne).
  destruct (m w) as [r w1]. cbn [snd] in Hm. rewrite Hk by exact Hne. exact Hm.
Qed.

Lemma touchesOnly_same name (m : M Z) :
  (∀ w, interfaceToIndex (m w).2 = interfaceToIndex w) → touchesOnly name m.
Proof. intros Hsame w other _. rewrite Hsame. reflexivity. Qed.

Lemma touchesOnly_modifyIpRule name action priority table fwmark mask interface
    uidStart uidEnd :
  touchesOnly name (modifyIpRule action priority table fwmark mask interface
                      uidStart uidEnd).
Proof.
  unfold modifyIpRule.
  repeat (match goal with |- context [decide ?P] => destruct (decide P) end;
          try apply touchesOnly_ret).
  generalize AF_FAMILIES. intros families.
  induction families as [|family rest IH]; cbn [forEachFamily].
  - apply touchesOnly_ret.
  - apply touchesOnly_orReturn; [|exact IH]. apply touchesOnly_same. reflexivity.
Qed.

Lemma touchesOnly_modifyIpRoute name parsePrefix inet_pton action table interface
    destination nexthop :
  touchesOnly name (modifyIpRoute parsePrefix inet_pton action table interface
                      destination nexthop).
Proof.
  apply touchesOnly_same. intros w. unfold modifyIpRoute.
  destruct destination as [destination|]; [|reflexivity].
  repeat (match goal with |- context [decide ?P] => destruct (decide P) end;
          try reflexivity).
Qed.

Lemma touchesOnly_getRouteTableForInterface offset interface :
  touchesOnly (Some interface) (getRouteTableForInterface offset interface).
Proof.
  intros w other Hne. unfold getRouteTableForInterface.
  destruct (decide (u32 (if_nametoindex w interface) ≠ 0)) as [Hn|_].
  - cbn [snd set_interfaceToIndex interfaceToIndex].
    apply lookup_insert_ne. congruence.
  - destruct (interfaceToIndex w !! interface); reflexivity.
Qed.

Lemma touchesOnly_flushRoutes offset ipPath interface :
  touchesOnly (Some interface) (flushRoutes offset ipPath interface).
Proof.
  unfold flushRoutes. apply touchesOnly_bind.
  - apply touchesOnly_getRouteTableForInterface.
  - intros table. destruct (decide (table = 0)); [apply touchesOnly_ret|].
    intros w other Hne.
    destruct (flushEachVersion_trace ipPath (pretty (Z.to_N table)) IP_VERSIONS
                (set_interfaceToIndex (delete interface (interfaceToIndex w)) w))
      as (_ & Hcache & _).
    cbn zeta in Hcache. rewrite Hcache.
    cbn [set_interfaceToIndex interfaceToIndex].
    apply lookup_delete_ne. congruence.
Qed.

Lemma touchesOnly_modifyPerNetworkRules offset mask intValue netId interface
    permission add modifyIptables :
  touchesOnly (Some interface)
    (modifyPerNetworkRules offset mask intValue netId interface permission add
       modifyIptables).
Proof.
  unfold modifyPerNetworkRules. apply touchesOnly_bind.
  - apply touchesOnly_getRouteTableForInterface.
  - intros table. destruct (decide (table = 0)); [apply touchesOnly_ret|].
    do 3 (apply touchesOnly_orReturn; [apply touchesOnly_modifyIpRule|]).
    destruct modifyIptables; [|apply touchesOnly_ret].
    apply touchesOnly_same. reflexivity.
Qed.

Lemma touchesOnly_modifyVpnRules offset mask ci intValue netId interface action :
  touchesOnly (Some interface)
    (modifyVpnRules offset mask ci intValue netId interface action).
Proof.
  unfold modifyVpnRules. apply touchesOnly_bind.
  - apply touchesOnly_getRouteTableForInterface.
  - intros table. destruct (decide (table = 0)); [apply touchesOnly_ret|].
    apply touchesOnly_orReturn; apply touchesOnly_modifyIpRule.
Qed.

Lemma touchesOnly_modifyDefaultNetworkRules offset mask intValue interface
    permission action :
  touchesOnly (Some interface)
    (modifyDefaultNetworkRules offset mask intValue interface permission action).
Proof.
  unfold modifyDefaultNetworkRules. apply touchesOnly_bind.
  - apply touchesOnly_getRouteTableForInterface.
  - intros table. destruct (decide (table = 0)); [apply touchesOnly_ret|].
    apply touchesOnly_modifyIpRule.
Qed.

Lemma touchesOnly_modifyRoute offset parsePrefix inet_pton interface destination
    nexthop action tableType uid :
  touchesOnly (Some interface)
    (modifyRoute offset parsePrefix inet_pton interface destination nexthop
       action tableType uid).
Proof.
  unfold modifyRoute. apply touchesOnly_bind.
  - destruct tableType;
      [apply touchesOnly_getRouteTableForInterface|apply touchesOnly_ret..].
  - intros table. destruct (decide (table = 0)); [apply touchesOnly_ret|].
    apply touchesOnly_bind; [apply touchesOnly_modifyIpRoute|].
    intros r. destruct (decide _); [apply touchesOnly_ret|].
    destruct nexthop; [apply touchesOnly_ret|].
    apply touchesOnly_bind; [apply touchesOnly_modifyIpRoute|].
    intros r'. destruct (decide _); apply touchesOnly_ret.
Qed.

(** X16: a public call changes the registry at most at the interface it
    is given: the entry of every other name is after the call what it was
    before, whatever the call returns.  [Init] and a change of the
    interfaces of the system change no entry at all. *)
Theorem operation_touches_only_its_interface s op other w :
  interfaceOf op ≠ Some other →
  interfaceToIndex (runOperation s op w) !! other = interfaceToIndex w !! other.
Proof.
  intros Hne. revert w other Hne.
  destruct op; cbn [interfaceOf runOperation].
  - change (touchesOnly None (Init (routeTableOffset s) (fwmarkNetIdMask s)
              (permissionConnectivityInternal s) (fwmarkIntValue s))).
    unfold Init.
    do 3 (apply touchesOnly_orReturn; [apply touchesOnly_modifyIpRule|]).
    apply touchesOnly_ret.
  - apply touchesOnly_modifyPerNetworkRules.
  - apply touchesOnly_orReturn;
      [apply touchesOnly_modifyPerNetworkRules|apply touchesOnly_flushRoutes].
  - apply touchesOnly_orReturn;
      [apply touchesOnly_modifyPerNetworkRules|apply touchesOnly_modifyVpnRules].
  - apply touchesOnly_orReturn; [apply touchesOnly_modifyPerNetworkRules|].
    apply touchesOnly_orReturn;
      [apply touchesOnly_modifyVpnRules|apply touchesOnly_flushRoutes].
  - apply touchesOnly_orReturn; apply touchesOnly_modifyPerNetworkRules.
  - apply touchesOnly_modifyDefaultNetworkRules.
  - apply touchesOnly_modifyDefaultNetworkRules.
  - apply touchesOnly_modifyRoute.
  - apply touchesOnly_modifyRoute.
  - intros w other _. reflexivity.
Qed.

Lemma operation_touches_only_its_interface_witness :
  let before :=
    runOperations sample_settings
      [OpAddToDefaultNetwork "rmnet0" 0; OpAddInterfaceToNetwork 5 "wlan0" 0]%string
      (set_if_nametoindex two_interfaces sample_world) in
  let after :=
    runOperation sample_settings (OpRemoveInterfaceFromNetwork 5 "wlan0" 0) before in
  interfaceOf (OpRemoveInterfaceFromNetwork 5 "wlan0" 0) ≠ Some "rmnet0"%string ∧
  interfaceToIndex before !! "wlan0"%string = Some 5 ∧
  interfaceToIndex before !! "rmnet0"%string = Some 7 ∧
  interfaceToIndex after !! "wlan0"%string = None ∧
  interfaceToIndex after !! "rmnet0"%string = Some 7.
Proof.
  intros before after.
  assert (Hne : interfaceOf (OpRemoveInterfaceFromNetwork 5 "wlan0" 0)
                ≠ Some "rmnet0"%string) by discriminate.
  assert (Hbefore : interfaceToIndex before !! "rmnet0"%string = Some 7)
    by (vm_compute; reflexivity).
  split; [exact Hne|]. split; [vm_compute; reflexivity|].
  split; [exact Hbefore|]. split; [vm_compute; reflexivity|].
  subst after.
  rewrite (operation_touches_only_its_interface sample_settings _ "rmnet0" before Hne).
  exact Hbefore.
Defined.

(** ** The encoders against the messages of the spec *)



(** X18: once its checks have passed, what [modifyIpRoute] puts on the
    wire reads back as the route message of the spec: a static unicast
    route of the family and prefix length of the destination, with the
    table, the bytes of the destination, the index of the interface and,
    if a nexthop is given, the bytes of the gateway.  A new route is
    asked for with the create and exclusive flags, a removal with the
    plain request flags. *)
Theorem modifyIpRoute_writes_the_route_of_the_spec parsePrefix inet_pton action
    table interface destination nexthop w :
  routeChecksPass parsePrefix inet_pton w interface destination nexthop →
  let result :=
    modifyIpRoute parsePrefix inet_pton action table (Some interface)
      (Some destination) nexthop w in
  let p := parsePrefix destination in
  let flags :=
    if decide (action = RTM_NEWROUTE)
    then Z.lor (Z.lor (Z.lor NLM_F_REQUEST NLM_F_ACK) NLM_F_CREATE) NLM_F_EXCL
    else Z.lor NLM_F_REQUEST NLM_F_ACK in
  ∃ msg,
    result.2 = record (EvNetlink msg result.1) w ∧
    readRoute msg
    = Some (routeMessage action flags p table
              (Some (u32 (if_nametoindex w interface)))
              (if nexthop is Some address
               then Some (inet_pton (family p) address).2 else None)).
Proof.
  intros Hchecks result p flags. subst result.
  rewrite modifyIpRoute_ready by exact Hchecks.
  eexists. split; [rewrite send_eq; reflexivity|].
  exact (readRoute_routeRequest parsePrefix inet_pton w action table interface
           destination nexthop (proj1 Hchecks)).
Qed.

Lemma modifyIpRoute_writes_the_route_of_the_spec_witness :
  let result :=
    modifyIpRoute sample_parsePrefix sample_inet_pton RTM_NEWROUTE 1005
      (Some "wlan0"%string) (Some "192.0.2.0/24"%string)
      (Some "192.0.2.1"%string) sample_world in
  routeChecksPass sample_parsePrefix sample_inet_pton sample_world "wlan0"
    "192.0.2.0/24" (Some "192.0.2.1"%string) ∧
  (fun e => if e is EvNetlink msg _ then readRoute msg else None) <$> trace result.2
  = [ Some {| route_type := 24; route_flags := 1541; route_family := 2;
              route_dst_len := 24; route_protocol := 4; route_kind := 1;
              route_attrs := [(15, Word 1005); (1, Bytes [192; 0; 2; 0]);
                              (4, Word 5); (5, Bytes [192; 0; 2; 1])] |} ].
Proof.
  intros result.
  assert (Hchecks : routeChecksPass sample_parsePrefix sample_inet_pton
                      sample_world "wlan0" "192.0.2.0/24"
                      (Some "192.0.2.1"%string)).
  { split; [vm_compute; split; discriminate|].
    split; [vm_compute; discriminate|vm_compute; reflexivity]. }
  split; [exact Hchecks|].
  destruct (modifyIpRoute_writes_the_route_of_the_spec sample_parsePrefix
              sample_inet_pton RTM_NEWROUTE 1005 "wlan0" "192.0.2.0/24"
              (Some "192.0.2.1"%string) sample_world Hchecks) as (msg & Hw & Hread).
  subst result. rewrite Hw. cbn [record trace sample_world app fmap list_fmap].
  rewrite Hread. reflexivity.
Defined.
